(** * Merchant-API: inventory reservation and checkout settlement

    A shallow embedding of the reservation library ([lib/inventory]),
    the inventory update route, the reservation cancellation route, the
    checkout route and the Stripe webhook route, over an explicit model
    of the relational store.

    Conventions.
    - A table is the list of its rows in storage order; the [inventory]
      table, whose [variant_id] column carries a unique index, is a
      finite map from variant id to [stock_quantity].
    - SQL [integer] values and JS numbers holding integers are [Z].
      The 32-bit range of the [stock_quantity] column is checked where a
      number of the request enters a statement (the inventory update);
      the sums of stored quantities taken by a release or a cancellation
      are taken without it.  Money written as [(cents / 100).toFixed(2)]
      is kept as the integer number of hundredths.
    - A uuid is kept as its canonical text.  Text that reaches a uuid
      column without a schema check (the [cart_id] of a session's
      metadata) is read by the engine first, see [uuid_text].
    - Requests are taken one at a time: a handler runs from start to end
      on the store the previous one left.
    - A handler is a function from the state to an [outcome]: it either
      returns a value or throws, and in both cases leaves a state behind
      (statements executed outside a transaction persist when a later
      statement throws). *)

From stdpp Require Import base option list gmap strings fin_maps pretty.
From Stdlib Require Import ZArith Lia.

Local Open Scope string_scope.
Local Open Scope Z_scope.
Local Open Scope list_scope.

(** ** Errors and the state/exception monad *)

(** The errors the modelled code can raise.  [AppError] carries the HTTP
    status of the [errors] module ([BadRequestError] is [AppError 400],
    [NotFoundError] is [AppError 404], a bare [AppError] is 500).
    [TransactionRollbackError] is what drizzle's [tx.rollback()] throws
    (its declared type is [never]); [UniqueViolation] is the store
    rejecting an insert that collides on a unique index; [ZodError] is
    a request body, or a response, failing its schema; [StripeError] is
    a failed call to the payment provider; [DatabaseError] is the
    driver's error for a statement the engine refuses over one of its
    values: a number outside the range of an [integer] column, or text
    that is no uuid where a uuid is expected. *)
Inductive exn : Type :=
  | AppError (statusCode : Z) (message : string)
  | TransactionRollbackError
  | UniqueViolation (index : string)
  | ZodError
  | StripeError
  | DatabaseError.

Inductive outcome (S A : Type) : Type :=
  | Returned (a : A) (s : S)
  | Thrown (e : exn) (s : S).
Arguments Returned {S A} a s.
Arguments Thrown {S A} e s.

Definition M (S A : Type) : Type := S -> outcome S A.

Definition ret {S A} (a : A) : M S A := fun s => Returned a s.

Definition bind {S A B} (m : M S A) (k : A -> M S B) : M S B :=
  fun s => match m s with
           | Returned a s' => k a s'
           | Thrown e s' => Thrown e s'
           end.

Definition throw {S A} (e : exn) : M S A := fun s => Thrown e s.
Definition get {S} : M S S := fun s => Returned s s.
Definition put {S} (s' : S) : M S unit := fun _ => Returned tt s'.
Definition modify {S} (f : S -> S) : M S unit := fun s => Returned tt (f s).

Notation "'do' x <- m ;;; k" := (bind m (fun x => k))
  (at level 10, x name, m at level 100, k at level 200).
Notation "'exec' m ;;; k" := (bind m (fun _ => k))
  (at level 10, m at level 100, k at level 200).

Definition final_state {S A} (o : outcome S A) : S :=
  match o with Returned _ s => s | Thrown _ s => s end.

Definition returned {S A} (o : outcome S A) : option A :=
  match o with Returned a _ => Some a | Thrown _ _ => None end.

Definition thrown {S A} (o : outcome S A) : option exn :=
  match o with Returned _ _ => None | Thrown e _ => Some e end.

(** [try { m } catch { h }]. *)
Definition try_catch {S A} (m : M S A) (h : exn -> M S A) : M S A :=
  fun s => match m s with
           | Returned a s' => Returned a s'
           | Thrown e s' => h e s'
           end.

(** ** Tables *)

Abbreviation uuid := string (only parsing).

Inductive cart_status := active | ordered | abandoned.
Inductive order_status := pending | paid | failed | cancelled | returned_ | refunded.
Inductive stripe_status :=
  initiated | requires_payment_method | succeeded | payment_failed | canceled.

Global Instance cart_status_eq_dec : EqDecision cart_status.
Proof. solve_decision. Defined.
Global Instance order_status_eq_dec : EqDecision order_status.
Proof. solve_decision. Defined.

(** The columns of [variants] that the modelled code reads. *)
Record variant := {
  v_price : string;
  v_currency : option string;
  v_title : string;
  v_option : string;
  v_product_title : string
}.

Record reservation := {
  r_id : uuid;
  r_cart_id : uuid;
  r_variant_id : uuid;
  r_quantity : Z;
  r_expires_at : Z
}.

Record cart := {
  c_id : uuid;
  c_session_id : string;
  c_status : option cart_status;
  c_expires_at : Z
}.

(** A [cart_items] row as the relational queries load it, with its
    variant row joined ([variant_id] is a NOT NULL foreign key). *)
Record cart_item := {
  ci_cart_id : uuid;
  ci_product_id : uuid;
  ci_variant_id : uuid;
  ci_quantity : Z;
  ci_variant : variant
}.

(** The nine encrypted columns of [orders]; the same shape holds the
    plain values taken from the Stripe session. *)
Record pii := {
  email : option string;
  customer_name : option string;
  shipping_name : option string;
  shipping_address_line1 : option string;
  shipping_address_line2 : option string;
  shipping_city : option string;
  shipping_state : option string;
  shipping_postal_code : option string;
  shipping_country : option string
}.

Definition no_pii : pii :=
  {| email := None; customer_name := None; shipping_name := None;
     shipping_address_line1 := None; shipping_address_line2 := None;
     shipping_city := None; shipping_state := None;
     shipping_postal_code := None; shipping_country := None |}.

Record order := {
  o_id : uuid;
  o_cart_id : uuid;
  o_stripe_checkout_session_id : option string;
  o_stripe_payment_intent_id : option string;
  o_pii : pii;
  o_subtotal : option Z;
  o_total : option Z;
  o_shipping_cost : option Z;
  o_currency : string;
  o_status : order_status
}.

(** Rows of [order_items] and [payments]: their generated primary keys
    are never read by the modelled code and are left out. *)
Record order_item := {
  oi_order_id : uuid;
  oi_product_id : uuid;
  oi_variant_id : uuid;
  oi_quantity : Z;
  oi_unit_price : string;
  oi_currency : string
}.

Record payment := {
  p_order_id : uuid;
  p_status : stripe_status;
  p_stripe_checkout_session_id : option string;
  p_stripe_payment_intent_id : string;
  p_amount : Z;
  p_currency : string
}.

Record DB := {
  inventory : gmap string Z;
  reservations : list reservation;
  carts : list cart;
  cart_items : list cart_item;
  orders : list order;
  order_items : list order_item;
  payments : list payment
}.

Definition set_inventory (f : gmap string Z -> gmap string Z) (d : DB) : DB :=
  {| inventory := f (inventory d); reservations := reservations d;
     carts := carts d; cart_items := cart_items d; orders := orders d;
     order_items := order_items d; payments := payments d |}.

Definition set_reservations (f : list reservation -> list reservation) (d : DB) : DB :=
  {| inventory := inventory d; reservations := f (reservations d);
     carts := carts d; cart_items := cart_items d; orders := orders d;
     order_items := order_items d; payments := payments d |}.

Definition set_carts (f : list cart -> list cart) (d : DB) : DB :=
  {| inventory := inventory d; reservations := reservations d;
     carts := f (carts d); cart_items := cart_items d; orders := orders d;
     order_items := order_items d; payments := payments d |}.

Definition set_orders (f : list order -> list order) (d : DB) : DB :=
  {| inventory := inventory d; reservations := reservations d;
     carts := carts d; cart_items := cart_items d; orders := f (orders d);
     order_items := order_items d; payments := payments d |}.

Definition set_order_items (f : list order_item -> list order_item) (d : DB) : DB :=
  {| inventory := inventory d; reservations := reservations d;
     carts := carts d; cart_items := cart_items d; orders := orders d;
     order_items := f (order_items d); payments := payments d |}.

Definition set_payments (f : list payment -> list payment) (d : DB) : DB :=
  {| inventory := inventory d; reservations := reservations d;
     carts := carts d; cart_items := cart_items d; orders := orders d;
     order_items := order_items d; payments := f (payments d) |}.

(** [db.transaction(async (tx) => body)], as drizzle runs it: [begin],
    then the body; when the body returns, [commit] and return its value;
    when the body throws, [rollback] - the store is back to the state at
    [begin] - and the error is thrown again. *)
Definition transaction {A} (body : M DB A) : M DB A :=
  fun s => match body s with
           | Returned a s' => Returned a s'
           | Thrown e _ => Thrown e s
           end.

(** [tx.rollback()].  Its declared type is [never]: it does not return,
    it throws [TransactionRollbackError], and it is the rethrow of
    [transaction] that undoes the writes.  A statement placed after it
    is not reached. *)
Definition tx_rollback : M DB Empty_set := throw TransactionRollbackError.

(** ** lib/inventory *)

Record StockItem := { variant_id : uuid; quantity : Z }.

Inductive ReserveResult :=
  | success_true
  | success_false (failed_variant_id : uuid).

(** [UPDATE inventory SET stock_quantity = stock_quantity - q
     WHERE variant_id = v AND stock_quantity >= q RETURNING *]:
    the rows returned. *)
Definition decrement_if_available (v : uuid) (q : Z) : M DB (list (uuid * Z)) :=
  do d <- get ;;;
  match inventory d !! v with
  | Some stock =>
      if Z.leb q stock
      then exec put (set_inventory (insert v (stock - q)) d) ;;; ret [(v, stock - q)]
      else ret []
  | None => ret []
  end.

(** [UPDATE inventory SET stock_quantity = stock_quantity + q
     WHERE variant_id = v].  [q] is the quantity of a stored reservation
    row; the sum is taken without the 32-bit bound of the column. *)
Definition increment_stock (v : uuid) (q : Z) : M DB unit :=
  modify (set_inventory (alter (fun stock => stock + q) v)).

Definition insert_reservation (r : reservation) : M DB unit :=
  modify (set_reservations (fun rs => rs ++ [r])).

Definition cart_reservations (cartId : uuid) (d : DB) : list reservation :=
  filter (fun r => r_cart_id r = cartId) (reservations d).

Definition delete_cart_reservations (cartId : uuid) : M DB unit :=
  modify (set_reservations (filter (fun r => r_cart_id r <> cartId))).

(** The [for (const item of items)] loop of [reserveStock]; [fresh]
    yields the primary key the store generates for the [n]-th row
    inserted by this call. *)
Fixpoint reserve_loop (fresh : nat -> uuid) (n : nat) (cartId : uuid)
    (items : list StockItem) (expiresAt : Z) : M DB ReserveResult :=
  match items with
  | [] => ret success_true
  | item :: rest =>
      do result <- decrement_if_available (variant_id item) (quantity item) ;;;
      if Nat.eqb (length result) 0
      then exec tx_rollback ;;; ret (success_false (variant_id item))
      else
        exec insert_reservation
             {| r_id := fresh n; r_cart_id := cartId;
                r_variant_id := variant_id item; r_quantity := quantity item;
                r_expires_at := expiresAt |} ;;;
        reserve_loop fresh (S n) cartId rest expiresAt
  end.

Definition reserveStock (fresh : nat -> uuid) (cartId : uuid)
    (items : list StockItem) (expiresAt : Z) : M DB ReserveResult :=
  transaction (reserve_loop fresh 0 cartId items expiresAt).

Fixpoint restore_loop (rs : list reservation) : M DB unit :=
  match rs with
  | [] => ret tt
  | r :: rest => exec increment_stock (r_variant_id r) (r_quantity r) ;;; restore_loop rest
  end.

Definition restoreStockFromReservations (cartId : uuid) : M DB unit :=
  do d <- get ;;;
  let rs := cart_reservations cartId d in
  if Nat.eqb (length rs) 0 then ret tt
  else transaction (exec restore_loop rs ;;; delete_cart_reservations cartId).

Definition clearReservations (cartId : uuid) : M DB unit :=
  delete_cart_reservations cartId.

(** [getReservedQuantity]: [COALESCE(SUM(quantity), 0)] over the
    reservations of a variant, across all carts. *)
Definition getReservedQuantity (variantId : uuid) (d : DB) : Z :=
  foldr Z.add 0
    (r_quantity <$> filter (fun r => r_variant_id r = variantId) (reservations d)).

Record AvailableStock := {
  stock_quantity : Z;
  reserved_quantity : Z;
  available : Z
}.

Definition getAvailableStock (variantId : uuid) (d : DB) : option AvailableStock :=
  match inventory d !! variantId with
  | None => None
  | Some stock =>
      let reserved := getReservedQuantity variantId d in
      Some {| stock_quantity := stock; reserved_quantity := reserved;
              available := stock - reserved |}
  end.

(** ** The per-request event bag, the request state, the error handler *)

(** The entries of the event bag that report an outcome.  The other
    entries (echoes of the inputs and progress flags) are written and
    never read; they are left out. *)
Record EventError := {
  err_type : string;
  err_message : string;
  err_variant_id : option uuid;
  err_items : list (uuid * Z * Z)
}.

Definition event_error (type message : string) : EventError :=
  {| err_type := type; err_message := message;
     err_variant_id := None; err_items := [] |}.

Record Event := {
  ev_error : option EventError;
  ev_unhandled_event : option string
}.

Definition empty_event : Event :=
  {| ev_error := None; ev_unhandled_event := None |}.

(** The parameters of a [stripe.checkout.sessions.create] call that
    depend on the request. *)
Record line_item := {
  li_name : string;
  li_description : string;
  li_price : string;
  li_quantity : Z
}.

Record CreateParams := {
  cp_line_items : list line_item;
  cp_success_url : string;
  cp_cancel_url : string;
  cp_metadata_cart_id : uuid;
  cp_metadata_session_id : string
}.

(** What a request handler runs on: the store, its event bag, and the
    remote checkout sessions created so far. *)
Record World := {
  db : DB;
  event : Event;
  remote_sessions : list CreateParams
}.

Definition set_db (f : DB -> DB) (w : World) : World :=
  {| db := f (db w); event := event w; remote_sessions := remote_sessions w |}.

Definition liftDB {A} (m : M DB A) : M World A :=
  fun w => match m (db w) with
           | Returned a d => Returned a (set_db (fun _ => d) w)
           | Thrown e d => Thrown e (set_db (fun _ => d) w)
           end.

(** [event.error = e]. *)
Definition set_event_error (e : EventError) : M World unit :=
  modify (fun w =>
    {| db := db w;
       event := {| ev_error := Some e;
                   ev_unhandled_event := ev_unhandled_event (event w) |};
       remote_sessions := remote_sessions w |}).

Definition set_unhandled_event (type : string) : M World unit :=
  modify (fun w =>
    {| db := db w;
       event := {| ev_error := ev_error (event w);
                   ev_unhandled_event := Some type |};
       remote_sessions := remote_sessions w |}).

(** JS truthiness of an optional string ([!s] is true for [undefined],
    [null] and the empty string) and of an optional number. *)
Definition truthy_string (s : option string) : option string :=
  match s with
  | Some EmptyString => None
  | other => other
  end.

Definition truthy_number (n : option Z) : option Z :=
  match n with
  | Some 0 => None
  | other => other
  end.

Inductive json :=
  | json_received (received : bool)
  | json_message (message : string)
  | json_error (error : string)
  | json_inventory (variant : uuid) (stock : Z)
  | json_checkout (checkout_url session_id : string).

Record Response := { res_body : json; res_status : Z }.

(** [errorHandler] of the error middleware, for the errors of [exn]. *)
Definition errorHandler (err : exn) : Response :=
  match err with
  | ZodError => {| res_body := json_error "Validation Error"; res_status := 400 |}
  | AppError statusCode message =>
      {| res_body := json_error message; res_status := statusCode |}
  | _ => {| res_body := json_error "Internal Server Error"; res_status := 500 |}
  end.

(** The response a route sends: what the handler returned, or what the
    error handler makes of what it threw. *)
Definition respond (o : outcome World Response) : Response :=
  match o with
  | Returned r _ => r
  | Thrown e _ => errorHandler e
  end.

Definition BadRequestError (message : string) : exn := AppError 400 message.
Definition UnauthorizedError (message : string) : exn := AppError 401 message.
Definition NotFoundError (message : string) : exn := AppError 404 message.
Definition AppError500 (message : string) : exn := AppError 500 message.

(** ** routes/inventory/update-inventory *)

Record UpdateInventoryBody := {
  body_stock_quantity : option Z;
  body_adjust : option Z
}.

(** Modelled from the spec: [UpdateInventorySchema] of [db/schemas] is
    not among the sources.  The update accepts either an absolute
    [stock_quantity] or a signed [adjust], and the absolute quantity is
    enforced to be at least 0 (the route relies on it: "Validation
    already handled by schema (min: 0)"). *)
Definition UpdateInventorySchema (body : UpdateInventoryBody) : bool :=
  match body_stock_quantity body with
  | Some q => Z.leb 0 q
  | None => true
  end.

(** [stock_quantity] is an [integer] column: 32 bits. *)
Definition int4 (n : Z) : bool :=
  Z.leb (-2147483648) n && Z.leb n 2147483647.

(** [UPDATE inventory SET stock_quantity = f(stock_quantity)
     WHERE variant_id = v AND guard(stock_quantity) RETURNING *].
    [params] are the numbers of the request that the statement binds
    where the engine expects an [integer]: one outside the 32-bit range
    makes the statement fail before any row is read.  For the row that
    passes the guard the new value is computed as an [integer], and the
    statement fails when it leaves the range.  A failed statement
    changes nothing. *)
Definition update_inventory_where (v : uuid) (params : list Z) (guard : Z -> bool)
    (f : Z -> Z) : M DB (list (uuid * Z)) :=
  if negb (forallb int4 params) then throw DatabaseError
  else
  do d <- get ;;;
  match inventory d !! v with
  | Some stock =>
      if guard stock
      then if int4 (f stock)
           then exec put (set_inventory (insert v (f stock)) d) ;;;
                ret [(v, f stock)]
           else throw DatabaseError
      else ret []
  | None => ret []
  end.

Definition inventory_json (row : uuid * Z) : Response :=
  {| res_body := json_inventory (fst row) (snd row); res_status := 200 |}.

Definition update_inventory_handler (param_variant_id : uuid)
    (body : UpdateInventoryBody) : M World Response :=
  do w <- get ;;;
  match inventory (db w) !! param_variant_id with
  | None =>
      exec set_event_error (event_error "NotFound" "Inventory not found") ;;;
      throw (NotFoundError "Inventory not found")
  | Some existing =>
      match body_stock_quantity body with
      | Some q =>
          do updated <- liftDB (update_inventory_where param_variant_id [q]
                                  (fun _ => true) (fun _ => q)) ;;;
          match updated with
          | [] => throw (AppError500 "Failed to update inventory")
          | row :: _ => ret (inventory_json row)
          end
      | None =>
          match body_adjust body with
          | Some adjust =>
              if Z.ltb adjust 0 then
                let requiredStock := Z.abs adjust in
                do updated <- liftDB (update_inventory_where param_variant_id
                                        [adjust; requiredStock]
                                        (fun stock => Z.leb requiredStock stock)
                                        (fun stock => stock + adjust)) ;;;
                match updated with
                | [] =>
                    exec set_event_error
                      (event_error "BadRequest" "Insufficient stock for adjustment") ;;;
                    throw (BadRequestError
                             ("Insufficient stock. Current: " +:+ pretty existing
                              +:+ ", Adjustment: " +:+ pretty adjust))
                | row :: _ => ret (inventory_json row)
                end
              else
                do updated <- liftDB (update_inventory_where param_variant_id
                                        [adjust]
                                        (fun _ => true)
                                        (fun stock => stock + adjust)) ;;;
                match updated with
                | [] => throw (AppError500 "Failed to update inventory")
                | row :: _ => ret (inventory_json row)
                end
          | None => throw (AppError500 "Either stock_quantity or adjust must be provided")
          end
      end
  end.

(** The route: the body is validated against the schema, then handed to
    the handler. *)
Definition update_inventory_route (param_variant_id : uuid)
    (body : UpdateInventoryBody) : M World Response :=
  if UpdateInventorySchema body
  then update_inventory_handler param_variant_id body
  else throw ZodError.

(** ** routes/reservations: delete a reservation *)

Definition delete_reservation_handler (param_reservation_id : uuid)
    : M World Response :=
  do w <- get ;;;
  match filter (fun r => r_id r = param_reservation_id) (reservations (db w)) with
  | [] =>
      exec set_event_error (event_error "NotFound" "Reservation not found") ;;;
      throw (NotFoundError "Reservation not found")
  | reservation :: _ =>
      exec liftDB (transaction (
        exec increment_stock (r_variant_id reservation) (r_quantity reservation) ;;;
        modify (set_reservations (filter (fun r => r_id r <> param_reservation_id))))) ;;;
      ret {| res_body :=
               json_message ("Reservation " +:+ param_reservation_id
                             +:+ " deleted and stock restored");
             res_status := 200 |}
  end.

(** ** routes/cart: checkout *)

(** A [Stripe.Checkout.Session], as far as the modelled code reads it.
    [s_customer] holds the plain values of [customer_details] and of
    [collected_information.shipping_details]. *)
Record Session := {
  s_id : string;
  s_url : option string;
  s_metadata_cart_id : option string;
  s_payment_intent : option string;
  s_amount_subtotal : option Z;
  s_amount_total : option Z;
  s_shipping_cost_amount_total : option Z;
  s_currency : option string;
  s_customer : pii
}.

Record CheckoutBody := { success_url : string; cancel_url : string }.

(** The three clock readings of one checkout request: [new Date()] at
    the expiry check, the store's [now()] when the cart's expiry is
    refreshed, and [Date.now()] when the reservation expiry is computed
    (milliseconds). *)
Record Clock := { clk_check : Z; clk_db_now : Z; clk_reserve : Z }.

Definition thirty_minutes : Z := 30 * 60 * 1000.

(** [stripe.checkout.sessions.create(params)] against a provider [stripe]
    that either yields a session or fails. *)
Definition stripe_checkout_sessions_create
    (stripe : CreateParams -> option Session) (params : CreateParams)
    : M World Session :=
  match stripe params with
  | None => throw StripeError
  | Some session =>
      exec modify (fun w =>
        {| db := db w; event := event w;
           remote_sessions := remote_sessions w ++ [params] |}) ;;;
      ret session
  end.

Definition find_cart_by_session (sessionId : string) (d : DB) : option cart :=
  head (filter (fun c => c_session_id c = sessionId) (carts d)).

Definition find_cart_by_id (cartId : uuid) (d : DB) : option cart :=
  head (filter (fun c => c_id c = cartId) (carts d)).

Definition items_of_cart (cartId : uuid) (d : DB) : list cart_item :=
  filter (fun it => ci_cart_id it = cartId) (cart_items d).

(** [UPDATE carts SET ... WHERE id = cartId RETURNING *]. *)
Definition update_cart (cartId : uuid) (f : cart -> cart) : M DB (list cart) :=
  do d <- get ;;;
  exec put (set_carts (fmap (fun c => if decide (c_id c = cartId) then f c else c)) d) ;;;
  ret (f <$> filter (fun c => c_id c = cartId) (carts d)).

Definition with_expires_at (t : Z) (c : cart) : cart :=
  {| c_id := c_id c; c_session_id := c_session_id c;
     c_status := c_status c; c_expires_at := t |}.

Definition with_cart_status (st : cart_status) (c : cart) : cart :=
  {| c_id := c_id c; c_session_id := c_session_id c;
     c_status := Some st; c_expires_at := c_expires_at c |}.

(** [INSERT INTO orders ... RETURNING *]; [cart_id] and
    [stripe_checkout_session_id] carry unique indexes. *)
Definition insert_order (o : order) : M DB (list order) :=
  do d <- get ;;;
  if bool_decide (Exists (fun o' => o_cart_id o' = o_cart_id o) (orders d))
  then throw (UniqueViolation "orders_cart_id_unique")
  else if bool_decide (Exists (fun o' =>
            is_Some (o_stripe_checkout_session_id o) /\
            o_stripe_checkout_session_id o' = o_stripe_checkout_session_id o)
            (orders d))
  then throw (UniqueViolation "orders_checkout_session_idx")
  else exec put (set_orders (fun os => os ++ [o]) d) ;;; ret [o].

Definition stock_item_of (it : cart_item) : StockItem :=
  {| variant_id := ci_variant_id it; quantity := ci_quantity it |}.

Definition line_item_of (it : cart_item) : line_item :=
  {| li_name := v_product_title (ci_variant it);
     li_description := v_option (ci_variant it);
     li_price := v_price (ci_variant it);
     li_quantity := ci_quantity it |}.

(** [inventoryMap.get(variant_id) ?? 0]. *)
Definition stock_or_zero (d : DB) (v : uuid) : Z := default 0 (inventory d !! v).

Definition stockErrors (d : DB) (items : list cart_item) : list (uuid * Z * Z) :=
  (fun it => (ci_variant_id it, ci_quantity it, stock_or_zero d (ci_variant_id it)))
    <$> filter (fun it => stock_or_zero d (ci_variant_id it) < ci_quantity it) items.

Definition checkout_handler (stripe : CreateParams -> option Session)
    (clk : Clock) (fresh : nat -> uuid) (new_order_id : uuid)
    (header_session_id : option string) (body : CheckoutBody)
    : M World Response :=
  match truthy_string header_session_id with
  | None => throw (UnauthorizedError "Session ID required")
  | Some sessionId =>
  do w <- get ;;;
  match find_cart_by_session sessionId (db w) with
  | None =>
      exec set_event_error (event_error "BadRequest" "Cart is empty") ;;;
      throw (BadRequestError "Cart is empty")
  | Some cart =>
  let items := items_of_cart (c_id cart) (db w) in
  if Nat.eqb (length items) 0 then
    exec set_event_error (event_error "BadRequest" "Cart is empty") ;;;
    throw (BadRequestError "Cart is empty")
  else if Z.ltb (c_expires_at cart) (clk_check clk) then
    exec set_event_error (event_error "BadRequest" "Cart has expired") ;;;
    throw (BadRequestError "Cart has expired")
  else
  exec liftDB (update_cart (c_id cart)
                 (with_expires_at (clk_db_now clk + thirty_minutes))) ;;;
  if negb (bool_decide (c_status cart = Some active)) then
    exec set_event_error (event_error "BadRequest" "Cart already checked out") ;;;
    throw (BadRequestError "Cart already checked out")
  else
  do w1 <- get ;;;
  let errors := stockErrors (db w1) items in
  if Nat.ltb 0 (length errors) then
    exec set_event_error
      {| err_type := "BadRequest"; err_message := "Insufficient stock";
         err_variant_id := None; err_items := errors |} ;;;
    throw (BadRequestError "Insufficient stock")
  else
  let reservationExpiry := clk_reserve clk + thirty_minutes in
  do reserveResult <-
    liftDB (reserveStock fresh (c_id cart) (stock_item_of <$> items)
              reservationExpiry) ;;;
  match reserveResult with
  | success_false failed_variant_id =>
      exec set_event_error
        {| err_type := "BadRequest";
           err_message := "Stock changed, please try again";
           err_variant_id := Some failed_variant_id; err_items := [] |} ;;;
      throw (BadRequestError "Stock changed, please try again")
  | success_true =>
  let params :=
    {| cp_line_items := line_item_of <$> items;
       cp_success_url := success_url body;
       cp_cancel_url := cancel_url body;
       cp_metadata_cart_id := c_id cart;
       cp_metadata_session_id := sessionId |} in
  do checkoutSession <-
    try_catch (stripe_checkout_sessions_create stripe params)
      (fun _ =>
         exec liftDB (restoreStockFromReservations (c_id cart)) ;;;
         throw (AppError500 "Failed to create checkout session")) ;;;
  match truthy_string (s_url checkoutSession) with
  | None =>
      exec liftDB (restoreStockFromReservations (c_id cart)) ;;;
      throw (AppError500 "Checkout creating failed")
  | Some checkout_url =>
  do updatedCart <- liftDB (update_cart (c_id cart) (with_cart_status ordered)) ;;;
  match updatedCart with
  | [] =>
      exec liftDB (restoreStockFromReservations (c_id cart)) ;;;
      exec set_event_error (event_error "InsertionError" "Failed to create order") ;;;
      throw (AppError500 "Failed to update cart status")
  | _ :: _ =>
  do inserted <- liftDB (insert_order
    {| o_id := new_order_id; o_cart_id := c_id cart;
       o_stripe_checkout_session_id := Some (s_id checkoutSession);
       o_stripe_payment_intent_id := None; o_pii := no_pii;
       o_subtotal := None; o_total := None; o_shipping_cost := None;
       o_currency := "usd"; o_status := pending |}) ;;;
  match inserted with
  | [] =>
      exec liftDB (restoreStockFromReservations (c_id cart)) ;;;
      exec set_event_error (event_error "InsertionError" "Failed to create order") ;;;
      throw (AppError500 "Something went wrong")
  | _ :: _ =>
      ret {| res_body := json_checkout checkout_url (s_id checkoutSession);
             res_status := 200 |}
  end end end end end end.

(** ** Text compared with a uuid column *)

(** The ids of the tables are [uuid] columns; the model keeps a uuid as
    its canonical text.  A statement that compares such a column with a
    text parameter makes the engine read the text as a uuid first, and
    fails (invalid input syntax for type uuid) when the text is none.
    Path parameters are checked by their route schema
    ([z.string().uuid()]); the [cart_id] of a session's metadata reaches
    the statements as it came.  [is_uuid] is the engine's decision on a
    text.  The text of a stored cart id is a uuid whatever [is_uuid]
    answers: the columns [carts.id], [reservations.cart_id] and
    [cart_items.cart_id] hold nothing else. *)
Definition uuid_text (is_uuid : string -> bool) (d : DB) (text : string) : bool :=
  is_uuid text
  || bool_decide (text ∈ (c_id <$> carts d) ++ (r_cart_id <$> reservations d)
                         ++ (ci_cart_id <$> cart_items d)).

(** The engine reading the parameter of a comparison with a uuid column,
    in the store [d]. *)
Definition uuid_param {S} (is_uuid : string -> bool) (d : DB) (text : string)
    : M S unit :=
  if uuid_text is_uuid d text then ret tt else throw DatabaseError.

(** ** routes/webhooks/stripe *)

Record StripeEvent := {
  se_id : string;
  se_type : string;
  se_data_object : Session
}.

Record Env := {
  STRIPE_WEBHOOK_SECRET : option string;
  ENCRYPTION_KEY : string
}.

(** [encryptField]: [encrypt] draws a fresh salt and IV on every call;
    [enc n] is the cipher as it behaves on the [n]-th call of one
    invocation of the handler. *)
Definition encryptField (enc : nat -> string -> string -> string)
    (encryptionKey : string) (n : nat) (value : option string) : option string :=
  match truthy_string value with
  | None => None
  | Some v => Some (enc n v encryptionKey)
  end.

Definition encrypt_pii (enc : nat -> string -> string -> string)
    (encryptionKey : string) (p : pii) : pii :=
  {| email := encryptField enc encryptionKey 0 (email p);
     customer_name := encryptField enc encryptionKey 1 (customer_name p);
     shipping_name := encryptField enc encryptionKey 2 (shipping_name p);
     shipping_address_line1 :=
       encryptField enc encryptionKey 3 (shipping_address_line1 p);
     shipping_address_line2 :=
       encryptField enc encryptionKey 4 (shipping_address_line2 p);
     shipping_city := encryptField enc encryptionKey 5 (shipping_city p);
     shipping_state := encryptField enc encryptionKey 6 (shipping_state p);
     shipping_postal_code :=
       encryptField enc encryptionKey 7 (shipping_postal_code p);
     shipping_country := encryptField enc encryptionKey 8 (shipping_country p) |}.

Definition find_order_by_session (checkoutSessionId : string) (d : DB)
    : option order :=
  head (filter (fun o => o_stripe_checkout_session_id o = Some checkoutSessionId)
          (orders d)).

(** [UPDATE orders SET ... WHERE id = orderId]. *)
Definition update_order (orderId : uuid) (f : order -> order) : M DB unit :=
  modify (set_orders (fmap (fun o => if decide (o_id o = orderId) then f o else o))).

Definition with_order_status (st : order_status) (o : order) : order :=
  {| o_id := o_id o; o_cart_id := o_cart_id o;
     o_stripe_checkout_session_id := o_stripe_checkout_session_id o;
     o_stripe_payment_intent_id := o_stripe_payment_intent_id o;
     o_pii := o_pii o; o_subtotal := o_subtotal o; o_total := o_total o;
     o_shipping_cost := o_shipping_cost o; o_currency := o_currency o;
     o_status := st |}.

(** The [.set({...})] of the completion handler. *)
Definition settle_order (enc : nat -> string -> string -> string)
    (encryptionKey : string) (session : Session) (o : order) : order :=
  {| o_id := o_id o; o_cart_id := o_cart_id o;
     o_stripe_checkout_session_id := o_stripe_checkout_session_id o;
     o_stripe_payment_intent_id := s_payment_intent session;
     o_pii := encrypt_pii enc encryptionKey (s_customer session);
     o_subtotal := truthy_number (s_amount_subtotal session);
     o_total := truthy_number (s_amount_total session);
     o_shipping_cost := truthy_number (s_shipping_cost_amount_total session);
     o_currency := default "eur" (s_currency session);
     o_status := paid |}.

Definition order_item_of (orderId : uuid) (item : cart_item) : order_item :=
  {| oi_order_id := orderId;
     oi_product_id := ci_product_id item;
     oi_variant_id := ci_variant_id item;
     oi_quantity := ci_quantity item;
     oi_unit_price := v_price (ci_variant item);
     oi_currency := default "eur" (v_currency (ci_variant item)) |}.

Definition insert_order_items (rows : list order_item) : M DB unit :=
  modify (set_order_items (fun ois => ois ++ rows)).

(** [INSERT INTO payments]; [stripe_checkout_session_id] and
    [stripe_payment_intent_id] carry unique indexes (a unique index
    admits any number of NULLs). *)
Definition session_idx_collides (p : payment) (d : DB) : bool :=
  bool_decide (Exists (fun p' =>
    is_Some (p_stripe_checkout_session_id p) /\
    p_stripe_checkout_session_id p' = p_stripe_checkout_session_id p) (payments d)).

Definition intent_idx_collides (p : payment) (d : DB) : bool :=
  bool_decide (Exists (fun p' =>
    p_stripe_payment_intent_id p' = p_stripe_payment_intent_id p) (payments d)).

Definition payment_collides (p : payment) (d : DB) : bool :=
  session_idx_collides p d || intent_idx_collides p d.

Definition insert_payment (p : payment) : M DB unit :=
  do d <- get ;;;
  if session_idx_collides p d
  then throw (UniqueViolation "payments_checkout_session_idx")
  else if intent_idx_collides p d
  then throw (UniqueViolation "payments_payment_intent_idx")
  else put (set_payments (fun ps => ps ++ [p]) d).

Definition payment_of (orderId : uuid) (session : Session) (payment_intent : string)
    : payment :=
  {| p_order_id := orderId;
     p_status := succeeded;
     p_stripe_checkout_session_id := Some (s_id session);
     p_stripe_payment_intent_id := payment_intent;
     p_amount := default 0 (truthy_number (s_amount_total session));
     p_currency := default "eur" (s_currency session) |}.

Definition handleCheckoutCompleted (is_uuid : string -> bool)
    (enc : nat -> string -> string -> string)
    (session : Session) (encryptionKey : string) : M World unit :=
  let checkoutSessionId := s_id session in
  match truthy_string (s_metadata_cart_id session) with
  | None =>
      set_event_error
        (event_error "BadRequest" "Missing cart_id in session metadata")
  | Some cartId =>
  do w <- get ;;;
  match find_order_by_session checkoutSessionId (db w) with
  | None => set_event_error (event_error "NotFound" "Order not found")
  | Some order =>
  exec uuid_param is_uuid (db w) cartId ;;;
  match find_cart_by_id cartId (db w) with
  | None => set_event_error (event_error "NotFound" "Cart not found")
  | Some cart =>
  let items := items_of_cart (c_id cart) (db w) in
  exec liftDB (update_order (o_id order)
                 (settle_order enc encryptionKey session)) ;;;
  let orderItems := order_item_of (o_id order) <$> items in
  exec (if Nat.ltb 0 (length orderItems)
        then liftDB (insert_order_items orderItems)
        else ret tt) ;;;
  exec (match truthy_string (s_payment_intent session) with
        | Some payment_intent =>
            liftDB (insert_payment (payment_of (o_id order) session payment_intent))
        | None => ret tt
        end) ;;;
  liftDB (clearReservations cartId)
  end end end.

Definition handleCheckoutExpired (is_uuid : string -> bool) (session : Session)
    : M World unit :=
  let checkoutSessionId := s_id session in
  match truthy_string (s_metadata_cart_id session) with
  | None =>
      set_event_error
        (event_error "BadRequest" "Missing cart_id in session metadata")
  | Some cartId =>
  do w <- get ;;;
  exec (match find_order_by_session checkoutSessionId (db w) with
        | Some order => liftDB (update_order (o_id order) (with_order_status failed))
        | None => ret tt
        end) ;;;
  do w1 <- get ;;;
  exec uuid_param is_uuid (db w1) cartId ;;;
  exec liftDB (restoreStockFromReservations cartId) ;;;
  exec liftDB (update_cart cartId (with_cart_status abandoned)) ;;;
  ret tt
  end.

(** The webhook route.  [constructEvent rawBody signature secret] is
    the provider's signature check: the verified event, or nothing when
    the signature does not verify. *)
Definition stripe_webhook_handler (is_uuid : string -> bool)
    (constructEvent : string -> string -> string -> option StripeEvent)
    (enc : nat -> string -> string -> string) (env : Env)
    (rawBody : string) (header_signature : option string) : M World Response :=
  match truthy_string header_signature with
  | None =>
      exec set_event_error
        (event_error "BadRequest" "Missing stripe-signature header") ;;;
      ret {| res_body := json_message "Missing stripe-signature header";
             res_status := 400 |}
  | Some signature =>
  match truthy_string (STRIPE_WEBHOOK_SECRET env) with
  | None =>
      exec set_event_error
        (event_error "ConfigError" "STRIPE_WEBHOOK_SECRET not configured") ;;;
      ret {| res_body := json_message "Webhook secret not configured";
             res_status := 500 |}
  | Some webhookSecret =>
  match constructEvent rawBody signature webhookSecret with
  | None =>
      exec set_event_error (event_error "BadRequest" "Invalid webhook signature") ;;;
      ret {| res_body := json_message "Invalid webhook signature";
             res_status := 400 |}
  | Some stripeEvent =>
      exec (if String.eqb (se_type stripeEvent) "checkout.session.completed"
            then handleCheckoutCompleted is_uuid enc (se_data_object stripeEvent)
                   (ENCRYPTION_KEY env)
            else if String.eqb (se_type stripeEvent) "checkout.session.expired"
            then handleCheckoutExpired is_uuid (se_data_object stripeEvent)
            else set_unhandled_event (se_type stripeEvent)) ;;;
      ret {| res_body := json_received true; res_status := 200 |}
  end end end.


(** ** lib/crypto *)

(** The cipher under [encrypt] and [decrypt] (PBKDF2 key derivation,
    AES-256-GCM, base64) is taken as given: [seal n plaintext key] is
    the sealed text produced with the [n]-th salt and IV drawn, and
    [unseal data key] is the plaintext, or nothing when the data does
    not decode or authenticate (the call throws). *)
Definition encrypt (seal : nat -> string -> string -> string) (n : nat)
    (plaintext encryptionKey : string) : string :=
  if decide (plaintext = "") then "" else seal n plaintext encryptionKey.

Definition decrypt (unseal : string -> string -> option string)
    (encryptedData encryptionKey : string) : option string :=
  if decide (encryptedData = "") then Some "" else unseal encryptedData encryptionKey.

(** One round of the loop over [PII_FIELDS] in [encryptPII]: a field is
    sealed when it holds a non-empty string. *)
Definition encryptPII_field (seal : nat -> string -> string -> string)
    (encryptionKey : string) (n : nat) (value : option string) : option string :=
  match value with
  | Some v => if decide (v = "") then Some v
              else Some (encrypt seal n v encryptionKey)
  | None => None
  end.

Definition encryptPII (seal : nat -> string -> string -> string)
    (encryptionKey : string) (data : pii) : pii :=
  {| email := encryptPII_field seal encryptionKey 0 (email data);
     customer_name := encryptPII_field seal encryptionKey 1 (customer_name data);
     shipping_name := encryptPII_field seal encryptionKey 2 (shipping_name data);
     shipping_address_line1 :=
       encryptPII_field seal encryptionKey 3 (shipping_address_line1 data);
     shipping_address_line2 :=
       encryptPII_field seal encryptionKey 4 (shipping_address_line2 data);
     shipping_city := encryptPII_field seal encryptionKey 5 (shipping_city data);
     shipping_state := encryptPII_field seal encryptionKey 6 (shipping_state data);
     shipping_postal_code :=
       encryptPII_field seal encryptionKey 7 (shipping_postal_code data);
     shipping_country :=
       encryptPII_field seal encryptionKey 8 (shipping_country data) |}.

(** One round of the loop in [decryptPII]: a non-empty string is
    replaced by its plaintext; when [decrypt] throws the value is kept. *)
Definition decryptPII_field (unseal : string -> string -> option string)
    (encryptionKey : string) (value : option string) : option string :=
  match value with
  | Some v =>
      if decide (v = "") then Some v
      else match decrypt unseal v encryptionKey with
           | Some plaintext => Some plaintext
           | None => Some v
           end
  | None => None
  end.

Definition decryptPII (unseal : string -> string -> option string)
    (encryptionKey : string) (data : pii) : pii :=
  {| email := decryptPII_field unseal encryptionKey (email data);
     customer_name := decryptPII_field unseal encryptionKey (customer_name data);
     shipping_name := decryptPII_field unseal encryptionKey (shipping_name data);
     shipping_address_line1 :=
       decryptPII_field unseal encryptionKey (shipping_address_line1 data);
     shipping_address_line2 :=
       decryptPII_field unseal encryptionKey (shipping_address_line2 data);
     shipping_city := decryptPII_field unseal encryptionKey (shipping_city data);
     shipping_state := decryptPII_field unseal encryptionKey (shipping_state data);
     shipping_postal_code :=
       decryptPII_field unseal encryptionKey (shipping_postal_code data);
     shipping_country :=
       decryptPII_field unseal encryptionKey (shipping_country data) |}.

(** [TextEncoder.encode]: the bytes of the string. *)
Definition encode (s : string) : list Z :=
  (fun c => Z.of_N (Ascii.N_of_ascii c)) <$> String.list_ascii_of_string s.

(** The comparison loop of [timingSafeEqual]:
    [result |= aArray[i] ^ bArray[i]] for [i] below [aArray.length]; an
    index past the end of [bArray] reads [undefined], which the bit
    operation takes as 0. *)
Fixpoint xor_fold (aArray bArray : list Z) (result : Z) : Z :=
  match aArray with
  | [] => result
  | x :: rest =>
      xor_fold rest (tail bArray)
        (Z.lor result (Z.lxor x (default 0 (head bArray))))
  end.

(** [timingSafeEqual], over the digest [sha256] of [crypto.subtle]. *)
Definition timingSafeEqual (sha256 : list Z -> list Z) (a b : string) : bool :=
  let aBytes := encode a in
  let bBytes := encode b in
  if negb (Nat.eqb (length aBytes) (length bBytes)) then false
  else Z.eqb (xor_fold (sha256 aBytes) (sha256 bBytes) 0) 0.

(** ** middleware/admin-auth *)

Definition ForbiddenError (message : string) : exn := AppError 403 message.

(** [adminAuth]: [next] is the rest of the route.  The [isAdmin] flag it
    sets on the request context is read by no modelled code. *)
Definition adminAuth {A} (sha256 : list Z -> list Z)
    (header_api_key ADMIN_API_KEY : option string) (next : M World A) : M World A :=
  match truthy_string ADMIN_API_KEY with
  | None => throw (ForbiddenError "Admin authentication not configured")
  | Some adminKey =>
      match truthy_string header_api_key with
      | None => throw (ForbiddenError "API key required")
      | Some apiKey =>
          if timingSafeEqual sha256 apiKey adminKey then next
          else throw (ForbiddenError "Invalid API key")
      end
  end.

(** The inventory update and the reservation cancellation as mounted:
    [app.use('*', adminAuth)] runs before the route. *)
Definition admin_update_inventory (sha256 : list Z -> list Z)
    (header_api_key ADMIN_API_KEY : option string) (param_variant_id : uuid)
    (body : UpdateInventoryBody) : M World Response :=
  adminAuth sha256 header_api_key ADMIN_API_KEY
    (update_inventory_route param_variant_id body).

Definition admin_delete_reservation (sha256 : list Z -> list Z)
    (header_api_key ADMIN_API_KEY : option string) (param_reservation_id : uuid)
    : M World Response :=
  adminAuth sha256 header_api_key ADMIN_API_KEY
    (delete_reservation_handler param_reservation_id).

(** ** routes/inventory: read one unit *)

(** The value of a numeric result column at run time.  The driver
    (node-postgres) delivers an [integer] as a JS number and a [bigint]
    - the type of [SUM] over an integer column, inside [COALESCE] or
    not - as its decimal text; [sql<number>] declares a TypeScript type
    and maps nothing. *)
Inductive driver_value :=
  | js_number (n : Z)
  | js_text (n : Z).

(** What a caller of [getReservedQuantity] holds:
    [result[0]?.total ?? 0], the [total] column as delivered. *)
Definition getReservedQuantity_delivered (variantId : uuid) (d : DB)
    : driver_value :=
  js_text (getReservedQuantity variantId d).

(** [a - b] in JS: text is converted to the number it spells. *)
Definition js_minus (a : Z) (b : driver_value) : Z :=
  match b with js_number n | js_text n => a - n end.

(** [InventoryResponseSchema.parse(response)], on the two fields the
    route adds to the inventory row: [reserved_quantity: z.number().int()]
    refuses text; [available] is the result of a subtraction, a number.
    The parse throws [ZodError] when a field is refused. *)
Definition InventoryResponseSchema_parse (stock : Z) (reserved_quantity : driver_value)
    (available : Z) : option AvailableStock :=
  match reserved_quantity with
  | js_number n =>
      Some {| stock_quantity := stock; reserved_quantity := n;
              available := available |}
  | js_text _ => None
  end.

(** The handler returns the body it sends with status 200:
    [InventoryResponseSchema.parse({ ...inventory, reserved_quantity,
    available })]. *)
Definition get_single_inventory_handler (param_variant_id : uuid)
    : M World AvailableStock :=
  do w <- get ;;;
  match inventory (db w) !! param_variant_id with
  | None =>
      exec set_event_error (event_error "NotFound" "Inventory not found") ;;;
      throw (NotFoundError "Inventory not found")
  | Some stock =>
      let reserved_quantity :=
        getReservedQuantity_delivered param_variant_id (db w) in
      match InventoryResponseSchema_parse stock reserved_quantity
              (js_minus stock reserved_quantity) with
      | Some response => ret response
      | None => throw ZodError
      end
  end.

(** ** routes/reservations: read one reservation *)


(** ** routes/orders: read one order *)

Record OrderWithItems := { ow_order : order; ow_items : list order_item }.

Definition with_pii (p : pii) (o : order) : order :=
  {| o_id := o_id o; o_cart_id := o_cart_id o;
     o_stripe_checkout_session_id := o_stripe_checkout_session_id o;
     o_stripe_payment_intent_id := o_stripe_payment_intent_id o;
     o_pii := p; o_subtotal := o_subtotal o; o_total := o_total o;
     o_shipping_cost := o_shipping_cost o; o_currency := o_currency o;
     o_status := o_status o |}.

(** The handler of [GET /orders/{order_id}] (behind [adminAuth]): the
    order with its items, its PII columns decrypted. *)
Definition get_single_order_handler (unseal : string -> string -> option string)
    (encryptionKey : string) (param_order_id : uuid) : M World OrderWithItems :=
  do w <- get ;;;
  match head (filter (fun o => o_id o = param_order_id) (orders (db w))) with
  | None =>
      exec set_event_error (event_error "NotFound" "Order not found") ;;;
      throw (NotFoundError "Order not found")
  | Some order =>
      ret {| ow_order :=
               with_pii (decryptPII unseal encryptionKey (o_pii order)) order;
             ow_items :=
               filter (fun it => oi_order_id it = o_id order) (order_items (db w)) |}
  end.

(** The status a route answers with: 200 for the body a handler
    returns, the error handler's status for what it throws. *)
Definition status_of {A} (o : outcome World A) : Z :=
  match o with
  | Returned _ _ => 200
  | Thrown e _ => res_status (errorHandler e)
  end.

(** ** Specification-level functions *)

(** The quantity a list of (unit, quantity) pairs holds for unit [v]. *)
Definition total_for (v : uuid) (l : list (uuid * Z)) : Z :=
  foldr (fun p acc => if decide (p.1 = v) then p.2 + acc else acc) 0 l.

Definition held (r : reservation) : uuid * Z := (r_variant_id r, r_quantity r).
Definition requested (it : StockItem) : uuid * Z := (variant_id it, quantity it).

(** The ledger after each listed quantity is added to (resp. taken
    from) the row of its unit; units without a row are skipped. *)
Definition credit (l : list (uuid * Z)) (m : gmap string Z) : gmap string Z :=
  foldl (fun m p => alter (fun stock => stock + p.2) p.1 m) m l.

Definition debit (l : list (uuid * Z)) (m : gmap string Z) : gmap string Z :=
  foldl (fun m p => alter (fun stock => stock - p.2) p.1 m) m l.

(** The first item (with its position, counted from [k]) whose unit has
    no row or less stock than requested once the items before it have
    been taken from the ledger. *)
Fixpoint first_shortfall (m : gmap string Z) (items : list StockItem) (k : nat)
    : option (nat * StockItem) :=
  match items with
  | [] => None
  | item :: rest =>
      match m !! variant_id item with
      | Some stock =>
          if Z.leb (quantity item) stock
          then first_shortfall
                 (alter (fun s => s - quantity item) (variant_id item) m) rest (S k)
          else Some (k, item)
      | None => Some (k, item)
      end
  end.

(** The availability guard of one item against a ledger, and the
    ledger an item meets when the [k] items before it have been taken. *)
Definition guard_passes (m : gmap string Z) (item : StockItem) : bool :=
  match m !! variant_id item with
  | Some stock => Z.leb (quantity item) stock
  | None => false
  end.

Definition ledger_before (k : nat) (items : list StockItem) (m : gmap string Z)
    : gmap string Z :=
  debit (requested <$> take k items) m.

(** The reservation rows a successful [reserveStock] inserts. *)
Fixpoint reservation_rows (fresh : nat -> uuid) (n : nat) (cartId : uuid)
    (items : list StockItem) (expiresAt : Z) : list reservation :=
  match items with
  | [] => []
  | item :: rest =>
      {| r_id := fresh n; r_cart_id := cartId; r_variant_id := variant_id item;
         r_quantity := quantity item; r_expires_at := expiresAt |}
      :: reservation_rows fresh (S n) cartId rest expiresAt
  end.

(** The store after the reservations of a cart are released. *)
Definition released (cartId : uuid) (d : DB) : DB :=
  set_reservations (filter (fun r => r_cart_id r <> cartId))
    (set_inventory (credit (held <$> cart_reservations cartId d)) d).

(** Invariant (a) of the data model, with the positivity of the
    reserved quantities that keeps it. *)
Definition stock_nonneg (d : DB) : Prop :=
  map_Forall (fun _ stock => 0 <= stock) (inventory d).

Definition reservations_positive (d : DB) : Prop :=
  Forall (fun r => 0 < r_quantity r) (reservations d).

Definition ledger_sound (d : DB) : Prop :=
  stock_nonneg d /\ reservations_positive d.

(** The rows the settlement handlers rewrite. *)
Definition fail_order (orderId : uuid) (o : order) : order :=
  if decide (o_id o = orderId) then with_order_status failed o else o.

Definition abandon_cart (cartId : uuid) (c : cart) : cart :=
  if decide (c_id c = cartId) then with_cart_status abandoned c else c.

Definition pay_order (enc : nat -> string -> string -> string)
    (encryptionKey : string) (session : Session) (orderId : uuid) (o : order)
    : order :=
  if decide (o_id o = orderId) then settle_order enc encryptionKey session o else o.

(** The store after the completion handler has rewritten the order and
    inserted the order items. *)
Definition settled_rows (enc : nat -> string -> string -> string)
    (encryptionKey : string) (session : Session) (order : order) (cartId : uuid)
    (d : DB) : DB :=
  set_order_items
    (fun ois => ois ++ (order_item_of (o_id order) <$> items_of_cart cartId d))
    (set_orders (fmap (pay_order enc encryptionKey session (o_id order))) d).

(** The stock-mutating operations: a reservation attempt, the release
    of a cart's reservations, the cancellation of one reservation, and
    an inventory update (absolute or relative). *)
Inductive stock_op :=
  | op_reserve (fresh : nat -> uuid) (cartId : uuid) (items : list StockItem)
      (expiresAt : Z)
  | op_restore (cartId : uuid)
  | op_cancel (reservation_id : uuid)
  | op_update (variant : uuid) (body : UpdateInventoryBody).

(** The state an operation leaves, whether it returns or throws. *)
Definition step (w : World) (op : stock_op) : World :=
  match op with
  | op_reserve fresh cartId items expiresAt =>
      final_state (liftDB (reserveStock fresh cartId items expiresAt) w)
  | op_restore cartId =>
      final_state (liftDB (restoreStockFromReservations cartId) w)
  | op_cancel reservation_id =>
      final_state (delete_reservation_handler reservation_id w)
  | op_update variant body =>
      final_state (update_inventory_route variant body w)
  end.

Fixpoint states_after (ops : list stock_op) (w : World) : list World :=
  match ops with
  | [] => []
  | op :: rest => step w op :: states_after rest (step w op)
  end.

Definition items_positive (op : stock_op) : Prop :=
  match op with
  | op_reserve _ _ items _ => Forall (fun it => 0 < quantity it) items
  | _ => True
  end.

(** The PII record with every empty string read as absent, and the
    strings a PII record holds. *)
Definition present (p : pii) : pii :=
  {| email := truthy_string (email p);
     customer_name := truthy_string (customer_name p);
     shipping_name := truthy_string (shipping_name p);
     shipping_address_line1 := truthy_string (shipping_address_line1 p);
     shipping_address_line2 := truthy_string (shipping_address_line2 p);
     shipping_city := truthy_string (shipping_city p);
     shipping_state := truthy_string (shipping_state p);
     shipping_postal_code := truthy_string (shipping_postal_code p);
     shipping_country := truthy_string (shipping_country p) |}.

Definition pii_values (p : pii) : list string :=
  omap id [ email p; customer_name p; shipping_name p;
            shipping_address_line1 p; shipping_address_line2 p;
            shipping_city p; shipping_state p; shipping_postal_code p;
            shipping_country p ].

(** Checkout, at the specification level: the request passes every
    check before the remote session is created (header, cart found and
    not empty, not expired, active, read-only stock check, reservation
    guards); the parameters of the remote session; the order row
    inserted; the store a successful checkout leaves. *)
Definition checkout_ready (clk : Clock) (header_session_id : option string)
    (w : World) (sessionId : string) (cart : cart) : Prop :=
  truthy_string header_session_id = Some sessionId /\
  find_cart_by_session sessionId (db w) = Some cart /\
  items_of_cart (c_id cart) (db w) <> [] /\
  clk_check clk <= c_expires_at cart /\
  c_status cart = Some active /\
  stockErrors (db w) (items_of_cart (c_id cart) (db w)) = [] /\
  (forall j it,
      (stock_item_of <$> items_of_cart (c_id cart) (db w)) !! j = Some it ->
      guard_passes
        (ledger_before j (stock_item_of <$> items_of_cart (c_id cart) (db w))
           (inventory (db w))) it = true).

Definition checkout_params (sessionId : string) (cart : cart) (body : CheckoutBody)
    (d : DB) : CreateParams :=
  {| cp_line_items := line_item_of <$> items_of_cart (c_id cart) d;
     cp_success_url := success_url body; cp_cancel_url := cancel_url body;
     cp_metadata_cart_id := c_id cart; cp_metadata_session_id := sessionId |}.

Definition pending_order (new_order_id : uuid) (cart : cart) (session : Session)
    : order :=
  {| o_id := new_order_id; o_cart_id := c_id cart;
     o_stripe_checkout_session_id := Some (s_id session);
     o_stripe_payment_intent_id := None; o_pii := no_pii;
     o_subtotal := None; o_total := None; o_shipping_cost := None;
     o_currency := "usd"; o_status := pending |}.

Definition refresh_cart (clk : Clock) (cartId : uuid) (c : cart) : cart :=
  if decide (c_id c = cartId)
  then with_expires_at (clk_db_now clk + thirty_minutes) c else c.

Definition order_cart (cartId : uuid) (c : cart) : cart :=
  if decide (c_id c = cartId) then with_cart_status ordered c else c.

Definition reserved_store (clk : Clock) (fresh : nat -> uuid) (cart : cart)
    (d : DB) : DB :=
  set_reservations
    (fun rs => rs ++ reservation_rows fresh 0 (c_id cart)
                       (stock_item_of <$> items_of_cart (c_id cart) d)
                       (clk_reserve clk + thirty_minutes))
    (set_inventory
       (debit (requested <$> (stock_item_of <$> items_of_cart (c_id cart) d)))
       (set_carts (fmap (refresh_cart clk (c_id cart))) d)).

Definition checked_out (clk : Clock) (fresh : nat -> uuid) (new_order_id : uuid)
    (cart : cart) (session : Session) (d : DB) : DB :=
  set_orders (fun os => os ++ [pending_order new_order_id cart session])
    (set_carts (fmap (order_cart (c_id cart))) (reserved_store clk fresh cart d)).

(** What a refused request leaves alone: the ledger, the orders and
    their items, the payments, the cart items and the sessions created
    at the payment provider. *)
Definition ledger_kept (w w' : World) : Prop :=
  inventory (db w') = inventory (db w) /\
  reservations (db w') = reservations (db w) /\
  cart_items (db w') = cart_items (db w) /\
  orders (db w') = orders (db w) /\
  order_items (db w') = order_items (db w) /\
  payments (db w') = payments (db w) /\
  remote_sessions w' = remote_sessions w.

(** ** Sample data *)

Definition ex_variant : variant :=
  {| v_price := "19.99"; v_currency := Some "eur"; v_title := "Shirt / M";
     v_option := "M"; v_product_title := "Shirt" |}.

Definition ex_item (q : Z) : cart_item :=
  {| ci_cart_id := "cart-1"; ci_product_id := "prod-1"; ci_variant_id := "var-A";
     ci_quantity := q; ci_variant := ex_variant |}.

Definition ex_cart (st : cart_status) : cart :=
  {| c_id := "cart-1"; c_session_id := "sess-1"; c_status := Some st;
     c_expires_at := 5000 |}.

Definition ex_order : order :=
  {| o_id := "order-1"; o_cart_id := "cart-1";
     o_stripe_checkout_session_id := Some "cs_1";
     o_stripe_payment_intent_id := None; o_pii := no_pii;
     o_subtotal := None; o_total := None; o_shipping_cost := None;
     o_currency := "usd"; o_status := pending |}.

Definition ex_reservation : reservation :=
  {| r_id := "res-1"; r_cart_id := "cart-1"; r_variant_id := "var-A";
     r_quantity := 2; r_expires_at := 9000 |}.

(** A checkout in flight: 2 of the 5 units of var-A are held for
    cart-1, whose order is pending on session cs_1. *)
Definition ex_pending : DB :=
  {| inventory := {[ "var-A" := 3 ]}; reservations := [ex_reservation];
     carts := [ex_cart ordered]; cart_items := [ex_item 2];
     orders := [ex_order]; order_items := []; payments := [] |}.

(** An active cart asking for 2 units of var-A, 5 in stock. *)
Definition ex_active : DB :=
  {| inventory := {[ "var-A" := 5 ]}; reservations := [];
     carts := [ex_cart active]; cart_items := [ex_item 2];
     orders := []; order_items := []; payments := [] |}.


(** An active cart with two rows of 3 units of var-A, 5 in stock: each
    row passes the read-only check, the second fails the guard. *)
Definition ex_twice : DB :=
  {| inventory := {[ "var-A" := 5 ]}; reservations := [];
     carts := [ex_cart active]; cart_items := [ex_item 3; ex_item 3];
     orders := []; order_items := []; payments := [] |}.

Definition world_of (d : DB) : World :=
  {| db := d; event := empty_event; remote_sessions := [] |}.

Definition ex_session (cart_id : option string) : Session :=
  {| s_id := "cs_1"; s_url := Some "https://pay.example/cs_1";
     s_metadata_cart_id := cart_id; s_payment_intent := Some "pi_1";
     s_amount_subtotal := Some 3998; s_amount_total := Some 3998;
     s_shipping_cost_amount_total := None; s_currency := Some "eur";
     s_customer := no_pii |}.

Definition ex_enc : nat -> string -> string -> string := fun _ v _ => v.

(** A stand-in for the engine's reading of uuid text: 36 characters. *)
Definition ex_is_uuid : string -> bool := fun text => Nat.eqb (String.length text) 36.

Definition ex_fresh : nat -> uuid := fun n => "res-new-" +:+ pretty n.

Definition ex_clock : Clock :=
  {| clk_check := 1000; clk_db_now := 1000; clk_reserve := 1000 |}.

Definition ex_body : CheckoutBody :=
  {| success_url := "https://shop.example/ok";
     cancel_url := "https://shop.example/cancel" |}.

Definition ex_env : Env :=
  {| STRIPE_WEBHOOK_SECRET := Some "whsec_1"; ENCRYPTION_KEY := "key" |}.

Definition ex_event (type : string) (session : Session) : StripeEvent :=
  {| se_id := "evt_1"; se_type := type; se_data_object := session |}.

(** The in-flight checkout after one Completion for session cs_1. *)
Definition ex_settled : World :=
  final_state (handleCheckoutCompleted ex_is_uuid ex_enc (ex_session (Some "cart-1")) "key"
                 (world_of ex_pending)).

Definition ex_verify (type : string) (session : Session)
    : string -> string -> string -> option StripeEvent :=
  fun _ _ _ => Some (ex_event type session).

Definition ex_ops : list stock_op :=
  [ op_reserve ex_fresh "cart-1" [{| variant_id := "var-A"; quantity := 2 |}] 9000;
    op_update "var-A" {| body_stock_quantity := None; body_adjust := Some (-7) |};
    op_cancel "res-new-0";
    op_reserve ex_fresh "cart-1" [{| variant_id := "var-A"; quantity := 6 |}] 9000;
    op_update "var-A" {| body_stock_quantity := None; body_adjust := Some (-5) |};
    op_restore "cart-1";
    op_update "var-A" {| body_stock_quantity := Some 0; body_adjust := None |} ].

(** A cipher for the examples: sealing puts a mark in front of the
    plaintext, opening takes it off and fails on unmarked data. *)
Definition ex_seal : nat -> string -> string -> string :=
  fun _ v _ => "#" +:+ v.

Definition ex_unseal : string -> string -> option string :=
  fun data _ =>
    match data with
    | EmptyString => None
    | String c v => if String.eqb (String c EmptyString) "#" then Some v else None
    end.

Definition ex_customer : pii :=
  {| email := Some "ann@example.org"; customer_name := Some "Ann";
     shipping_name := Some ""; shipping_address_line1 := Some "1 Main St";
     shipping_address_line2 := None; shipping_city := Some "Berlin";
     shipping_state := None; shipping_postal_code := Some "10115";
     shipping_country := Some "DE" |}.

(** Session cs_1 of cart-1 with the customer's details filled in. *)
Definition ex_paid_session : Session :=
  {| s_id := "cs_1"; s_url := Some "https://pay.example/cs_1";
     s_metadata_cart_id := Some "cart-1"; s_payment_intent := Some "pi_1";
     s_amount_subtotal := Some 3998; s_amount_total := Some 3998;
     s_shipping_cost_amount_total := None; s_currency := Some "eur";
     s_customer := ex_customer |}.

(** A stand-in for SHA-256 with digests of one length. *)
Definition ex_digest : list Z -> list Z :=
  fun bytes => [foldr Z.lxor 0 bytes; Z.of_nat (length bytes)].

(** A payment provider that answers every request with session cs_1. *)
Definition ex_stripe : CreateParams -> option Session :=
  fun _ => Some (ex_session (Some "cart-1")).

(** A payment provider that is down. *)
Definition ex_stripe_down : CreateParams -> option Session := fun _ => None.

(** ** Lemmas on the ledger *)

Lemma DB_eq (d1 d2 : DB) :
  inventory d1 = inventory d2 -> reservations d1 = reservations d2 ->
  carts d1 = carts d2 -> cart_items d1 = cart_items d2 ->
  orders d1 = orders d2 -> order_items d1 = order_items d2 ->
  payments d1 = payments d2 -> d1 = d2.
Proof. destruct d1, d2; simpl; intros; subst; reflexivity. Qed.

Lemma insert_as_alter (m : gmap string Z) (v : string) (x : Z) (f : Z -> Z) :
  m !! v = Some x -> <[v := f x]> m = alter f v m.
Proof.
  intros Hv. apply map_eq; intros k.
  destruct (decide (v = k)) as [->|Hne].
  - rewrite lookup_insert_eq, lookup_alter_eq, Hv. reflexivity.
  - rewrite lookup_insert_ne, lookup_alter_ne by done. reflexivity.
Qed.

Lemma credit_lookup (l : list (uuid * Z)) (m : gmap string Z) (v : uuid) :
  credit l m !! v = (fun stock => stock + total_for v l) <$> m !! v.
Proof.
  revert m; induction l as [|[u q] l IH]; intros m; simpl.
  - destruct (m !! v); simpl; f_equal; lia.
  - unfold credit in *; simpl. rewrite IH.
    destruct (decide (u = v)) as [->|Hne].
    + rewrite lookup_alter_eq. destruct (m !! v); simpl; f_equal; lia.
    + rewrite lookup_alter_ne by done. reflexivity.
Qed.

Lemma debit_lookup (l : list (uuid * Z)) (m : gmap string Z) (v : uuid) :
  debit l m !! v = (fun stock => stock - total_for v l) <$> m !! v.
Proof.
  revert m; induction l as [|[u q] l IH]; intros m; simpl.
  - destruct (m !! v); simpl; f_equal; lia.
  - unfold debit in *; simpl. rewrite IH.
    destruct (decide (u = v)) as [->|Hne].
    + rewrite lookup_alter_eq. destruct (m !! v); simpl; f_equal; lia.
    + rewrite lookup_alter_ne by done. reflexivity.
Qed.

Lemma total_for_app (v : uuid) (l1 l2 : list (uuid * Z)) :
  total_for v (l1 ++ l2) = total_for v l1 + total_for v l2.
Proof.
  induction l1 as [|[u q] l1 IH]; simpl; [lia|].
  unfold total_for in *; simpl. destruct (decide (u = v)); lia.
Qed.

(** ** Lemmas on [lib/inventory] *)

Lemma restore_loop_spec (rs : list reservation) (d : DB) :
  restore_loop rs d = Returned tt (set_inventory (credit (held <$> rs)) d).
Proof.
  revert d; induction rs as [|r rs IH]; intros d; simpl.
  - destruct d; reflexivity.
  - unfold bind, increment_stock, modify. rewrite IH.
    destruct d; reflexivity.
Qed.

Lemma filter_none_id {A} (P : A -> Prop) `{forall x, Decision (P x)} (l : list A) :
  filter P l = [] -> filter (fun x => ~ P x) l = l.
Proof.
  induction l as [|x l IH]; [done|].
  rewrite !filter_cons. destruct (decide (P x)); [done|].
  intros Hl. destruct (decide (~ P x)); [|done]. f_equal; auto.
Qed.

Lemma restoreStockFromReservations_spec (cartId : uuid) (d : DB) :
  restoreStockFromReservations cartId d = Returned tt (released cartId d).
Proof.
  unfold restoreStockFromReservations, bind, get, released. cbv zeta.
  destruct (Nat.eqb (length (cart_reservations cartId d)) 0) eqn:Hlen.
  - apply Nat.eqb_eq, nil_length_inv in Hlen. rewrite Hlen.
    unfold ret. f_equal. unfold cart_reservations in Hlen.
    apply filter_none_id in Hlen. destruct d; unfold set_reservations; simpl in *.
    rewrite Hlen. reflexivity.
  - unfold transaction, bind. rewrite restore_loop_spec.
    unfold delete_cart_reservations, modify. reflexivity.
Qed.


Lemma decrement_if_available_spec (v : uuid) (q : Z) (d : DB) :
  decrement_if_available v q d =
    match inventory d !! v with
    | Some stock =>
        if Z.leb q stock
        then Returned [(v, stock - q)]
               (set_inventory (alter (fun s => s - q) v) d)
        else Returned [] d
    | None => Returned [] d
    end.
Proof.
  unfold decrement_if_available, bind, get.
  destruct (inventory d !! v) as [stock|] eqn:Hv; [|reflexivity].
  destruct (Z.leb q stock); [|reflexivity].
  unfold put, ret, set_inventory; simpl.
  rewrite <- (insert_as_alter _ _ _ (fun s => s - q) Hv). reflexivity.
Qed.

Lemma reserve_loop_cons (fresh : nat -> uuid) (cartId : uuid) (expiresAt : Z)
    (item : StockItem) (rest : list StockItem) (n : nat) (d : DB) :
  reserve_loop fresh n cartId (item :: rest) expiresAt d =
    match inventory d !! variant_id item with
    | Some stock =>
        if Z.leb (quantity item) stock
        then reserve_loop fresh (S n) cartId rest expiresAt
               (set_reservations
                  (fun rs => rs ++ reservation_rows fresh n cartId [item] expiresAt)
                  (set_inventory
                     (alter (fun s => s - quantity item) (variant_id item)) d))
        else Thrown TransactionRollbackError d
    | None => Thrown TransactionRollbackError d
    end.
Proof.
  cbn [reserve_loop]. unfold bind at 1.
  rewrite decrement_if_available_spec.
  destruct (inventory d !! variant_id item) as [stock|]; [|reflexivity].
  destruct (Z.leb (quantity item) stock); reflexivity.
Qed.

Lemma reserve_loop_spec (fresh : nat -> uuid) (cartId : uuid) (expiresAt : Z)
    (items : list StockItem) (n : nat) (d : DB) :
  match first_shortfall (inventory d) items n with
  | None =>
      reserve_loop fresh n cartId items expiresAt d =
        Returned success_true
          (set_reservations
             (fun rs => rs ++ reservation_rows fresh n cartId items expiresAt)
             (set_inventory (debit (requested <$> items)) d))
  | Some _ =>
      exists d', reserve_loop fresh n cartId items expiresAt d =
                   Thrown TransactionRollbackError d'
  end.
Proof.
  revert n d; induction items as [|item rest IH]; intros n d.
  - cbn. unfold ret. f_equal. destruct d; unfold set_reservations; simpl.
    rewrite app_nil_r. reflexivity.
  - rewrite reserve_loop_cons. cbn [first_shortfall].
    destruct (inventory d !! variant_id item) as [stock|] eqn:Hv;
      [|eexists; reflexivity].
    destruct (Z.leb (quantity item) stock) eqn:Hle; [|eexists; reflexivity].
    match goal with
    | |- context [reserve_loop fresh (S n) cartId rest expiresAt ?d1] =>
        specialize (IH (S n) d1);
        change (inventory d1)
          with (alter (fun s => s - quantity item) (variant_id item) (inventory d))
          in IH
    end.
    destruct (first_shortfall _ rest (S n)) as [p|]; [exact IH|].
    rewrite IH. f_equal.
    destruct d; unfold set_reservations, set_inventory; cbn.
    rewrite <- app_assoc. reflexivity.
Qed.

Lemma ledger_before_S (k : nat) (item : StockItem) (rest : list StockItem)
    (m : gmap string Z) :
  ledger_before (S k) (item :: rest) m =
    ledger_before k rest (alter (fun s => s - quantity item) (variant_id item) m).
Proof. reflexivity. Qed.

Lemma shortfall_of_failure (items : list StockItem) :
  forall (m : gmap string Z) (n k : nat) (item : StockItem),
    items !! k = Some item ->
    (forall j it, (j < k)%nat -> items !! j = Some it ->
                  guard_passes (ledger_before j items m) it = true) ->
    guard_passes (ledger_before k items m) item = false ->
    exists p, first_shortfall m items n = Some p.
Proof.
  induction items as [|a rest IH]; intros m n k item Hk Hbefore Hfail; [done|].
  destruct k as [|k]; simpl in Hk.
  - injection Hk as ->. unfold ledger_before, guard_passes in Hfail; simpl in Hfail.
    cbn [first_shortfall]. destruct (m !! variant_id item); [|eauto].
    rewrite Hfail. eauto.
  - pose proof (Hbefore 0%nat a ltac:(lia) eq_refl) as H0.
    unfold ledger_before, guard_passes in H0; simpl in H0.
    cbn [first_shortfall]. destruct (m !! variant_id a); [|done].
    rewrite H0. apply (IH _ (S n) k item Hk).
    + intros j it Hj Hit. rewrite <- ledger_before_S.
      apply Hbefore; [lia|exact Hit].
    + rewrite <- ledger_before_S. exact Hfail.
Qed.

Lemma no_shortfall_of_all (items : list StockItem) :
  forall (m : gmap string Z) (n : nat),
    (forall j it, items !! j = Some it ->
                  guard_passes (ledger_before j items m) it = true) ->
    first_shortfall m items n = None.
Proof.
  induction items as [|a rest IH]; intros m n Hall; [done|].
  pose proof (Hall 0%nat a eq_refl) as H0.
  unfold ledger_before, guard_passes in H0; simpl in H0.
  cbn [first_shortfall]. destruct (m !! variant_id a); [|done].
  rewrite H0. apply IH. intros j it Hit.
  rewrite <- ledger_before_S. apply Hall. exact Hit.
Qed.

Lemma reservation_rows_shape (fresh : nat -> uuid) (cartId : uuid)
    (expiresAt : Z) (items : list StockItem) (n : nat) :
  (fun r => (r_cart_id r, r_variant_id r, r_quantity r, r_expires_at r))
    <$> reservation_rows fresh n cartId items expiresAt
  = (fun it => (cartId, variant_id it, quantity it, expiresAt)) <$> items.
Proof.
  revert n; induction items as [|it rest IH]; intros n; [done|].
  cbn. f_equal. apply IH.
Qed.

(** ** Reservation: all or nothing *)

(** C3.  [reserveStock] is all-or-nothing.  If the k-th item fails the
    availability guard against the ledger left by the items before it
    (which all passed), the call leaves the store exactly as it found
    it: no stock is decremented for any item and no reservation row of
    this attempt exists.  If every item passes, the call succeeds, the
    ledger is decremented by every requested quantity and one
    reservation row per item, with the cart and the shared expiry, is
    appended. *)
Theorem reserveStock_all_or_nothing (fresh : nat -> uuid) (cartId : uuid)
    (items : list StockItem) (expiresAt : Z) (d : DB) :
  (forall k item,
      items !! k = Some item ->
      (forall j it, (j < k)%nat -> items !! j = Some it ->
                    guard_passes (ledger_before j items (inventory d)) it = true) ->
      guard_passes (ledger_before k items (inventory d)) item = false ->
      final_state (reserveStock fresh cartId items expiresAt d) = d /\
      returned (reserveStock fresh cartId items expiresAt d) = None)
  /\
  ((forall j it, items !! j = Some it ->
                 guard_passes (ledger_before j items (inventory d)) it = true) ->
   exists d',
     reserveStock fresh cartId items expiresAt d = Returned success_true d' /\
     (forall v, inventory d' !! v =
                  (fun stock => stock - total_for v (requested <$> items))
                    <$> inventory d !! v) /\
     (exists rows,
         reservations d' = reservations d ++ rows /\
         (fun r => (r_cart_id r, r_variant_id r, r_quantity r, r_expires_at r))
           <$> rows
         = (fun it => (cartId, variant_id it, quantity it, expiresAt)) <$> items) /\
     carts d' = carts d /\ cart_items d' = cart_items d /\ orders d' = orders d /\
     order_items d' = order_items d /\ payments d' = payments d).
Proof.
  split.
  - intros k item Hk Hbefore Hfail.
    destruct (shortfall_of_failure items (inventory d) 0 k item Hk Hbefore Hfail)
      as [p Hp].
    pose proof (reserve_loop_spec fresh cartId expiresAt items 0 d) as Hloop.
    rewrite Hp in Hloop. destruct Hloop as [d' Hloop].
    unfold reserveStock, transaction. rewrite Hloop. split; reflexivity.
  - intros Hall.
    pose proof (reserve_loop_spec fresh cartId expiresAt items 0 d) as Hloop.
    rewrite (no_shortfall_of_all items (inventory d) 0 Hall) in Hloop.
    unfold reserveStock, transaction. rewrite Hloop.
    eexists; split; [reflexivity|]. cbn. repeat split.
    + intros v. apply debit_lookup.
    + eexists; split; [reflexivity|]. apply reservation_rows_shape.
Qed.

Lemma released_without_reservations (cartId : uuid) (d : DB) :
  cart_reservations cartId d = [] -> released cartId d = d.
Proof.
  intros Hnone. unfold released. rewrite Hnone.
  unfold cart_reservations in Hnone. apply filter_none_id in Hnone.
  destruct d; unfold set_reservations, set_inventory; simpl in *.
  rewrite Hnone. reflexivity.
Qed.


(** ** The stock invariant *)

Lemma alter_nonneg (m : gmap string Z) (v : string) (f : Z -> Z) :
  map_Forall (fun _ stock => 0 <= stock) m ->
  (forall stock, m !! v = Some stock -> 0 <= f stock) ->
  map_Forall (fun _ stock => 0 <= stock) (alter f v m).
Proof.
  intros Hm Hf k x Hk. destruct (decide (v = k)) as [->|Hne].
  - rewrite lookup_alter_eq in Hk. destruct (m !! k) as [s|] eqn:Hs; [|done].
    injection Hk as <-. apply Hf. reflexivity.
  - rewrite lookup_alter_ne in Hk by done. exact (Hm k x Hk).
Qed.

Lemma insert_nonneg (m : gmap string Z) (v : string) (x : Z) :
  map_Forall (fun _ stock => 0 <= stock) m -> 0 <= x ->
  map_Forall (fun _ stock => 0 <= stock) (<[v := x]> m).
Proof. intros Hm Hx. apply map_Forall_insert_2; assumption. Qed.

Lemma filter_positive (P : reservation -> Prop) `{forall r, Decision (P r)}
    (rs : list reservation) :
  Forall (fun r => 0 < r_quantity r) rs ->
  Forall (fun r => 0 < r_quantity r) (filter P rs).
Proof.
  rewrite !Forall_forall. intros Hrs r Hr.
  apply list_elem_of_filter in Hr as [_ Hr]. auto.
Qed.

Lemma total_for_nonneg (v : uuid) (l : list (uuid * Z)) :
  Forall (fun p => 0 < p.2) l -> 0 <= total_for v l.
Proof.
  induction 1 as [|[u q] l Hq _ IH]; simpl; [done|].
  unfold total_for in *; simpl in *. destruct (decide (u = v)); lia.
Qed.

Lemma reserve_loop_sound (fresh : nat -> uuid) (cartId : uuid) (expiresAt : Z)
    (items : list StockItem) :
  forall (n : nat) (d : DB),
    Forall (fun it => 0 < quantity it) items -> ledger_sound d ->
    ledger_sound (final_state (reserve_loop fresh n cartId items expiresAt d)).
Proof.
  induction items as [|item rest IH]; intros n d Hpos Hd; [exact Hd|].
  apply Forall_cons in Hpos as [Hq Hrest].
  rewrite reserve_loop_cons.
  destruct (inventory d !! variant_id item) as [stock|] eqn:Hv; [|exact Hd].
  destruct (Z.leb (quantity item) stock) eqn:Hle; [|exact Hd].
  apply Z.leb_le in Hle. apply IH; [exact Hrest|].
  destruct Hd as [Hstock Hres]. split.
  - unfold stock_nonneg; cbn. apply alter_nonneg; [exact Hstock|].
    intros s Hs. rewrite Hv in Hs. injection Hs as <-. lia.
  - unfold reservations_positive; cbn. apply Forall_app. split; [exact Hres|].
    apply Forall_cons. split; [exact Hq|constructor].
Qed.

Lemma reserveStock_sound (fresh : nat -> uuid) (cartId : uuid) (expiresAt : Z)
    (items : list StockItem) (d : DB) :
  Forall (fun it => 0 < quantity it) items -> ledger_sound d ->
  ledger_sound (final_state (reserveStock fresh cartId items expiresAt d)).
Proof.
  intros Hpos Hd. unfold reserveStock, transaction.
  pose proof (reserve_loop_sound fresh cartId expiresAt items 0 d Hpos Hd) as Hl.
  destruct (reserve_loop fresh 0 cartId items expiresAt d); [exact Hl|exact Hd].
Qed.

Lemma released_sound (cartId : uuid) (d : DB) :
  ledger_sound d -> ledger_sound (released cartId d).
Proof.
  intros [Hstock Hres]. split.
  - intros v x Hx. unfold released in Hx; cbn in Hx.
    rewrite credit_lookup in Hx.
    destruct (inventory d !! v) as [s|] eqn:Hs; [|done].
    injection Hx as <-. specialize (Hstock v s Hs); cbn in Hstock.
    assert (0 <= total_for v (held <$> cart_reservations cartId d)); [|lia].
    apply total_for_nonneg, Forall_fmap.
    unfold cart_reservations. apply (filter_positive _ _ Hres).
  - unfold reservations_positive, released; cbn. apply filter_positive, Hres.
Qed.

Lemma db_final_liftDB {A} (m : M DB A) (w : World) :
  db (final_state (liftDB m w)) = final_state (m (db w)).
Proof. unfold liftDB. destruct (m (db w)); reflexivity. Qed.

Lemma delete_reservation_sound (reservation_id : uuid) (w : World) :
  ledger_sound (db w) ->
  ledger_sound (db (final_state (delete_reservation_handler reservation_id w))).
Proof.
  intros [Hstock Hres]. unfold delete_reservation_handler, bind at 1, get.
  destruct (filter (fun r => r_id r = reservation_id) (reservations (db w)))
    as [|r rs] eqn:Hfind; [split; assumption|].
  assert (Hr : 0 < r_quantity r).
  { assert (Hin : r ∈ filter (fun r => r_id r = reservation_id) (reservations (db w)))
      by (rewrite Hfind; left).
    apply list_elem_of_filter in Hin as [_ Hin].
    unfold reservations_positive in Hres. rewrite Forall_forall in Hres. auto. }
  cbn. split.
  - unfold stock_nonneg; cbn. apply alter_nonneg; [exact Hstock|].
    intros s Hs. specialize (Hstock _ _ Hs); cbn in Hstock. lia.
  - unfold reservations_positive; cbn. apply filter_positive, Hres.
Qed.

Lemma update_inventory_where_final (v : uuid) (params : list Z) (guard : Z -> bool)
    (f : Z -> Z) (d : DB) :
  ledger_sound d ->
  (forall stock, inventory d !! v = Some stock -> guard stock = true -> 0 <= f stock) ->
  ledger_sound (final_state (update_inventory_where v params guard f d)).
Proof.
  intros [Hstock Hres] Hf. unfold update_inventory_where.
  destruct (negb (forallb int4 params)); [split; assumption|].
  unfold bind, get.
  destruct (inventory d !! v) as [stock|] eqn:Hv; [|split; assumption].
  destruct (guard stock) eqn:Hg; [|split; assumption].
  destruct (int4 (f stock)); [|split; assumption].
  cbn. split; [|exact Hres].
  unfold stock_nonneg; cbn. apply insert_nonneg; [exact Hstock|]. auto.
Qed.

Lemma liftDB_update_inventory_where (v : uuid) (params : list Z) (guard : Z -> bool)
    (f : Z -> Z) (w : World) :
  liftDB (update_inventory_where v params guard f) w =
    if negb (forallb int4 params) then Thrown DatabaseError w
    else
    match inventory (db w) !! v with
    | Some stock =>
        if guard stock
        then if int4 (f stock)
             then Returned [(v, f stock)]
                    (set_db (set_inventory (insert v (f stock))) w)
             else Thrown DatabaseError w
        else Returned [] w
    | None => Returned [] w
    end.
Proof.
  destruct w as [d e r].
  unfold liftDB, update_inventory_where; cbn [db].
  destruct (negb (forallb int4 params)); [reflexivity|].
  unfold bind, get; cbn.
  destruct (inventory d !! v) as [stock|]; [|reflexivity].
  destruct (guard stock); [|reflexivity].
  destruct (int4 (f stock)); reflexivity.
Qed.

Lemma update_inventory_sound (v : uuid) (body : UpdateInventoryBody) (w : World) :
  ledger_sound (db w) ->
  ledger_sound (db (final_state (update_inventory_route v body w))).
Proof.
  intros Hw. pose proof Hw as [Hstock Hres].
  unfold update_inventory_route.
  destruct (UpdateInventorySchema body) eqn:Hschema; [|exact Hw].
  unfold update_inventory_handler, bind at 1, get.
  destruct (inventory (db w) !! v) as [existing|] eqn:Hv; [|exact Hw].
  pose proof (Hstock v existing Hv) as Hex; cbn in Hex.
  destruct body as [[q|] adj]; cbn [body_stock_quantity body_adjust].
  - unfold UpdateInventorySchema in Hschema; cbn in Hschema.
    apply Z.leb_le in Hschema.
    unfold bind at 1. rewrite liftDB_update_inventory_where, Hv.
    destruct (negb (forallb int4 [q])); [exact Hw|].
    destruct (int4 q); [|exact Hw]. cbn.
    split; [|exact Hres]. unfold stock_nonneg; cbn.
    apply insert_nonneg; assumption.
  - destruct adj as [adjust|]; [|exact Hw].
    destruct (Z.ltb adjust 0) eqn:Hneg.
    + unfold bind at 1. rewrite liftDB_update_inventory_where, Hv.
      destruct (negb (forallb int4 [adjust; Z.abs adjust])); [exact Hw|].
      destruct (Z.leb (Z.abs adjust) existing) eqn:Hle; [|exact Hw].
      destruct (int4 (existing + adjust)); [|exact Hw].
      apply Z.leb_le in Hle. apply Z.ltb_lt in Hneg. cbn.
      split; [|exact Hres]. unfold stock_nonneg; cbn.
      apply insert_nonneg; [assumption|lia].
    + unfold bind at 1. rewrite liftDB_update_inventory_where, Hv.
      destruct (negb (forallb int4 [adjust])); [exact Hw|].
      destruct (int4 (existing + adjust)); [|exact Hw].
      apply Z.ltb_ge in Hneg. cbn.
      split; [|exact Hres]. unfold stock_nonneg; cbn.
      apply insert_nonneg; [assumption|lia].
Qed.

Lemma step_sound (w : World) (op : stock_op) :
  items_positive op -> ledger_sound (db w) -> ledger_sound (db (step w op)).
Proof.
  intros Hop Hw. destruct op as [fresh cartId items expiresAt|cartId|rid|v body];
    cbn [step items_positive] in *.
  - rewrite db_final_liftDB. apply reserveStock_sound; assumption.
  - rewrite db_final_liftDB, restoreStockFromReservations_spec.
    apply released_sound, Hw.
  - apply delete_reservation_sound, Hw.
  - apply update_inventory_sound, Hw.
Qed.

(** C2.  Stock never goes negative.  From a store in which every
    unit's stock is at least 0 and every reservation holds a positive
    quantity, after each operation of any sequence of reservation
    attempts (with positive item quantities), releases, reservation
    cancellations and inventory updates (absolute, or adjusted up or
    down), every unit's stock is still at least 0. *)
Theorem stock_never_negative (ops : list stock_op) (w : World) :
  stock_nonneg (db w) ->
  reservations_positive (db w) ->
  Forall items_positive ops ->
  Forall (fun w' => forall v stock, inventory (db w') !! v = Some stock -> 0 <= stock)
    (states_after ops w).
Proof.
  intros Hstock Hres Hops.
  assert (Hw : ledger_sound (db w)) by (split; assumption).
  clear Hstock Hres. revert w Hw.
  induction Hops as [|op ops Hop _ IH]; intros w Hw; [constructor|].
  cbn [states_after].
  pose proof (step_sound w op Hop Hw) as Hstep.
  constructor; [|apply IH, Hstep].
  destruct Hstep as [Hs _]. exact Hs.
Qed.

(** C8 (amended).  The inventory update endpoint, on a unit that has an
    inventory row with stock [stock].  A negative [adjust] (of a
    magnitude the engine reads as a 32-bit integer) whose magnitude
    exceeds the stock is rejected with BadRequest (status 400) and the
    store is left unchanged; the rejection is the empty result of the
    single conditional update guarded by [stock >= |adjust|].  A
    negative [adjust] within the stock and a non-negative [adjust]
    succeed and leave [stock + adjust], and an absolute
    [stock_quantity >= 0] succeeds and leaves that quantity, as long as
    the request's number and the new stock fit the 32-bit integer
    column.  Where they do not, the engine refuses the statement: the
    handler throws the driver's error, the route answers 500 and the
    state is left as it was. *)
Theorem update_inventory_adjust_guarded (v : uuid) (stock : Z) (w : World) :
  inventory (db w) !! v = Some stock ->
  (forall adjust,
      adjust < 0 -> stock < Z.abs adjust -> Z.abs adjust <= 2147483647 ->
      liftDB (update_inventory_where v [adjust; Z.abs adjust]
                (fun s => Z.leb (Z.abs adjust) s)
                (fun s => s + adjust)) w = Returned [] w /\
      exists message w',
        update_inventory_route v
          {| body_stock_quantity := None; body_adjust := Some adjust |} w
          = Thrown (BadRequestError message) w' /\
        db w' = db w /\
        res_status (errorHandler (BadRequestError message)) = 400)
  /\
  (forall adjust,
      (adjust < 0 /\ Z.abs adjust <= stock) \/ 0 <= adjust ->
      Z.abs adjust <= 2147483647 ->
      int4 (stock + adjust) = true ->
      update_inventory_route v
        {| body_stock_quantity := None; body_adjust := Some adjust |} w
        = Returned (inventory_json (v, stock + adjust))
            (set_db (set_inventory (insert v (stock + adjust))) w))
  /\
  (forall q adjust,
      0 <= q -> q <= 2147483647 ->
      update_inventory_route v
        {| body_stock_quantity := Some q; body_adjust := adjust |} w
        = Returned (inventory_json (v, q))
            (set_db (set_inventory (insert v q)) w))
  /\
  (forall adjust,
      2147483647 < Z.abs adjust \/ (0 <= adjust /\ int4 (stock + adjust) = false) ->
      update_inventory_route v
        {| body_stock_quantity := None; body_adjust := Some adjust |} w
        = Thrown DatabaseError w /\
      res_status (errorHandler DatabaseError) = 500)
  /\
  (forall q adjust,
      2147483647 < q ->
      update_inventory_route v
        {| body_stock_quantity := Some q; body_adjust := adjust |} w
        = Thrown DatabaseError w).
Proof.
  intros Hv.
  assert (Hroute : forall adjust,
    update_inventory_route v
      {| body_stock_quantity := None; body_adjust := Some adjust |} w
    = if Z.ltb adjust 0
      then bind (liftDB (update_inventory_where v [adjust; Z.abs adjust]
                           (fun s => Z.leb (Z.abs adjust) s)
                           (fun s => s + adjust)))
             (fun updated =>
                match updated with
                | [] =>
                    exec set_event_error
                      (event_error "BadRequest" "Insufficient stock for adjustment") ;;;
                    throw (BadRequestError
                             ("Insufficient stock. Current: " +:+ pretty stock
                              +:+ ", Adjustment: " +:+ pretty adjust))
                | row :: _ => ret (inventory_json row)
                end) w
      else bind (liftDB (update_inventory_where v [adjust] (fun _ => true)
                           (fun s => s + adjust)))
             (fun updated =>
                match updated with
                | [] => throw (AppError500 "Failed to update inventory")
                | row :: _ => ret (inventory_json row)
                end) w).
  { intros adjust.
    unfold update_inventory_route, update_inventory_handler; cbn.
    unfold bind at 1, get. rewrite Hv; cbn.
    destruct (Z.ltb adjust 0); reflexivity. }
  assert (Hint4 : forall n, int4 n = true <-> -2147483648 <= n <= 2147483647).
  { intros n. unfold int4. rewrite andb_true_iff, !Z.leb_le. reflexivity. }
  assert (Hparams : forall ns, Forall (fun n => int4 n = true) ns ->
                               negb (forallb int4 ns) = false).
  { intros ns Hns. apply negb_false_iff, forallb_forall.
    intros n Hn. rewrite Forall_forall in Hns. apply Hns.
    apply list_elem_of_In, Hn. }
  split_and!.
  - intros adjust Hneg Hshort Hrange.
    assert (Hunmatched :
      liftDB (update_inventory_where v [adjust; Z.abs adjust]
                (fun s => Z.leb (Z.abs adjust) s) (fun s => s + adjust)) w
      = Returned [] w).
    { rewrite liftDB_update_inventory_where, Hv.
      rewrite Hparams by (repeat constructor; apply Hint4; lia).
      destruct (Z.leb (Z.abs adjust) stock) eqn:Hle; [|reflexivity].
      apply Z.leb_le in Hle. lia. }
    split; [exact Hunmatched|].
    rewrite Hroute.
    destruct (Z.ltb adjust 0) eqn:Hlt; [|apply Z.ltb_ge in Hlt; lia].
    unfold bind at 1. rewrite Hunmatched.
    eexists _, _. split; [reflexivity|]. split; reflexivity.
  - intros adjust Hadj Hrange Hfits.
    rewrite Hroute.
    destruct (Z.ltb adjust 0) eqn:Hneg.
    + apply Z.ltb_lt in Hneg.
      unfold bind at 1. rewrite liftDB_update_inventory_where, Hv.
      rewrite Hparams by (repeat constructor; apply Hint4; lia).
      rewrite Hfits.
      destruct (Z.leb (Z.abs adjust) stock) eqn:Hle; [reflexivity|].
      apply Z.leb_gt in Hle. lia.
    + apply Z.ltb_ge in Hneg.
      unfold bind at 1. rewrite liftDB_update_inventory_where, Hv.
      rewrite Hparams by (repeat constructor; apply Hint4; lia).
      rewrite Hfits. reflexivity.
  - intros q adjust Hq Hrange.
    unfold update_inventory_route, UpdateInventorySchema; cbn.
    destruct (Z.leb 0 q) eqn:Hle; [|apply Z.leb_gt in Hle; lia].
    unfold update_inventory_handler, bind at 1, get. rewrite Hv; cbn.
    unfold bind at 1. rewrite liftDB_update_inventory_where, Hv.
    rewrite Hparams by (repeat constructor; apply Hint4; lia).
    assert (Hfits : int4 q = true) by (apply Hint4; lia).
    rewrite Hfits. reflexivity.
  - intros adjust Hout. split; [|reflexivity].
    rewrite Hroute.
    destruct (Z.ltb adjust 0) eqn:Hneg.
    + apply Z.ltb_lt in Hneg.
      unfold bind at 1. rewrite liftDB_update_inventory_where.
      assert (Hbad : int4 (Z.abs adjust) = false).
      { destruct (int4 (Z.abs adjust)) eqn:Hin; [|reflexivity].
        apply Hint4 in Hin. lia. }
      cbn [forallb]. rewrite Hbad, andb_false_r. reflexivity.
    + apply Z.ltb_ge in Hneg.
      unfold bind at 1. rewrite liftDB_update_inventory_where, Hv.
      cbn [forallb]. rewrite andb_true_r.
      destruct (int4 adjust) eqn:Hin; [|reflexivity].
      destruct Hout as [Hbig|[_ Hsum]]; [apply Hint4 in Hin; lia|].
      cbn [negb]. rewrite Hsum. reflexivity.
  - intros q adjust Hbig.
    unfold update_inventory_route, UpdateInventorySchema; cbn.
    destruct (Z.leb 0 q) eqn:Hle; [|apply Z.leb_gt in Hle; lia].
    unfold update_inventory_handler, bind at 1, get. rewrite Hv; cbn.
    unfold bind at 1. rewrite liftDB_update_inventory_where.
    assert (Hbad : int4 q = false).
    { destruct (int4 q) eqn:Hin; [|reflexivity]. apply Hint4 in Hin. lia. }
    cbn [forallb]. rewrite Hbad. reflexivity.
Qed.

(** ** The settlement handlers *)

Lemma liftDB_returned {A} (m : M DB A) (a : A) (d : DB) (w : World) :
  m (db w) = Returned a d -> liftDB m w = Returned a (set_db (fun _ => d) w).
Proof. intros H. unfold liftDB. rewrite H. reflexivity. Qed.

Lemma handleCheckoutExpired_spec (is_uuid : string -> bool) (session : Session)
    (cartId : uuid) (w : World) :
  truthy_string (s_metadata_cart_id session) = Some cartId ->
  uuid_text is_uuid (db w) cartId = true ->
  handleCheckoutExpired is_uuid session w =
    Returned tt
      (set_db (fun d =>
         set_carts (fmap (abandon_cart cartId))
           (released cartId
              (match find_order_by_session (s_id session) d with
               | Some order => set_orders (fmap (fail_order (o_id order))) d
               | None => d
               end))) w).
Proof.
  intros Hcart Hvalid. unfold handleCheckoutExpired. rewrite Hcart.
  destruct w as [d e r]. unfold set_db; cbn [db event remote_sessions] in *.
  unfold bind at 1, get. unfold bind at 1. cbn [db].
  destruct (find_order_by_session (s_id session) d) as [order|].
  - unfold liftDB at 1, update_order, modify; cbn [db set_db].
    unfold bind at 1. unfold bind at 1, uuid_param. cbn [db].
    change (uuid_text is_uuid (db (set_db _ _)) cartId)
      with (uuid_text is_uuid d cartId).
    rewrite Hvalid. unfold ret at 1.
    unfold bind at 1. unfold liftDB at 1; cbn [db set_db].
    rewrite restoreStockFromReservations_spec. reflexivity.
  - unfold ret at 1. unfold bind at 1. unfold bind at 1, uuid_param. cbn [db].
    rewrite Hvalid. unfold ret at 1.
    unfold bind at 1. unfold liftDB at 1; cbn [db set_db].
    rewrite restoreStockFromReservations_spec. reflexivity.
Qed.


Lemma find_order_fmap (g : order -> order) (sid : string) (d : DB) :
  (forall o, o_stripe_checkout_session_id (g o) = o_stripe_checkout_session_id o) ->
  find_order_by_session sid (set_orders (fmap g) d)
    = g <$> find_order_by_session sid d.
Proof.
  intros Hg. unfold find_order_by_session. cbn [orders set_orders].
  induction (orders d) as [|o os IH]; [reflexivity|].
  rewrite fmap_cons, !filter_cons, Hg.
  destruct (decide (o_stripe_checkout_session_id o = Some sid)); [reflexivity|].
  exact IH.
Qed.

Lemma fail_order_keeps_session (orderId : uuid) (o : order) :
  o_stripe_checkout_session_id (fail_order orderId o)
    = o_stripe_checkout_session_id o.
Proof. unfold fail_order. destruct (decide (o_id o = orderId)); reflexivity. Qed.


Lemma find_cart_by_id_id (cartId : uuid) (d : DB) (c : cart) :
  find_cart_by_id cartId d = Some c -> c_id c = cartId.
Proof.
  unfold find_cart_by_id. intros Hc. apply head_Some_elem_of in Hc.
  apply list_elem_of_filter in Hc as [Hid _]. exact Hid.
Qed.

Lemma insert_payment_spec (p : payment) (d : DB) :
  insert_payment p d =
    if session_idx_collides p d
    then Thrown (UniqueViolation "payments_checkout_session_idx") d
    else if intent_idx_collides p d
    then Thrown (UniqueViolation "payments_payment_intent_idx") d
    else Returned tt (set_payments (fun ps => ps ++ [p]) d).
Proof.
  unfold insert_payment, bind, get.
  destruct (session_idx_collides p d); [reflexivity|].
  destruct (intent_idx_collides p d); reflexivity.
Qed.

Lemma bind_returned {S A B} (m : M S A) (k : A -> M S B) (s s' : S) (a : A) :
  m s = Returned a s' -> bind m k s = k a s'.
Proof. intros H. unfold bind. rewrite H. reflexivity. Qed.

Ltac read_state w := rewrite (bind_returned get _ w w w) by reflexivity.

Lemma bind_thrown {S A B} (m : M S A) (k : A -> M S B) (s s' : S) (e : exn) :
  m s = Thrown e s' -> bind m k s = Thrown e s'.
Proof. intros H. unfold bind. rewrite H. reflexivity. Qed.

Lemma liftDB_thrown {A} (m : M DB A) (e : exn) (d : DB) (w : World) :
  m (db w) = Thrown e d -> liftDB m w = Thrown e (set_db (fun _ => d) w).
Proof. intros H. unfold liftDB. rewrite H. reflexivity. Qed.

Lemma insert_order_items_step (rows : list order_item) (w : World) :
  (if Nat.ltb 0 (length rows) then liftDB (insert_order_items rows) else ret tt) w
    = Returned tt (set_db (set_order_items (fun ois => ois ++ rows)) w).
Proof.
  destruct rows as [|row rows]; cbn; [|reflexivity].
  unfold ret. f_equal. destruct w as [[] e r]; unfold set_db, set_order_items; cbn.
  rewrite app_nil_r. reflexivity.
Qed.

Lemma uuid_text_of_cart (is_uuid : string -> bool) (c : cart) (d : DB) :
  c ∈ carts d -> uuid_text is_uuid d (c_id c) = true.
Proof.
  intros Hc. unfold uuid_text. apply orb_true_iff. right.
  apply bool_decide_eq_true. apply elem_of_app. left.
  apply list_elem_of_fmap. exists c. split; [reflexivity|exact Hc].
Qed.

Lemma uuid_text_of_found_cart (is_uuid : string -> bool) (cartId : uuid) (d : DB)
    (cart : cart) :
  find_cart_by_id cartId d = Some cart -> uuid_text is_uuid d cartId = true.
Proof.
  intros Hfound. unfold find_cart_by_id in Hfound.
  apply head_Some_elem_of, list_elem_of_filter in Hfound as [<- Hin].
  apply uuid_text_of_cart, Hin.
Qed.

Lemma handleCheckoutCompleted_spec (is_uuid : string -> bool)
    (enc : nat -> string -> string -> string)
    (encryptionKey : string) (session : Session) (cartId : uuid) (order : order)
    (cart : cart) (w : World) :
  truthy_string (s_metadata_cart_id session) = Some cartId ->
  find_order_by_session (s_id session) (db w) = Some order ->
  find_cart_by_id cartId (db w) = Some cart ->
  handleCheckoutCompleted is_uuid enc session encryptionKey w =
    let d1 := settled_rows enc encryptionKey session order cartId (db w) in
    match truthy_string (s_payment_intent session) with
    | Some payment_intent =>
        let p := payment_of (o_id order) session payment_intent in
        if session_idx_collides p (db w)
        then Thrown (UniqueViolation "payments_checkout_session_idx")
               (set_db (fun _ => d1) w)
        else if intent_idx_collides p (db w)
        then Thrown (UniqueViolation "payments_payment_intent_idx")
               (set_db (fun _ => d1) w)
        else Returned tt
               (set_db (fun _ =>
                  set_reservations (filter (fun r => r_cart_id r <> cartId))
                    (set_payments (fun ps => ps ++ [p]) d1)) w)
    | None =>
        Returned tt
          (set_db (fun _ =>
             set_reservations (filter (fun r => r_cart_id r <> cartId)) d1) w)
    end.
Proof.
  intros Hcart Horder Hfound.
  pose proof (find_cart_by_id_id _ _ _ Hfound) as Hid.
  unfold handleCheckoutCompleted. rewrite Hcart.
  read_state w.
  rewrite Horder.
  erewrite bind_returned;
    [|unfold uuid_param;
      rewrite (uuid_text_of_found_cart is_uuid cartId (db w) cart Hfound);
      reflexivity].
  rewrite Hfound, Hid. cbv zeta.
  erewrite bind_returned;
    [|apply liftDB_returned; unfold update_order, modify; reflexivity].
  erewrite bind_returned; [|apply insert_order_items_step].
  destruct (truthy_string (s_payment_intent session)) as [payment_intent|].
  - pose proof (insert_payment_spec
      (payment_of (o_id order) session payment_intent)
      (settled_rows enc encryptionKey session order cartId (db w))) as Hpay.
    change (session_idx_collides ?p (settled_rows _ _ _ _ _ (db w)))
      with (session_idx_collides p (db w)) in Hpay.
    change (intent_idx_collides ?p (settled_rows _ _ _ _ _ (db w)))
      with (intent_idx_collides p (db w)) in Hpay.
    destruct (session_idx_collides _ (db w)).
    { erewrite bind_thrown; [reflexivity|].
      erewrite liftDB_thrown; [reflexivity|exact Hpay]. }
    destruct (intent_idx_collides _ (db w)).
    { erewrite bind_thrown; [reflexivity|].
      erewrite liftDB_thrown; [reflexivity|exact Hpay]. }
    erewrite bind_returned; [|apply liftDB_returned; exact Hpay].
    reflexivity.
  - erewrite bind_returned; [|reflexivity]. reflexivity.
Qed.

Lemma pay_order_keeps_session (enc : nat -> string -> string -> string)
    (encryptionKey : string) (session : Session) (orderId : uuid) (o : order) :
  o_stripe_checkout_session_id (pay_order enc encryptionKey session orderId o)
    = o_stripe_checkout_session_id o.
Proof. unfold pay_order. destruct (decide (o_id o = orderId)); reflexivity. Qed.

Lemma pay_order_keeps_id (enc : nat -> string -> string -> string)
    (encryptionKey : string) (session : Session) (orderId : uuid) (o : order) :
  o_id (pay_order enc encryptionKey session orderId o) = o_id o.
Proof. unfold pay_order. destruct (decide (o_id o = orderId)); reflexivity. Qed.

Lemma payment_collides_after_insert (p : payment) (d d' : DB) :
  is_Some (p_stripe_checkout_session_id p) ->
  payments d' = payments d ++ [p] ->
  session_idx_collides p d' = true.
Proof.
  intros Hsome Hd'. unfold session_idx_collides. apply bool_decide_eq_true.
  rewrite Hd'. apply Exists_app. right. apply Exists_cons_hd. split; [exact Hsome|done].
Qed.

Lemma filter_filter_same {A} (P : A -> Prop) `{forall x, Decision (P x)}
    (l : list A) :
  filter P (filter P l) = filter P l.
Proof.
  induction l as [|x l IH]; [done|].
  rewrite filter_cons. destruct (decide (P x)) as [HP|HP]; [|exact IH].
  rewrite filter_cons. destruct (decide (P x)); [|done]. f_equal. exact IH.
Qed.

(** C7 (amended).  When a Completion notification arrives whose session
    id matches no Order, the handler returns and leaves the store
    unchanged: no stock mutation, no order update, no order items, no
    payment record, no reservation change.  It reports NotFound when the
    session metadata carries a cart id, and BadRequest when it does
    not. *)
Theorem completion_unknown_session_is_inert (is_uuid : string -> bool)
    (enc : nat -> string -> string -> string) (encryptionKey : string)
    (session : Session) (w : World) :
  find_order_by_session (s_id session) (db w) = None ->
  exists w',
    handleCheckoutCompleted is_uuid enc session encryptionKey w = Returned tt w' /\
    db w' = db w /\
    remote_sessions w' = remote_sessions w /\
    (forall cartId,
        truthy_string (s_metadata_cart_id session) = Some cartId ->
        ev_error (event w') = Some (event_error "NotFound" "Order not found")) /\
    (truthy_string (s_metadata_cart_id session) = None ->
     ev_error (event w') =
       Some (event_error "BadRequest" "Missing cart_id in session metadata")).
Proof.
  intros Hnone. unfold handleCheckoutCompleted.
  destruct (truthy_string (s_metadata_cart_id session)) as [cartId|].
  - read_state w. rewrite Hnone.
    eexists. split; [reflexivity|]. cbn. split_and!; try reflexivity; done.
  - eexists. split; [reflexivity|]. cbn. split_and!; try reflexivity; done.
Qed.

Lemma cart_reservations_cleared (cartId : uuid) (rs : list reservation) :
  filter (fun r => r_cart_id r = cartId)
    (filter (fun r => r_cart_id r <> cartId) rs) = [].
Proof.
  induction rs as [|r rs IH]; [done|].
  rewrite filter_cons. destruct (decide (r_cart_id r <> cartId)) as [Hne|He].
  - rewrite filter_cons. destruct (decide (r_cart_id r = cartId)); [done|]. exact IH.
  - exact IH.
Qed.

Lemma find_order_ext (sid : string) (d d' : DB) :
  orders d = orders d' ->
  find_order_by_session sid d = find_order_by_session sid d'.
Proof. unfold find_order_by_session. intros ->. reflexivity. Qed.

(** C1 (amended).  A Completion notification delivered a second time,
    to the state the first delivery produced: the Order stays [paid],
    the stock, the reservations (none for the cart) and the payment
    records are what the first run left - when the session carries a
    payment intent the first run recorded one payment and the second
    insert is rejected by the unique index, which makes the second run
    throw - and the carts and cart items are untouched; but the handler
    does not check for the earlier run, and the cart's order-item rows
    are inserted again after those of the first run. *)
Theorem completion_redelivered (is_uuid : string -> bool)
    (enc1 enc2 : nat -> string -> string -> string) (encryptionKey : string)
    (session : Session) (cartId : uuid) (ord : order) (cart : cart)
    (w w1 : World) :
  truthy_string (s_metadata_cart_id session) = Some cartId ->
  find_order_by_session (s_id session) (db w) = Some ord ->
  find_cart_by_id cartId (db w) = Some cart ->
  handleCheckoutCompleted is_uuid enc1 session encryptionKey w = Returned tt w1 ->
  let second := handleCheckoutCompleted is_uuid enc2 session encryptionKey w1 in
  let rows := order_item_of (o_id ord) <$> items_of_cart cartId (db w) in
  inventory (db w1) = inventory (db w) /\
  inventory (db (final_state second)) = inventory (db w1) /\
  cart_reservations cartId (db w1) = [] /\
  reservations (db (final_state second)) = reservations (db w1) /\
  payments (db (final_state second)) = payments (db w1) /\
  (forall payment_intent,
      truthy_string (s_payment_intent session) = Some payment_intent ->
      payments (db w1)
        = payments (db w) ++ [payment_of (o_id ord) session payment_intent] /\
      thrown second = Some (UniqueViolation "payments_checkout_session_idx")) /\
  carts (db (final_state second)) = carts (db w) /\
  cart_items (db (final_state second)) = cart_items (db w) /\
  o_id <$> orders (db (final_state second)) = o_id <$> orders (db w) /\
  o_status <$> find_order_by_session (s_id session) (db w1) = Some paid /\
  o_status <$> find_order_by_session (s_id session) (db (final_state second))
    = Some paid /\
  order_items (db w1) = order_items (db w) ++ rows /\
  order_items (db (final_state second)) = order_items (db w) ++ rows ++ rows.
Proof.
  intros Hcart Horder Hfound Hfirst second rows.
  pose proof (handleCheckoutCompleted_spec is_uuid enc1 encryptionKey session cartId
                ord cart w Hcart Horder Hfound) as Hspec1.
  rewrite Hfirst in Hspec1. cbv zeta in Hspec1.
  set (pay1 := pay_order enc1 encryptionKey session (o_id ord)).
  set (pay2 := pay_order enc2 encryptionKey session (o_id ord)).
  set (ord1 := settle_order enc1 encryptionKey session ord).
  assert (Hpaid1 :
    find_order_by_session (s_id session) (set_orders (fmap pay1) (db w))
    = Some ord1).
  { rewrite find_order_fmap by (intros; apply pay_order_keeps_session).
    rewrite Horder. cbn. unfold pay1, pay_order.
    destruct (decide (o_id ord = o_id ord)); [reflexivity|done]. }
  assert (Hpaid2 :
    o_status <$> find_order_by_session (s_id session)
                   (set_orders (fmap pay2) (set_orders (fmap pay1) (db w)))
    = Some paid).
  { rewrite find_order_fmap by (intros; apply pay_order_keeps_session).
    rewrite Hpaid1. cbn. unfold pay2, pay_order.
    destruct (decide (o_id ord1 = o_id ord)); [reflexivity|done]. }
  assert (Hids : o_id <$> (pay2 <$> (pay1 <$> orders (db w))) = o_id <$> orders (db w)).
  { rewrite <- !list_fmap_compose. apply list_fmap_ext. intros i o _. cbn.
    unfold pay2, pay1. rewrite !pay_order_keeps_id. reflexivity. }
  assert (Hspec2 : forall d1,
    orders d1 = pay1 <$> orders (db w) -> carts d1 = carts (db w) ->
    w1 = set_db (fun _ => d1) w ->
    second =
      (let d2 := settled_rows enc2 encryptionKey session ord1 cartId (db w1) in
       match truthy_string (s_payment_intent session) with
       | Some payment_intent =>
           let p := payment_of (o_id ord1) session payment_intent in
           if session_idx_collides p (db w1)
           then Thrown (UniqueViolation "payments_checkout_session_idx")
                  (set_db (fun _ => d2) w1)
           else if intent_idx_collides p (db w1)
           then Thrown (UniqueViolation "payments_payment_intent_idx")
                  (set_db (fun _ => d2) w1)
           else Returned tt
                  (set_db (fun _ =>
                     set_reservations (filter (fun r => r_cart_id r <> cartId))
                       (set_payments (fun ps => ps ++ [p]) d2)) w1)
       | None =>
           Returned tt
             (set_db (fun _ =>
                set_reservations (filter (fun r => r_cart_id r <> cartId)) d2) w1)
       end)).
  { intros d1 Horders Hcarts ->. subst second.
    apply (handleCheckoutCompleted_spec is_uuid enc2 encryptionKey session cartId
             ord1 cart); [exact Hcart| |].
    - rewrite <- Hpaid1. apply find_order_ext. cbn [db set_db]. exact Horders.
    - unfold find_cart_by_id in *. cbn [db set_db]. rewrite Hcarts. exact Hfound. }
  destruct (truthy_string (s_payment_intent session)) as [payment_intent|] eqn:Hpi.
  - destruct (session_idx_collides _ (db w)); [discriminate|].
    destruct (intent_idx_collides _ (db w)); [discriminate|].
    injection Hspec1 as Hw1.
    match type of Hw1 with
    | _ = set_db (fun _ => ?D) w => specialize (Hspec2 D eq_refl eq_refl Hw1)
    end.
    cbv zeta in Hspec2.
    rewrite (payment_collides_after_insert
               (payment_of (o_id ord1) session payment_intent)
               (settled_rows enc1 encryptionKey session ord cartId (db w))
               (db w1)) in Hspec2;
      [|eexists; reflexivity|rewrite Hw1; reflexivity].
    rewrite Hspec2, Hw1. cbn [final_state thrown db set_db].
    split_and!; try reflexivity.
    + apply cart_reservations_cleared.
    + intros pi' [= <-]. split; reflexivity.
    + exact Hids.
    + change (o_status <$> find_order_by_session (s_id session)
                (set_orders (fmap pay1) (db w)) = Some paid).
      rewrite Hpaid1. reflexivity.
    + exact Hpaid2.
    + cbn. rewrite <- app_assoc. reflexivity.
  - injection Hspec1 as Hw1.
    match type of Hw1 with
    | _ = set_db (fun _ => ?D) w => specialize (Hspec2 D eq_refl eq_refl Hw1)
    end.
    cbv zeta in Hspec2.
    rewrite Hspec2, Hw1. cbn [final_state thrown db set_db].
    split_and!; try reflexivity.
    + apply cart_reservations_cleared.
    + cbn. apply filter_filter_same.
    + intros pi' [=].
    + exact Hids.
    + change (o_status <$> find_order_by_session (s_id session)
                (set_orders (fmap pay1) (db w)) = Some paid).
      rewrite Hpaid1. reflexivity.
    + exact Hpaid2.
    + cbn. rewrite <- app_assoc. reflexivity.
Qed.

(** ** Checkout *)

Lemma update_cart_spec (cartId : uuid) (f : cart -> cart) (d : DB) :
  update_cart cartId f d =
    Returned (f <$> filter (fun c => c_id c = cartId) (carts d))
      (set_carts (fmap (fun c => if decide (c_id c = cartId) then f c else c)) d).
Proof. reflexivity. Qed.

Lemma reserveStock_succeeds (fresh : nat -> uuid) (cartId : uuid)
    (items : list StockItem) (expiresAt : Z) (d : DB) :
  (forall j it, items !! j = Some it ->
                guard_passes (ledger_before j items (inventory d)) it = true) ->
  reserveStock fresh cartId items expiresAt d =
    Returned success_true
      (set_reservations
         (fun rs => rs ++ reservation_rows fresh 0 cartId items expiresAt)
         (set_inventory (debit (requested <$> items)) d)).
Proof.
  intros Hall.
  pose proof (reserve_loop_spec fresh cartId expiresAt items 0 d) as Hloop.
  rewrite (no_shortfall_of_all items (inventory d) 0 Hall) in Hloop.
  unfold reserveStock, transaction. rewrite Hloop. reflexivity.
Qed.


Lemma reservation_rows_held (fresh : nat -> uuid) (cartId : uuid)
    (expiresAt : Z) (items : list StockItem) (n : nat) :
  held <$> reservation_rows fresh n cartId items expiresAt = requested <$> items.
Proof.
  revert n; induction items as [|it rest IH]; intros n; [done|].
  cbn. f_equal. apply IH.
Qed.



(** ** The webhook route *)


Lemma handleCheckoutCompleted_returns (is_uuid : string -> bool)
    (enc : nat -> string -> string -> string)
    (encryptionKey : string) (session : Session) (w : World) :
  (forall cartId,
      truthy_string (s_metadata_cart_id session) = Some cartId ->
      uuid_text is_uuid (db w) cartId = true) ->
  (forall orderId payment_intent,
      truthy_string (s_payment_intent session) = Some payment_intent ->
      payment_collides (payment_of orderId session payment_intent) (db w) = false) ->
  exists w', handleCheckoutCompleted is_uuid enc session encryptionKey w = Returned tt w'.
Proof.
  intros Huuid Hfree.
  destruct (truthy_string (s_metadata_cart_id session)) as [cartId|] eqn:Hcart.
  - destruct (find_order_by_session (s_id session) (db w)) as [ord|] eqn:Hord.
    + destruct (find_cart_by_id cartId (db w)) as [cart|] eqn:Hfound.
      * rewrite (handleCheckoutCompleted_spec is_uuid enc encryptionKey session cartId
                   ord cart w Hcart Hord Hfound). cbv zeta.
        destruct (truthy_string (s_payment_intent session)) as [pi|];
          [|eexists; reflexivity].
        specialize (Hfree (o_id ord) pi eq_refl).
        unfold payment_collides in Hfree. apply orb_false_iff in Hfree as [-> ->].
        eexists; reflexivity.
      * unfold handleCheckoutCompleted. rewrite Hcart.
        read_state w.
        rewrite Hord.
        erewrite bind_returned;
          [|unfold uuid_param; rewrite (Huuid cartId eq_refl); reflexivity].
        rewrite Hfound. eexists; reflexivity.
    + unfold handleCheckoutCompleted. rewrite Hcart.
      read_state w.
      rewrite Hord. eexists; reflexivity.
  - unfold handleCheckoutCompleted. rewrite Hcart. eexists; reflexivity.
Qed.




(** ** The declined reservation *)

Lemma reserveStock_never_declines (fresh : nat -> uuid) (cartId : uuid)
    (items : list StockItem) (expiresAt : Z) (d : DB) (v : uuid) :
  returned (reserveStock fresh cartId items expiresAt d) <> Some (success_false v).
Proof.
  pose proof (reserve_loop_spec fresh cartId expiresAt items 0 d) as Hloop.
  unfold reserveStock, transaction.
  destruct (first_shortfall (inventory d) items 0).
  - destruct Hloop as [d' ->]. discriminate.
  - rewrite Hloop. discriminate.
Qed.

(** C4.  The code at a shortfall.  With 5 units in stock, a request for
    7 makes [reserveStock] throw [TransactionRollbackError] - the
    declined result [{ success: false, failed_variant_id }] that follows
    [tx.rollback()] is never returned - and the store is left as it was.
    In checkout (two rows of 3 units against 5 in stock, so that the
    read-only check passes and the guard fails on the second row) the
    error leaves the handler unhandled: the response is a 500 with the
    generic message, the event bag names no conflicting unit, no remote
    session is created, no stock is taken and no reservation row is
    left. *)
Theorem reserveStock_shortfall_throws :
  reserveStock ex_fresh "cart-1" [{| variant_id := "var-A"; quantity := 7 |}]
    9000 ex_active
  = Thrown TransactionRollbackError ex_active
  /\
  let run :=
    checkout_handler (fun _ => Some (ex_session (Some "cart-1"))) ex_clock
      ex_fresh "order-9" (Some "sess-1") ex_body (world_of ex_twice) in
  thrown run = Some TransactionRollbackError /\
  respond run
    = {| res_body := json_error "Internal Server Error"; res_status := 500 |} /\
  ev_error (event (final_state run)) = None /\
  remote_sessions (final_state run) = [] /\
  inventory (db (final_state run)) = inventory ex_twice /\
  reservations (db (final_state run)) = [].
Proof. vm_compute. repeat split; reflexivity. Qed.

(** ** Counterexamples to the claims as stated *)

(** C1 as stated fails: after a second Completion for the same session
    the order has two sets of order-item rows, and the store differs
    from the one the first run produced. *)
Lemma completion_twice_duplicates_order_items :
  let second :=
    handleCheckoutCompleted ex_is_uuid ex_enc (ex_session (Some "cart-1")) "key" ex_settled in
  length (cart_items ex_pending) = 1%nat /\
  length (order_items (db ex_settled)) = 1%nat /\
  length (order_items (db (final_state second))) = 2%nat /\
  db (final_state second) <> db ex_settled /\
  thrown second = Some (UniqueViolation "payments_checkout_session_idx").
Proof.
  cbv zeta. split_and!; try (vm_compute; reflexivity).
  intros Heq. apply (f_equal (fun d => length (order_items d))) in Heq.
  vm_compute in Heq. discriminate.
Qed.



(** C7 as stated fails: a Completion whose session matches no Order and
    carries no cart id is reported as BadRequest, not NotFound. *)
Lemma completion_without_cart_id_is_bad_request :
  let w' := final_state (handleCheckoutCompleted ex_is_uuid ex_enc (ex_session None) "key"
                           (world_of ex_active)) in
  find_order_by_session "cs_1" ex_active = None /\
  err_type <$> ev_error (event w') = Some "BadRequest" /\
  err_type <$> ev_error (event w') <> Some "NotFound".
Proof. vm_compute. split_and!; try reflexivity. discriminate. Qed.

(** C8 as stated fails: a positive [adjust] that takes the stock past
    the 32-bit range of the column is refused by the engine; the route
    answers 500 and the stock stays. *)
Lemma update_inventory_overflow_is_answered_500 :
  let run :=
    update_inventory_route "var-A"
      {| body_stock_quantity := None; body_adjust := Some 2147483647 |}
      (world_of ex_active) in
  inventory ex_active !! "var-A" = Some 5 /\
  thrown run = Some DatabaseError /\
  respond run
    = {| res_body := json_error "Internal Server Error"; res_status := 500 |} /\
  returned run <> Some (inventory_json ("var-A", 5 + 2147483647)) /\
  inventory (db (final_state run)) !! "var-A" = Some 5.
Proof. vm_compute. split_and!; try reflexivity. discriminate. Qed.


(** ** Instances of the theorems on the sample data *)

Lemma completion_redelivered_witness :
  handleCheckoutCompleted ex_is_uuid ex_enc (ex_session (Some "cart-1")) "key"
    (world_of ex_pending) = Returned tt ex_settled /\
  order_items (db (final_state
    (handleCheckoutCompleted ex_is_uuid ex_enc (ex_session (Some "cart-1")) "key" ex_settled)))
  = order_items ex_pending
      ++ (order_item_of "order-1" <$> items_of_cart "cart-1" ex_pending)
      ++ (order_item_of "order-1" <$> items_of_cart "cart-1" ex_pending).
Proof.
  assert (Hfirst : handleCheckoutCompleted ex_is_uuid ex_enc (ex_session (Some "cart-1")) "key"
                     (world_of ex_pending) = Returned tt ex_settled)
    by (vm_compute; reflexivity).
  split; [exact Hfirst|].
  apply (completion_redelivered ex_is_uuid ex_enc ex_enc "key" (ex_session (Some "cart-1"))
           "cart-1" ex_order (ex_cart ordered) (world_of ex_pending) ex_settled);
    [vm_compute; reflexivity..|exact Hfirst].
Defined.

Lemma stock_never_negative_witness :
  Forall (fun w' => forall v stock, inventory (db w') !! v = Some stock -> 0 <= stock)
    (states_after ex_ops (world_of ex_active)).
Proof.
  apply stock_never_negative.
  - apply map_Forall_singleton. lia.
  - constructor.
  - repeat constructor; cbn; lia.
Defined.

Lemma reserveStock_all_or_nothing_witness :
  let items := [ {| variant_id := "var-A"; quantity := 2 |};
                 {| variant_id := "var-A"; quantity := 4 |} ] in
  final_state (reserveStock ex_fresh "cart-1" items 9000 ex_active) = ex_active /\
  exists d',
    reserveStock ex_fresh "cart-1" [{| variant_id := "var-A"; quantity := 2 |}]
      9000 ex_active = Returned success_true d'.
Proof.
  cbv zeta. split.
  - apply (proj1 (reserveStock_all_or_nothing ex_fresh "cart-1" _ 9000 ex_active)
             1%nat {| variant_id := "var-A"; quantity := 4 |}).
    + reflexivity.
    + intros [|j] it Hj Hit; [|lia]. injection Hit as <-. vm_compute. reflexivity.
    + vm_compute. reflexivity.
  - destruct (proj2 (reserveStock_all_or_nothing ex_fresh "cart-1"
                       [{| variant_id := "var-A"; quantity := 2 |}] 9000 ex_active))
      as [d' [Hd' _]].
    + intros [|j] it Hit; [|discriminate]. injection Hit as <-.
      vm_compute. reflexivity.
    + exists d'. exact Hd'.
Defined.



Lemma completion_unknown_session_is_inert_witness :
  exists w',
    handleCheckoutCompleted ex_is_uuid ex_enc (ex_session (Some "cart-1")) "key"
      (world_of ex_active) = Returned tt w' /\
    db w' = ex_active /\
    ev_error (event w') = Some (event_error "NotFound" "Order not found").
Proof.
  destruct (completion_unknown_session_is_inert ex_is_uuid ex_enc "key"
              (ex_session (Some "cart-1")) (world_of ex_active))
    as [w' [Hrun [Hdb [_ [Herr _]]]]].
  - vm_compute. reflexivity.
  - exists w'. split; [exact Hrun|]. split; [exact Hdb|].
    apply (Herr "cart-1"). reflexivity.
Defined.

Lemma update_inventory_adjust_guarded_witness :
  (exists message w',
      update_inventory_route "var-A"
        {| body_stock_quantity := None; body_adjust := Some (-7) |}
        (world_of ex_active) = Thrown (BadRequestError message) w' /\
      db w' = ex_active) /\
  returned (update_inventory_route "var-A"
              {| body_stock_quantity := None; body_adjust := Some (-5) |}
              (world_of ex_active)) = Some (inventory_json ("var-A", 0)) /\
  returned (update_inventory_route "var-A"
              {| body_stock_quantity := Some 9; body_adjust := None |}
              (world_of ex_active)) = Some (inventory_json ("var-A", 9)).
Proof.
  destruct (update_inventory_adjust_guarded "var-A" 5 (world_of ex_active))
    as [Hreject [Hadjust [Hset _]]]; [vm_compute; reflexivity|].
  split_and!.
  - destruct (Hreject (-7)) as [_ [message [w' [Hrun [Hdb _]]]]]; [lia..|].
    exists message, w'. split; assumption.
  - rewrite (Hadjust (-5)) by (lia || reflexivity). reflexivity.
  - rewrite (Hset 9 None) by lia. reflexivity.
Defined.



(** * Further properties of the modelled code *)

(** ** Reading the ledger: stock, reserved, available *)

Lemma getReservedQuantity_total (v : uuid) (d : DB) :
  getReservedQuantity v d = total_for v (held <$> reservations d).
Proof.
  unfold getReservedQuantity. induction (reservations d) as [|r rs IH]; [done|].
  rewrite filter_cons, fmap_cons. unfold total_for in *; cbn [foldr held fst snd].
  destruct (decide (r_variant_id r = v)); cbn; rewrite IH; reflexivity.
Qed.

Lemma total_for_split (v : uuid) (P : reservation -> Prop)
    `{forall r, Decision (P r)} (rs : list reservation) :
  total_for v (held <$> rs)
  = total_for v (held <$> filter P rs)
    + total_for v (held <$> filter (fun r => ~ P r) rs).
Proof.
  induction rs as [|r rs IH]; [done|].
  rewrite !filter_cons, fmap_cons.
  destruct (decide (P r)) as [HP|HP].
  - destruct (decide (~ P r)); [contradiction|].
    rewrite fmap_cons. unfold total_for in *; cbn [foldr held fst snd].
    destruct (decide (r_variant_id r = v)); lia.
  - destruct (decide (~ P r)); [|contradiction].
    rewrite fmap_cons. unfold total_for in *; cbn [foldr held fst snd].
    destruct (decide (r_variant_id r = v)); lia.
Qed.

Lemma reserveStock_returned (fresh : nat -> uuid) (cartId : uuid)
    (items : list StockItem) (expiresAt : Z) (d d' : DB) (result : ReserveResult) :
  reserveStock fresh cartId items expiresAt d = Returned result d' ->
  result = success_true /\
  d' = set_reservations
         (fun rs => rs ++ reservation_rows fresh 0 cartId items expiresAt)
         (set_inventory (debit (requested <$> items)) d).
Proof.
  intros Hrun.
  pose proof (reserve_loop_spec fresh cartId expiresAt items 0 d) as Hloop.
  unfold reserveStock, transaction in Hrun.
  destruct (first_shortfall (inventory d) items 0).
  - destruct Hloop as [d0 Hloop]. rewrite Hloop in Hrun. discriminate.
  - rewrite Hloop in Hrun. injection Hrun as <- <-. split; reflexivity.
Qed.

(** X1.  What a reader of the ledger sees after a successful
    [reserveStock]: for a unit with an inventory row, [stock_quantity]
    has dropped by the quantity requested for it and [reserved_quantity]
    has risen by the same amount, so their sum is unchanged and
    [available], computed as stock minus reserved, has dropped by twice
    the requested quantity. *)
Theorem reserve_moves_stock_into_reserved (fresh : nat -> uuid) (cartId : uuid)
    (items : list StockItem) (expiresAt : Z) (d d' : DB) (v : uuid)
    (before : AvailableStock) :
  reserveStock fresh cartId items expiresAt d = Returned success_true d' ->
  getAvailableStock v d = Some before ->
  exists after,
    getAvailableStock v d' = Some after /\
    stock_quantity after
      = stock_quantity before - total_for v (requested <$> items) /\
    reserved_quantity after
      = reserved_quantity before + total_for v (requested <$> items) /\
    stock_quantity after + reserved_quantity after
      = stock_quantity before + reserved_quantity before /\
    available after = available before - 2 * total_for v (requested <$> items).
Proof.
  intros Hrun Hbefore.
  apply reserveStock_returned in Hrun as [_ ->].
  unfold getAvailableStock in *.
  cbn [inventory set_reservations set_inventory]. rewrite debit_lookup.
  destruct (inventory d !! v) as [stock|]; [|discriminate].
  injection Hbefore as <-. cbn [fmap option_fmap option_map].
  eexists. split; [reflexivity|]. cbn [stock_quantity reserved_quantity available].
  rewrite !getReservedQuantity_total.
  cbn [reservations set_reservations set_inventory].
  rewrite fmap_app, total_for_app, reservation_rows_held. lia.
Qed.


(** X3.  [clearReservations] commits the sale: the ledger is left as it
    is, the cart's reservation rows are gone, those of every other cart
    stay; a reader sees [reserved_quantity] drop by what the cart held
    and [stock_quantity] unchanged. *)
Theorem clear_commits_the_decrement (cartId : uuid) (d : DB) :
  let d' := final_state (clearReservations cartId d) in
  inventory d' = inventory d /\
  cart_reservations cartId d' = [] /\
  (forall other, other <> cartId ->
                 cart_reservations other d' = cart_reservations other d) /\
  (forall v,
      getReservedQuantity v d'
      = getReservedQuantity v d - total_for v (held <$> cart_reservations cartId d)) /\
  restoreStockFromReservations cartId d' = Returned tt d'.
Proof.
  intros d'.
  assert (Hd' : d' = set_reservations (filter (fun r => r_cart_id r <> cartId)) d)
    by reflexivity.
  clearbody d'. subst d'. split_and!.
  - reflexivity.
  - apply cart_reservations_cleared.
  - intros other Hother. unfold cart_reservations.
    cbn [reservations set_reservations].
    rewrite list_filter_filter. apply list_filter_iff. intros r. split.
    + intros [Hr _]. exact Hr.
    + intros Hr. split; [exact Hr|]. congruence.
  - intros v. rewrite !getReservedQuantity_total.
    pose proof (total_for_split v (fun r => r_cart_id r = cartId) (reservations d))
      as Hsplit.
    cbn beta in Hsplit.
    cbn [reservations set_reservations]. unfold cart_reservations. lia.
  - rewrite restoreStockFromReservations_spec.
    rewrite released_without_reservations; [reflexivity|].
    apply cart_reservations_cleared.
Qed.

(** X4.  The inventory read route never sends a body.  For a unit
    without an inventory row it throws NotFound (404).  For a unit with
    a row, [reserved_quantity] is the text the driver delivers for the
    sum, the check of the response refuses it, the handler throws
    [ZodError] and the route answers 400 - whatever the stock and the
    reservations are.  The store is never changed.  Had the sum been
    delivered as a number, the check would have passed the record
    [getAvailableStock] computes. *)
Theorem inventory_route_refuses_its_response (v : uuid) (w : World) :
  db (final_state (get_single_inventory_handler v w)) = db w /\
  returned (get_single_inventory_handler v w) = None /\
  (inventory (db w) !! v = None <->
   thrown (get_single_inventory_handler v w)
     = Some (NotFoundError "Inventory not found")) /\
  (inventory (db w) !! v = None <-> status_of (get_single_inventory_handler v w) = 404) /\
  (is_Some (inventory (db w) !! v) <->
   thrown (get_single_inventory_handler v w) = Some ZodError) /\
  (is_Some (inventory (db w) !! v) <->
   status_of (get_single_inventory_handler v w) = 400) /\
  (forall stock,
      inventory (db w) !! v = Some stock ->
      InventoryResponseSchema_parse stock
        (js_number (getReservedQuantity v (db w)))
        (js_minus stock (getReservedQuantity_delivered v (db w)))
      = getAvailableStock v (db w)).
Proof.
  unfold get_single_inventory_handler, getAvailableStock.
  read_state w.
  destruct (inventory (db w) !! v) as [stock|]; cbn.
  - split_and!; try reflexivity; try (split; discriminate);
      try (split; [reflexivity|eauto]).
    intros stock' [= <-]. reflexivity.
  - split_and!; try reflexivity; try (split; reflexivity);
      try (split; [intros [x Hx]|]; discriminate).
    intros stock' [=].
Qed.

(** ** Inventory rows are neither created nor deleted *)

Lemma dom_credit (l : list (uuid * Z)) (m : gmap string Z) :
  dom (credit l m) = dom m.
Proof.
  revert m; induction l as [|p l IH]; intros m; [done|].
  unfold credit in *; cbn [foldl]. rewrite IH. apply dom_alter_L.
Qed.

Lemma dom_debit (l : list (uuid * Z)) (m : gmap string Z) :
  dom (debit l m) = dom m.
Proof.
  revert m; induction l as [|p l IH]; intros m; [done|].
  unfold debit in *; cbn [foldl]. rewrite IH. apply dom_alter_L.
Qed.

Lemma dom_insert_existing (m : gmap string Z) (v : string) (x y : Z) :
  m !! v = Some x -> dom (<[v := y]> m) = dom m.
Proof.
  intros Hv. rewrite dom_insert_L.
  assert (Hin : v ∈ dom m) by (apply elem_of_dom; eauto).
  apply set_eq. intros k. rewrite elem_of_union, elem_of_singleton.
  split; [intros [->|Hk]; assumption|intros Hk; right; exact Hk].
Qed.

Lemma update_inventory_keeps_rows (v : uuid) (body : UpdateInventoryBody)
    (w : World) :
  dom (inventory (db (final_state (update_inventory_route v body w))))
  = dom (inventory (db w)).
Proof.
  unfold update_inventory_route.
  destruct (UpdateInventorySchema body); [|reflexivity].
  unfold update_inventory_handler. read_state w.
  destruct (inventory (db w) !! v) as [existing|] eqn:Hv; [|reflexivity].
  destruct body as [[q|] [adjust|]]; cbn [body_stock_quantity body_adjust].
  - unfold bind at 1. rewrite liftDB_update_inventory_where, Hv.
    destruct (negb (forallb int4 [q])); [reflexivity|].
    destruct (int4 q); [|reflexivity]. cbn.
    apply (dom_insert_existing _ _ _ _ Hv).
  - unfold bind at 1. rewrite liftDB_update_inventory_where, Hv.
    destruct (negb (forallb int4 [q])); [reflexivity|].
    destruct (int4 q); [|reflexivity]. cbn.
    apply (dom_insert_existing _ _ _ _ Hv).
  - destruct (Z.ltb adjust 0).
    + unfold bind at 1. rewrite liftDB_update_inventory_where, Hv.
      destruct (negb (forallb int4 [adjust; Z.abs adjust])); [reflexivity|].
      destruct (Z.leb (Z.abs adjust) existing); [|reflexivity].
      destruct (int4 (existing + adjust)); [|reflexivity]. cbn.
      apply (dom_insert_existing _ _ _ _ Hv).
    + unfold bind at 1. rewrite liftDB_update_inventory_where, Hv.
      destruct (negb (forallb int4 [adjust])); [reflexivity|].
      destruct (int4 (existing + adjust)); [|reflexivity]. cbn.
      apply (dom_insert_existing _ _ _ _ Hv).
  - reflexivity.
Qed.

Lemma step_keeps_rows (w : World) (op : stock_op) :
  dom (inventory (db (step w op))) = dom (inventory (db w)).
Proof.
  destruct op as [fresh cartId items expiresAt|cartId|rid|v body]; cbn [step].
  - rewrite db_final_liftDB.
    destruct (reserveStock fresh cartId items expiresAt (db w)) as [r d'|e d']
      eqn:Hrun; cbn [final_state].
    + apply reserveStock_returned in Hrun as [_ ->]. cbn. apply dom_debit.
    + pose proof (reserve_loop_spec fresh cartId expiresAt items 0 (db w)) as Hloop.
      unfold reserveStock, transaction in Hrun.
      destruct (reserve_loop fresh 0 cartId items expiresAt (db w));
        [discriminate|].
      injection Hrun as _ <-. reflexivity.
  - rewrite db_final_liftDB, restoreStockFromReservations_spec. cbn.
    apply dom_credit.
  - unfold delete_reservation_handler. read_state w.
    destruct (filter (fun r => r_id r = rid) (reservations (db w)));
      [reflexivity|]. cbn. apply dom_alter_L.
  - apply update_inventory_keeps_rows.
Qed.

(** X5.  No stock-mutating operation creates or deletes an inventory
    row: after each operation of any sequence of reservation attempts,
    releases, reservation cancellations and inventory updates, the units
    that have an inventory row are exactly those that had one at the
    start.  In particular an update or a reservation for a unit without
    a row never creates one. *)
Theorem inventory_rows_are_fixed (ops : list stock_op) (w : World) :
  Forall (fun w' => dom (inventory (db w')) = dom (inventory (db w)))
    (states_after ops w).
Proof.
  revert w; induction ops as [|op ops IH]; intros w; [constructor|].
  cbn [states_after]. constructor; [apply step_keeps_rows|].
  eapply Forall_impl; [apply IH|]. cbn. intros w' ->. apply step_keeps_rows.
Qed.

(** ** Cancelling a reservation *)


(** ** lib/crypto and the admin middleware *)

Lemma xor_fold_zero (aArray : list Z) :
  forall (bArray : list Z) (result : Z),
    length aArray = length bArray ->
    xor_fold aArray bArray result = 0 <-> result = 0 /\ aArray = bArray.
Proof.
  induction aArray as [|x rest IH]; intros [|y bs] result Hlen;
    try discriminate; cbn [xor_fold].
  - split; [intros ->; split; reflexivity|intros [-> _]; reflexivity].
  - cbn [head tail default]. cbn in Hlen. injection Hlen as Hlen.
    rewrite (IH bs _ Hlen), Z.lor_eq_0_iff, Z.lxor_eq_0_iff. split.
    + intros [[-> ->] ->]. split; reflexivity.
    + intros [-> [= -> ->]]. split_and!; reflexivity.
Qed.

Lemma xor_fold_same (aArray : list Z) (result : Z) :
  xor_fold aArray aArray result = result.
Proof.
  revert result; induction aArray as [|x rest IH]; intros result; [done|].
  cbn [xor_fold head tail default]. rewrite IH, Z.lxor_nilpotent, Z.lor_0_r.
  reflexivity.
Qed.

(** X7.  [timingSafeEqual] accepts two strings exactly when their byte
    encodings have the same length and the same SHA-256 digest (the two
    digests having one length, as digests do); it accepts every string
    against itself, and strings of different encoded length are refused
    whatever their digests. *)
Theorem timingSafeEqual_accepts_equal_digests (sha256 : list Z -> list Z)
    (a b : string) :
  length (sha256 (encode a)) = length (sha256 (encode b)) ->
  (timingSafeEqual sha256 a b = true <->
   length (encode a) = length (encode b) /\
   sha256 (encode a) = sha256 (encode b))
  /\ timingSafeEqual sha256 a a = true
  /\ (length (encode a) <> length (encode b) -> timingSafeEqual sha256 a b = false).
Proof.
  intros Hdigest. unfold timingSafeEqual. cbv zeta. split_and!.
  - destruct (Nat.eqb (length (encode a)) (length (encode b))) eqn:Hlen; cbn [negb].
    + apply Nat.eqb_eq in Hlen. rewrite Z.eqb_eq, (xor_fold_zero _ _ _ Hdigest).
      split; [intros [_ ?]; split; assumption|intros [_ ?]; split; [reflexivity|assumption]].
    + apply Nat.eqb_neq in Hlen. split; [discriminate|intros [? _]; contradiction].
  - rewrite Nat.eqb_refl. cbn [negb]. rewrite xor_fold_same. reflexivity.
  - intros Hlen. apply Nat.eqb_neq in Hlen. rewrite Hlen. reflexivity.
Qed.

Lemma timingSafeEqual_same (sha256 : list Z -> list Z) (a : string) :
  timingSafeEqual sha256 a a = true.
Proof.
  unfold timingSafeEqual. cbv zeta. rewrite Nat.eqb_refl. cbn [negb].
  rewrite xor_fold_same. reflexivity.
Qed.

Lemma adminAuth_cases {A} (sha256 : list Z -> list Z)
    (header_api_key ADMIN_API_KEY : option string) (next : M World A) (w : World) :
  adminAuth sha256 header_api_key ADMIN_API_KEY next w = next w \/
  exists message,
    adminAuth sha256 header_api_key ADMIN_API_KEY next w
      = Thrown (ForbiddenError message) w.
Proof.
  unfold adminAuth.
  destruct (truthy_string ADMIN_API_KEY); [|right; eexists; reflexivity].
  destruct (truthy_string header_api_key); [|right; eexists; reflexivity].
  destruct (timingSafeEqual sha256 _ _); [left; reflexivity|].
  right; eexists; reflexivity.
Qed.

(** X8.  [adminAuth] runs the route only for an accepted key.  When the
    X-API-KEY header is the configured (non-empty) admin key the
    middleware is transparent; in every other case in which it does not
    hand over to the route it throws Forbidden (403) without touching
    the state - so an inventory update or a reservation cancellation
    that is refused leaves stock and reservations as they are; a missing
    or empty header, or an unset key, is always refused. *)
Theorem adminAuth_guards_the_route {A} (sha256 : list Z -> list Z)
    (header_api_key ADMIN_API_KEY : option string) (next : M World A) (w : World) :
  (forall key,
      truthy_string ADMIN_API_KEY = Some key ->
      truthy_string header_api_key = Some key ->
      adminAuth sha256 header_api_key ADMIN_API_KEY next w = next w)
  /\
  (adminAuth sha256 header_api_key ADMIN_API_KEY next w = next w \/
   exists message,
     adminAuth sha256 header_api_key ADMIN_API_KEY next w
       = Thrown (ForbiddenError message) w /\
     status_of (adminAuth sha256 header_api_key ADMIN_API_KEY next w) = 403)
  /\
  (truthy_string header_api_key = None \/ truthy_string ADMIN_API_KEY = None ->
   exists message,
     adminAuth sha256 header_api_key ADMIN_API_KEY next w
       = Thrown (ForbiddenError message) w).
Proof.
  unfold adminAuth. split_and!.
  - intros key -> ->. rewrite timingSafeEqual_same. reflexivity.
  - destruct (adminAuth_cases sha256 header_api_key ADMIN_API_KEY next w)
      as [Hnext|[message Hforbidden]]; [left; exact Hnext|].
    right. exists message. unfold adminAuth in Hforbidden.
    rewrite Hforbidden. split; reflexivity.
  - intros [Hnone|Hnone]; rewrite Hnone.
    + destruct (truthy_string ADMIN_API_KEY); eexists; reflexivity.
    + eexists; reflexivity.
Qed.

Lemma update_inventory_never_forbidden (v : uuid) (body : UpdateInventoryBody)
    (w : World) :
  status_of (update_inventory_route v body w) <> 403.
Proof.
  unfold update_inventory_route.
  destruct (UpdateInventorySchema body); [|discriminate].
  unfold update_inventory_handler. read_state w.
  destruct (inventory (db w) !! v) as [existing|] eqn:Hv; [|discriminate].
  destruct body as [[q|] [adjust|]]; cbn [body_stock_quantity body_adjust];
    try discriminate.
  - unfold bind at 1. rewrite liftDB_update_inventory_where, Hv.
    destruct (negb (forallb int4 [q])); [discriminate|].
    destruct (int4 q); discriminate.
  - unfold bind at 1. rewrite liftDB_update_inventory_where, Hv.
    destruct (negb (forallb int4 [q])); [discriminate|].
    destruct (int4 q); discriminate.
  - destruct (Z.ltb adjust 0).
    + unfold bind at 1. rewrite liftDB_update_inventory_where, Hv.
      destruct (negb (forallb int4 [adjust; Z.abs adjust])); [discriminate|].
      destruct (Z.leb (Z.abs adjust) existing); [|discriminate].
      destruct (int4 (existing + adjust)); discriminate.
    + unfold bind at 1. rewrite liftDB_update_inventory_where, Hv.
      destruct (negb (forallb int4 [adjust])); [discriminate|].
      destruct (int4 (existing + adjust)); discriminate.
Qed.

(** X9.  A refused administrator request changes nothing: when the
    inventory update or the reservation cancellation, as mounted behind
    [adminAuth], answers 403, the store is exactly the one before the
    request. *)
Theorem refused_admin_request_is_inert (sha256 : list Z -> list Z)
    (header_api_key ADMIN_API_KEY : option string) (w : World) :
  (forall v body,
      status_of (admin_update_inventory sha256 header_api_key ADMIN_API_KEY v body w)
        = 403 ->
      final_state
        (admin_update_inventory sha256 header_api_key ADMIN_API_KEY v body w) = w)
  /\
  (forall reservation_id,
      status_of (admin_delete_reservation sha256 header_api_key ADMIN_API_KEY
                   reservation_id w) = 403 ->
      final_state
        (admin_delete_reservation sha256 header_api_key ADMIN_API_KEY
           reservation_id w) = w).
Proof.
  split.
  - intros v body. unfold admin_update_inventory.
    destruct (adminAuth_cases sha256 header_api_key ADMIN_API_KEY
                (update_inventory_route v body) w)
      as [Hnext|[message Hforbidden]].
    + rewrite Hnext. intros Hstatus. exfalso.
      apply (update_inventory_never_forbidden v body w Hstatus).
    + rewrite Hforbidden. reflexivity.
  - intros reservation_id. unfold admin_delete_reservation.
    destruct (adminAuth_cases sha256 header_api_key ADMIN_API_KEY
                (delete_reservation_handler reservation_id) w)
      as [Hnext|[message Hforbidden]].
    + rewrite Hnext. intros Hstatus. exfalso.
      unfold delete_reservation_handler in Hstatus. revert Hstatus. read_state w.
      destruct (filter (fun r => r_id r = reservation_id) (reservations (db w)));
        discriminate.
    + rewrite Hforbidden. reflexivity.
Qed.

(** ** PII columns: what is sealed is read back *)

Lemma decrypt_encrypt_field (seal : nat -> string -> string -> string)
    (unseal : string -> string -> option string) (encryptionKey : string)
    (n : nat) (value : option string) :
  (forall n v, v <> "" -> seal n v encryptionKey <> "" /\
                          unseal (seal n v encryptionKey) encryptionKey = Some v) ->
  decryptPII_field unseal encryptionKey
    (encryptPII_field seal encryptionKey n value) = value.
Proof.
  intros Hcipher. destruct value as [v|]; [|reflexivity].
  unfold encryptPII_field, decryptPII_field, encrypt, decrypt.
  destruct (decide (v = "")) as [->|Hv]; [reflexivity|].
  destruct (Hcipher n v Hv) as [Hne Hback].
  destruct (decide (seal n v encryptionKey = "")); [contradiction|].
  rewrite Hback. reflexivity.
Qed.

Lemma decrypt_legacy_field (unseal : string -> string -> option string)
    (encryptionKey : string) (value : option string) :
  (forall v, value = Some v -> unseal v encryptionKey = None) ->
  decryptPII_field unseal encryptionKey value = value.
Proof.
  intros Hfail. destruct value as [v|]; [|reflexivity].
  unfold decryptPII_field, decrypt.
  destruct (decide (v = "")); [reflexivity|].
  rewrite (Hfail v eq_refl). reflexivity.
Qed.

(** X10.  [decryptPII] undoes [encryptPII]: with a cipher whose sealed
    texts are non-empty and open to the plaintext they were made from,
    decrypting an encrypted record gives the record back, absent and
    empty fields included.  And a record holding values the cipher
    cannot open (rows stored before encryption) is returned as stored. *)
Theorem decryptPII_undoes_encryptPII (seal : nat -> string -> string -> string)
    (unseal : string -> string -> option string) (encryptionKey : string)
    (data : pii) :
  ((forall n v, v <> "" -> seal n v encryptionKey <> "" /\
                           unseal (seal n v encryptionKey) encryptionKey = Some v) ->
   decryptPII unseal encryptionKey (encryptPII seal encryptionKey data) = data)
  /\
  (Forall (fun v => unseal v encryptionKey = None) (pii_values data) ->
   decryptPII unseal encryptionKey data = data).
Proof.
  split.
  - intros Hcipher. destruct data. unfold decryptPII, encryptPII; cbn.
    rewrite !decrypt_encrypt_field by exact Hcipher. reflexivity.
  - intros Hlegacy. rewrite Forall_forall in Hlegacy.
    destruct data as [f1 f2 f3 f4 f5 f6 f7 f8 f9].
    unfold decryptPII; cbn. unfold pii_values in Hlegacy.
    cbn [email customer_name shipping_name shipping_address_line1
         shipping_address_line2 shipping_city shipping_state
         shipping_postal_code shipping_country] in Hlegacy.
    assert (Hin : forall value v,
      value ∈ [f1; f2; f3; f4; f5; f6; f7; f8; f9] -> value = Some v ->
      unseal v encryptionKey = None).
    { intros value v Hvalue ->. apply Hlegacy.
      apply list_elem_of_omap. exists (Some v). split; [exact Hvalue|reflexivity]. }
    rewrite !decrypt_legacy_field;
      [reflexivity|intros v; apply Hin; repeat constructor..].
Qed.

Lemma decrypt_sealed_field (enc : nat -> string -> string -> string)
    (unseal : string -> string -> option string) (encryptionKey : string)
    (n : nat) (value : option string) :
  (forall n v, v <> "" -> enc n v encryptionKey <> "" /\
                          unseal (enc n v encryptionKey) encryptionKey = Some v) ->
  decryptPII_field unseal encryptionKey (encryptField enc encryptionKey n value)
  = truthy_string value.
Proof.
  intros Hcipher. unfold encryptField.
  destruct value as [[|c v]|]; cbn [truthy_string]; try reflexivity.
  unfold decryptPII_field, decrypt.
  destruct (Hcipher n (String c v) ltac:(discriminate)) as [Hne Hback].
  destruct (decide (enc n (String c v) encryptionKey = "")); [contradiction|].
  rewrite Hback. reflexivity.
Qed.

Lemma first_order_settled (g : order -> order) (orderId : uuid)
    (os : list order) (ord : order) :
  (forall o, o_id (g o) = o_id o) ->
  ord ∈ os -> o_id ord = orderId ->
  exists o0, o_id o0 = orderId /\
             head (filter (fun o => o_id o = orderId) (g <$> os)) = Some (g o0).
Proof.
  intros Hg Hin Hid. induction os as [|o os IH]; [inversion Hin|].
  rewrite fmap_cons, filter_cons, Hg.
  destruct (decide (o_id o = orderId)) as [Ho|Ho].
  - exists o. split; [exact Ho|reflexivity].
  - apply elem_of_cons in Hin as [->|Hin]; [contradiction|]. apply IH, Hin.
Qed.

(** X11.  What the Completion handler stores, the order endpoint reads
    back.  After a Completion that found its Order and cart and ran to
    its end, [GET /orders/{id}] for that order returns it with status
    [paid], the session's totals, the customer's details in plain text
    (empty strings read as absent) and, after the order's earlier item
    rows, one item row per cart item - provided the cipher opens what it
    sealed; the read leaves the state as it is. *)
Theorem settled_order_reads_back (is_uuid : string -> bool)
    (enc : nat -> string -> string -> string)
    (unseal : string -> string -> option string) (encryptionKey : string)
    (session : Session) (cartId : uuid) (ord : order) (cart : cart)
    (w w1 : World) :
  truthy_string (s_metadata_cart_id session) = Some cartId ->
  find_order_by_session (s_id session) (db w) = Some ord ->
  find_cart_by_id cartId (db w) = Some cart ->
  handleCheckoutCompleted is_uuid enc session encryptionKey w = Returned tt w1 ->
  (forall n v, v <> "" -> enc n v encryptionKey <> "" /\
                          unseal (enc n v encryptionKey) encryptionKey = Some v) ->
  exists response,
    get_single_order_handler unseal encryptionKey (o_id ord) w1
      = Returned response w1 /\
    o_id (ow_order response) = o_id ord /\
    o_status (ow_order response) = paid /\
    o_pii (ow_order response) = present (s_customer session) /\
    o_total (ow_order response) = truthy_number (s_amount_total session) /\
    o_stripe_payment_intent_id (ow_order response) = s_payment_intent session /\
    ow_items response
      = filter (fun it => oi_order_id it = o_id ord) (order_items (db w))
        ++ (order_item_of (o_id ord) <$> items_of_cart cartId (db w)).
Proof.
  intros Hcart Horder Hfound Hrun Hcipher.
  pose proof (handleCheckoutCompleted_spec is_uuid enc encryptionKey session cartId
                ord cart w Hcart Horder Hfound) as Hspec.
  rewrite Hrun in Hspec. cbv zeta in Hspec.
  assert (Hin : ord ∈ orders (db w)).
  { unfold find_order_by_session in Horder. apply head_Some_elem_of in Horder.
    apply list_elem_of_filter in Horder as [_ Horder]. exact Horder. }
  destruct (first_order_settled
              (pay_order enc encryptionKey session (o_id ord)) (o_id ord)
              (orders (db w)) ord
              (fun o => pay_order_keeps_id enc encryptionKey session (o_id ord) o)
              Hin eq_refl) as [o0 [Hid0 Hhead]].
  assert (Hshape :
    orders (db w1)
      = pay_order enc encryptionKey session (o_id ord) <$> orders (db w) /\
    order_items (db w1)
      = order_items (db w)
        ++ (order_item_of (o_id ord) <$> items_of_cart cartId (db w))).
  { destruct (truthy_string (s_payment_intent session)).
    - destruct (session_idx_collides _ (db w)); [discriminate|].
      destruct (intent_idx_collides _ (db w)); [discriminate|].
      injection Hspec as ->. split; reflexivity.
    - injection Hspec as ->. split; reflexivity. }
  destruct Hshape as [Horders Hitems].
  unfold get_single_order_handler. read_state w1.
  rewrite Horders, Hhead, Hitems.
  eexists. split; [reflexivity|]. cbn [ow_order ow_items].
  unfold pay_order. destruct (decide (o_id o0 = o_id ord)); [|contradiction].
  cbn. split_and!; try reflexivity.
  - exact Hid0.
  - unfold decryptPII, encrypt_pii, present; cbn.
    rewrite !decrypt_sealed_field by exact Hcipher. reflexivity.
  - rewrite filter_app. f_equal; [rewrite Hid0; reflexivity|].
    rewrite Hid0. clear.
    induction (items_of_cart cartId (db w)) as [|it its IH]; [done|].
    rewrite fmap_cons, filter_cons. cbn [oi_order_id order_item_of].
    destruct (decide (o_id ord = o_id ord)); [|done]. f_equal. exact IH.
Qed.

(** ** The webhook route: what reaches the store *)

(** X12.  The webhook route touches the store only for a verified
    event of one of the two handled kinds.  A missing or empty
    stripe-signature header is answered 400, an unset webhook secret
    500, a signature that does not verify 400, and a verified event of
    any other kind 200 with its type recorded as unhandled; in all four
    cases the store is left as it is. *)
Theorem webhook_store_changes_need_a_handled_event (is_uuid : string -> bool)
    (constructEvent : string -> string -> string -> option StripeEvent)
    (enc : nat -> string -> string -> string) (env : Env) (rawBody : string)
    (header_signature : option string) (w : World) :
  let run :=
    stripe_webhook_handler is_uuid constructEvent enc env rawBody header_signature w in
  (truthy_string header_signature = None ->
   res_status <$> returned run = Some 400 /\ db (final_state run) = db w)
  /\
  (forall signature,
      truthy_string header_signature = Some signature ->
      truthy_string (STRIPE_WEBHOOK_SECRET env) = None ->
      res_status <$> returned run = Some 500 /\ db (final_state run) = db w)
  /\
  (forall signature webhookSecret,
      truthy_string header_signature = Some signature ->
      truthy_string (STRIPE_WEBHOOK_SECRET env) = Some webhookSecret ->
      constructEvent rawBody signature webhookSecret = None ->
      res_status <$> returned run = Some 400 /\ db (final_state run) = db w)
  /\
  (forall signature webhookSecret stripeEvent,
      truthy_string header_signature = Some signature ->
      truthy_string (STRIPE_WEBHOOK_SECRET env) = Some webhookSecret ->
      constructEvent rawBody signature webhookSecret = Some stripeEvent ->
      se_type stripeEvent <> "checkout.session.completed" ->
      se_type stripeEvent <> "checkout.session.expired" ->
      returned run = Some {| res_body := json_received true; res_status := 200 |} /\
      ev_unhandled_event (event (final_state run)) = Some (se_type stripeEvent) /\
      db (final_state run) = db w)
  /\
  (db (final_state run) <> db w ->
   exists signature webhookSecret stripeEvent,
     truthy_string header_signature = Some signature /\
     truthy_string (STRIPE_WEBHOOK_SECRET env) = Some webhookSecret /\
     constructEvent rawBody signature webhookSecret = Some stripeEvent /\
     (se_type stripeEvent = "checkout.session.completed" \/
      se_type stripeEvent = "checkout.session.expired")).
Proof.
  intros run. subst run. unfold stripe_webhook_handler.
  destruct (truthy_string header_signature) as [signature|].
  2:{ split_and!; try discriminate; try (intros; split; reflexivity).
      intros Hchanged. exfalso. apply Hchanged. reflexivity. }
  destruct (truthy_string (STRIPE_WEBHOOK_SECRET env)) as [webhookSecret|].
  2:{ split_and!; try discriminate; try (intros; split; reflexivity).
      intros Hchanged. exfalso. apply Hchanged. reflexivity. }
  destruct (constructEvent rawBody signature webhookSecret) as [stripeEvent|]
    eqn:Hverify.
  2:{ split_and!; try discriminate.
      - intros ? ? [= <-] [= <-] _. split; reflexivity.
      - intros ? ? ? [= <-] [= <-]. rewrite Hverify. discriminate.
      - intros Hchanged. exfalso. apply Hchanged. reflexivity. }
  split_and!; try discriminate.
  - intros ? ? [= <-] [= <-]. rewrite Hverify. discriminate.
  - intros ? ? ? [= <-] [= <-]. rewrite Hverify. intros [= <-] Hc He.
    apply String.eqb_neq in Hc, He. rewrite Hc, He.
    split_and!; reflexivity.
  - intros Hchanged.
    exists signature, webhookSecret, stripeEvent.
    split; [reflexivity|]. split; [reflexivity|]. split; [exact Hverify|].
    destruct (String.eqb (se_type stripeEvent) "checkout.session.completed")
      eqn:Hc; [left; apply String.eqb_eq, Hc|].
    destruct (String.eqb (se_type stripeEvent) "checkout.session.expired")
      eqn:He; [right; apply String.eqb_eq, He|].
    exfalso. apply Hchanged. reflexivity.
Qed.

Lemma find_cart_fmap (g : cart -> cart) (cartId : uuid) (d : DB) :
  (forall c, c_id (g c) = c_id c) ->
  find_cart_by_id cartId (set_carts (fmap g) d) = g <$> find_cart_by_id cartId d.
Proof.
  intros Hg. unfold find_cart_by_id. cbn [carts set_carts].
  induction (carts d) as [|c cs IH]; [reflexivity|].
  rewrite fmap_cons, !filter_cons, Hg.
  destruct (decide (c_id c = cartId)); [reflexivity|]. exact IH.
Qed.

Lemma abandon_cart_keeps_id (cartId : uuid) (c : cart) :
  c_id (abandon_cart cartId c) = c_id c.
Proof. unfold abandon_cart. destruct (decide (c_id c = cartId)); reflexivity. Qed.

Lemma completed_world (is_uuid : string -> bool)
    (enc : nat -> string -> string -> string)
    (encryptionKey : string) (session : Session) (cartId : uuid) (ord : order)
    (cart : cart) (w w1 : World) :
  truthy_string (s_metadata_cart_id session) = Some cartId ->
  find_order_by_session (s_id session) (db w) = Some ord ->
  find_cart_by_id cartId (db w) = Some cart ->
  handleCheckoutCompleted is_uuid enc session encryptionKey w = Returned tt w1 ->
  inventory (db w1) = inventory (db w) /\
  reservations (db w1)
    = filter (fun r => r_cart_id r <> cartId) (reservations (db w)) /\
  carts (db w1) = carts (db w) /\
  cart_items (db w1) = cart_items (db w) /\
  orders (db w1) = pay_order enc encryptionKey session (o_id ord) <$> orders (db w) /\
  order_items (db w1)
    = order_items (db w)
      ++ (order_item_of (o_id ord) <$> items_of_cart cartId (db w)) /\
  payments (db w1)
    = payments (db w)
      ++ match truthy_string (s_payment_intent session) with
         | Some payment_intent => [payment_of (o_id ord) session payment_intent]
         | None => []
         end.
Proof.
  intros Hcart Horder Hfound Hrun.
  pose proof (handleCheckoutCompleted_spec is_uuid enc encryptionKey session cartId
                ord cart w Hcart Horder Hfound) as Hspec.
  rewrite Hrun in Hspec. cbv zeta in Hspec.
  destruct (truthy_string (s_payment_intent session)).
  - destruct (session_idx_collides _ (db w)); [discriminate|].
    destruct (intent_idx_collides _ (db w)); [discriminate|].
    injection Hspec as ->. cbn. split_and!; reflexivity.
  - injection Hspec as ->. cbn. rewrite app_nil_r. split_and!; reflexivity.
Qed.

(** X13.  An Expiration that arrives after the Completion of the same
    session.  The handler returns; the Order, which the Completion had
    set to [paid], is set to [failed]; the cart is set to [abandoned];
    no stock is given back, since the Completion cleared the cart's
    reservations; the order items and the payment record stay. *)
Theorem expiration_after_completion (is_uuid : string -> bool)
    (enc : nat -> string -> string -> string)
    (encryptionKey : string) (session : Session) (cartId : uuid) (ord : order)
    (cart : cart) (w w1 : World) :
  truthy_string (s_metadata_cart_id session) = Some cartId ->
  find_order_by_session (s_id session) (db w) = Some ord ->
  find_cart_by_id cartId (db w) = Some cart ->
  handleCheckoutCompleted is_uuid enc session encryptionKey w = Returned tt w1 ->
  exists w2,
    handleCheckoutExpired is_uuid session w1 = Returned tt w2 /\
    o_status <$> find_order_by_session (s_id session) (db w1) = Some paid /\
    o_status <$> find_order_by_session (s_id session) (db w2) = Some failed /\
    inventory (db w2) = inventory (db w) /\
    reservations (db w2) = reservations (db w1) /\
    c_status <$> find_cart_by_id cartId (db w2) = Some (Some abandoned) /\
    order_items (db w2) = order_items (db w1) /\
    payments (db w2) = payments (db w1).
Proof.
  intros Hcart Horder Hfound Hrun.
  destruct (completed_world is_uuid enc encryptionKey session cartId ord cart w w1
              Hcart Horder Hfound Hrun)
    as [Hinv [Hres [Hcarts [_ [Horders _]]]]].
  set (pay := pay_order enc encryptionKey session (o_id ord)) in *.
  assert (Hpaid : find_order_by_session (s_id session) (db w1) = Some (pay ord)).
  { rewrite (find_order_ext _ _ (set_orders (fmap pay) (db w)))
      by (rewrite Horders; reflexivity).
    rewrite find_order_fmap by (intros; apply pay_order_keeps_session).
    rewrite Horder. reflexivity. }
  assert (Hnone : cart_reservations cartId (db w1) = []).
  { unfold cart_reservations. rewrite Hres. apply cart_reservations_cleared. }
  assert (Hvalid : uuid_text is_uuid (db w1) cartId = true).
  { apply (uuid_text_of_found_cart is_uuid cartId (db w1) cart).
    unfold find_cart_by_id in *. rewrite Hcarts. exact Hfound. }
  eexists.
  split; [apply (handleCheckoutExpired_spec is_uuid session cartId w1 Hcart Hvalid)|].
  unfold set_db; cbn [db]. rewrite Hpaid.
  assert (Hrel : forall d, reservations d = reservations (db w1) ->
                           inventory d = inventory (db w1) ->
                           inventory (released cartId d) = inventory (db w1) /\
                           reservations (released cartId d) = reservations (db w1)).
  { intros d Hr Hi.
    assert (Hd : cart_reservations cartId d = [])
      by (unfold cart_reservations; rewrite Hr; exact Hnone).
    rewrite (released_without_reservations _ _ Hd). split; assumption. }
  destruct (Hrel (set_orders (fmap (fail_order (o_id (pay ord)))) (db w1))
              eq_refl eq_refl) as [Hi Hr].
  split_and!.
  - unfold pay, pay_order. cbn.
    destruct (decide (o_id ord = o_id ord)); [reflexivity|done].
  - change (o_status <$> find_order_by_session (s_id session)
              (set_orders (fmap (fail_order (o_id (pay ord)))) (db w1))
            = Some failed).
    rewrite find_order_fmap by apply fail_order_keeps_session.
    rewrite Hpaid. cbn. unfold fail_order.
    destruct (decide (o_id (pay ord) = o_id (pay ord))); [reflexivity|done].
  - cbn [inventory set_carts]. rewrite Hi. exact Hinv.
  - cbn [reservations set_carts]. exact Hr.
  - rewrite find_cart_fmap by apply abandon_cart_keeps_id.
    change (find_cart_by_id cartId (released cartId
              (set_orders (fmap (fail_order (o_id (pay ord)))) (db w1))))
      with (find_cart_by_id cartId (db w1)).
    unfold find_cart_by_id in *. rewrite Hcarts, Hfound. cbn.
    unfold abandon_cart.
    rewrite (find_cart_by_id_id cartId (db w) cart Hfound).
    destruct (decide (cartId = cartId)); [reflexivity|done].
  - reflexivity.
  - reflexivity.
Qed.



(** ** Checkout: success, refusals, and what follows *)

Lemma find_cart_by_session_elem (sessionId : string) (d : DB) (c : cart) :
  find_cart_by_session sessionId d = Some c -> c ∈ carts d.
Proof.
  unfold find_cart_by_session. intros Hc. apply head_Some_elem_of in Hc.
  apply list_elem_of_filter in Hc as [_ Hc]. exact Hc.
Qed.

Lemma refresh_cart_keeps_id (clk : Clock) (cartId : uuid) (c : cart) :
  c_id (refresh_cart clk cartId c) = c_id c.
Proof. unfold refresh_cart. destruct (decide (c_id c = cartId)); reflexivity. Qed.

Lemma insert_order_returned (o : order) (d d' : DB) (inserted : list order) :
  insert_order o d = Returned inserted d' ->
  inserted = [o] /\ d' = set_orders (fun os => os ++ [o]) d.
Proof.
  unfold insert_order, bind, get.
  destruct (bool_decide (Exists (fun o' => o_cart_id o' = o_cart_id o) (orders d)));
    [discriminate|].
  destruct (bool_decide (Exists (fun o' =>
              is_Some (o_stripe_checkout_session_id o) /\
              o_stripe_checkout_session_id o' = o_stripe_checkout_session_id o)
              (orders d))); [discriminate|].
  intros [= <- <-]. split; reflexivity.
Qed.

Lemma checkout_reaches_order_insert
    (stripe : CreateParams -> option Session) (clk : Clock) (fresh : nat -> uuid)
    (new_order_id : uuid) (header : option string) (body : CheckoutBody)
    (w : World) (sessionId : string) (cart : cart) (session : Session)
    (checkout_url : string) :
  checkout_ready clk header w sessionId cart ->
  stripe (checkout_params sessionId cart body (db w)) = Some session ->
  truthy_string (s_url session) = Some checkout_url ->
  checkout_handler stripe clk fresh new_order_id header body w =
    match insert_order (pending_order new_order_id cart session)
            (set_carts (fmap (order_cart (c_id cart)))
               (reserved_store clk fresh cart (db w))) with
    | Returned _ d' =>
        Returned {| res_body := json_checkout checkout_url (s_id session);
                    res_status := 200 |}
          {| db := d'; event := event w;
             remote_sessions :=
               remote_sessions w ++ [checkout_params sessionId cart body (db w)] |}
    | Thrown e d' =>
        Thrown e
          {| db := d'; event := event w;
             remote_sessions :=
               remote_sessions w ++ [checkout_params sessionId cart body (db w)] |}
    end.
Proof.
  intros (Hheader & Hcart & Hitems & Hexp & Hstatus & Herrors & Hguards)
    Hstripe Hurl.
  unfold checkout_handler. rewrite Hheader. read_state w. rewrite Hcart.
  cbv zeta.
  destruct (Nat.eqb (length (items_of_cart (c_id cart) (db w))) 0) eqn:Hlen;
    [apply Nat.eqb_eq, nil_length_inv in Hlen; contradiction|].
  destruct (Z.ltb (c_expires_at cart) (clk_check clk)) eqn:Hlt;
    [apply Z.ltb_lt in Hlt; lia|].
  erewrite bind_returned; [|apply liftDB_returned, update_cart_spec].
  rewrite Hstatus. rewrite bool_decide_eq_true_2 by reflexivity. cbn [negb].
  erewrite bind_returned; [|reflexivity].
  change (stockErrors (db (set_db _ w)) (items_of_cart (c_id cart) (db w)))
    with (stockErrors (db w) (items_of_cart (c_id cart) (db w))).
  rewrite Herrors. cbn [length Nat.ltb Nat.leb].
  erewrite bind_returned;
    [|apply liftDB_returned, reserveStock_succeeds; exact Hguards].
  unfold checkout_params in Hstripe. cbv beta iota.
  erewrite bind_returned.
  2:{ unfold try_catch, stripe_checkout_sessions_create. rewrite Hstripe.
      erewrite bind_returned; [|reflexivity]. reflexivity. }
  rewrite Hurl.
  erewrite bind_returned; [|apply liftDB_returned, update_cart_spec].
  cbn [db set_db carts set_carts set_reservations set_inventory].
  pose proof (find_cart_by_session_elem _ _ _ Hcart) as Hin.
  destruct (with_cart_status ordered <$>
            filter (fun c => c_id c = c_id cart)
              ((fun c => if decide (c_id c = c_id cart)
                         then with_expires_at (clk_db_now clk + thirty_minutes) c
                         else c) <$> carts (db w))) as [|c0 cs] eqn:Hupdated.
  { exfalso. apply fmap_nil_inv in Hupdated.
    assert (Hmem : refresh_cart clk (c_id cart) cart
                   ∈ filter (fun c => c_id c = c_id cart)
                       (refresh_cart clk (c_id cart) <$> carts (db w))).
    { apply list_elem_of_filter. split; [apply refresh_cart_keeps_id|].
      apply list_elem_of_fmap_2, Hin. }
    unfold refresh_cart in Hmem at 2. rewrite Hupdated in Hmem. inversion Hmem. }
  unfold bind at 1, liftDB at 1. cbn [db].
  change (insert_order _ _)
    with (insert_order (pending_order new_order_id cart session)
            (set_carts (fmap (order_cart (c_id cart)))
               (reserved_store clk fresh cart (db w)))).
  destruct (insert_order (pending_order new_order_id cart session)
              (set_carts (fmap (order_cart (c_id cart)))
                 (reserved_store clk fresh cart (db w))))
    as [inserted d'|e d'] eqn:Hinsert.
  - apply insert_order_returned in Hinsert as [-> ->].
    destruct w as [d ev r]. reflexivity.
  - destruct w as [d ev r]. reflexivity.
Qed.

Lemma insert_order_fresh (o : order) (d : DB) :
  Forall (fun o' => o_cart_id o' <> o_cart_id o /\
                    o_stripe_checkout_session_id o'
                      <> o_stripe_checkout_session_id o) (orders d) ->
  insert_order o d = Returned [o] (set_orders (fun os => os ++ [o]) d).
Proof.
  intros Hfresh. rewrite Forall_forall in Hfresh.
  unfold insert_order, bind, get.
  rewrite bool_decide_eq_false_2.
  2:{ rewrite Exists_exists. intros [o' [Hin Heq]].
      destruct (Hfresh o' Hin) as [Hne _]. contradiction. }
  rewrite bool_decide_eq_false_2.
  2:{ rewrite Exists_exists. intros [o' [Hin [_ Heq]]].
      destruct (Hfresh o' Hin) as [_ Hne]. contradiction. }
  reflexivity.
Qed.

Lemma checkout_success_world
    (stripe : CreateParams -> option Session) (clk : Clock) (fresh : nat -> uuid)
    (new_order_id : uuid) (header : option string) (body : CheckoutBody)
    (w : World) (sessionId : string) (cart : cart) (session : Session)
    (checkout_url : string) :
  checkout_ready clk header w sessionId cart ->
  stripe (checkout_params sessionId cart body (db w)) = Some session ->
  truthy_string (s_url session) = Some checkout_url ->
  Forall (fun o => o_cart_id o <> c_id cart /\
                   o_stripe_checkout_session_id o <> Some (s_id session))
    (orders (db w)) ->
  checkout_handler stripe clk fresh new_order_id header body w =
    Returned {| res_body := json_checkout checkout_url (s_id session);
                res_status := 200 |}
      {| db := checked_out clk fresh new_order_id cart session (db w);
         event := event w;
         remote_sessions :=
           remote_sessions w ++ [checkout_params sessionId cart body (db w)] |}.
Proof.
  intros Hready Hstripe Hurl Hfresh.
  rewrite (checkout_reaches_order_insert stripe clk fresh new_order_id header body
             w sessionId cart session checkout_url Hready Hstripe Hurl).
  rewrite insert_order_fresh by exact Hfresh. reflexivity.
Qed.

Lemma find_order_appended (sid : string) (o : order) (os : list order) :
  Forall (fun o' => o_stripe_checkout_session_id o' <> Some sid) os ->
  o_stripe_checkout_session_id o = Some sid ->
  head (filter (fun o' => o_stripe_checkout_session_id o' = Some sid) (os ++ [o]))
  = Some o.
Proof.
  intros Hnone Ho. induction Hnone as [|o' os Ho' _ IH]; cbn [app].
  - rewrite filter_cons. destruct (decide _); [reflexivity|contradiction].
  - rewrite filter_cons. destruct (decide _); [contradiction|]. exact IH.
Qed.

(** X15.  A checkout that passes every check, gets a remote session
    with a redirect URL, and meets no Order for the same cart or session
    succeeds: it answers 200 with that URL and the session id; exactly
    one remote session has been created, carrying the cart id; every
    unit's stock is reduced by the quantity the cart requests of it; one
    reservation row per cart item, expiring 30 minutes after the clock
    reading, follows the earlier rows; the cart is [ordered] with its
    expiry pushed 30 minutes on; and a [pending] Order for the session
    has been inserted.  Order items and payments are untouched. *)
Theorem checkout_succeeds
    (stripe : CreateParams -> option Session) (clk : Clock) (fresh : nat -> uuid)
    (new_order_id : uuid) (header : option string) (body : CheckoutBody)
    (w : World) (sessionId : string) (cart : cart) (session : Session)
    (checkout_url : string) :
  checkout_ready clk header w sessionId cart ->
  stripe (checkout_params sessionId cart body (db w)) = Some session ->
  truthy_string (s_url session) = Some checkout_url ->
  Forall (fun o => o_cart_id o <> c_id cart /\
                   o_stripe_checkout_session_id o <> Some (s_id session))
    (orders (db w)) ->
  let items := stock_item_of <$> items_of_cart (c_id cart) (db w) in
  exists w',
    checkout_handler stripe clk fresh new_order_id header body w
      = Returned {| res_body := json_checkout checkout_url (s_id session);
                    res_status := 200 |} w' /\
    remote_sessions w'
      = remote_sessions w ++ [checkout_params sessionId cart body (db w)] /\
    cp_metadata_cart_id (checkout_params sessionId cart body (db w)) = c_id cart /\
    (forall v,
        inventory (db w') !! v
        = (fun stock => stock - total_for v (requested <$> items))
            <$> inventory (db w) !! v) /\
    reservations (db w')
      = reservations (db w)
        ++ reservation_rows fresh 0 (c_id cart) items (clk_reserve clk + 1800000) /\
    (forall c, c ∈ carts (db w') -> c_id c = c_id cart ->
               c_status c = Some ordered /\
               c_expires_at c = clk_db_now clk + 1800000) /\
    orders (db w') = orders (db w) ++ [pending_order new_order_id cart session] /\
    find_order_by_session (s_id session) (db w')
      = Some (pending_order new_order_id cart session) /\
    order_items (db w') = order_items (db w) /\
    payments (db w') = payments (db w).
Proof.
  intros Hready Hstripe Hurl Hfresh items.
  eexists. split.
  { apply (checkout_success_world stripe clk fresh new_order_id header body w
             sessionId cart session checkout_url Hready Hstripe Hurl Hfresh). }
  cbn [db remote_sessions]. split_and!; try reflexivity.
  - intros v. unfold checked_out, reserved_store.
    cbn [inventory set_orders set_carts set_reservations set_inventory].
    apply debit_lookup.
  - intros c Hc Hid. unfold checked_out, reserved_store in Hc.
    cbn [carts set_orders set_carts set_reservations set_inventory] in Hc.
    apply list_elem_of_fmap in Hc as [c1 [-> Hc1]].
    apply list_elem_of_fmap in Hc1 as [c0 [-> Hc0]].
    unfold order_cart, refresh_cart in *.
    destruct (decide (c_id c0 = c_id cart)) as [H0|H0]; cbn in *.
    + destruct (decide (c_id c0 = c_id cart)); [|contradiction]. cbn.
      split; reflexivity.
    + destruct (decide (c_id c0 = c_id cart)); contradiction.
  - unfold find_order_by_session, checked_out.
    cbn [orders set_orders set_carts set_reservations set_inventory reserved_store].
    apply find_order_appended; [|reflexivity].
    eapply Forall_impl; [exact Hfresh|]. cbn. intros o [_ Ho]. exact Ho.
Qed.

Lemma total_for_absent (v : uuid) (l : list (uuid * Z)) :
  v ∉ l.*1 -> total_for v l = 0.
Proof.
  induction l as [|[u q] l IH]; [reflexivity|].
  rewrite fmap_cons, not_elem_of_cons. cbn [fst]. intros [Hne Hl].
  unfold total_for in *; cbn [foldr fst snd].
  destruct (decide (u = v)); [congruence|]. apply IH, Hl.
Qed.

Lemma NoDup_not_in_prefix {A} (l : list A) (j : nat) (x : A) :
  NoDup l -> l !! j = Some x -> x ∉ take j l.
Proof.
  intros Hnodup Hj Hin. apply list_elem_of_lookup in Hin as [i Hi].
  pose proof (lookup_lt_Some _ _ _ Hi) as Hlt. rewrite length_take in Hlt.
  rewrite lookup_take_lt in Hi by lia.
  pose proof (NoDup_lookup _ _ _ _ Hnodup Hi Hj). lia.
Qed.

(** X16.  The read-only stock check decides the reservation when the
    cart has one row per unit.  If no two cart items share a unit, every
    quantity is positive and the check finds no shortfall, then every
    availability guard of [reserveStock] passes and the reservation
    returns success; the declined path can then only be reached through
    a change of the stock between the check and the reservation. *)
Theorem readonly_check_decides_reservation (fresh : nat -> uuid) (cartId : uuid)
    (items : list cart_item) (expiresAt : Z) (d : DB) :
  NoDup (ci_variant_id <$> items) ->
  Forall (fun it => 0 < ci_quantity it) items ->
  stockErrors d items = [] ->
  (forall j it,
      (stock_item_of <$> items) !! j = Some it ->
      guard_passes (ledger_before j (stock_item_of <$> items) (inventory d)) it
        = true)
  /\
  returned (reserveStock fresh cartId (stock_item_of <$> items) expiresAt d)
    = Some success_true.
Proof.
  intros Hnodup Hpos Herrors.
  assert (Hguards : forall j it,
    (stock_item_of <$> items) !! j = Some it ->
    guard_passes (ledger_before j (stock_item_of <$> items) (inventory d)) it
      = true).
  { intros j it Hj.
    rewrite list_lookup_fmap in Hj.
    destruct (items !! j) as [ci|] eqn:Hci; [|discriminate].
    injection Hj as <-.
    assert (Hin : ci ∈ items) by (apply list_elem_of_lookup; eauto).
    rewrite Forall_forall in Hpos. pose proof (Hpos ci Hin) as Hq.
    assert (Hok : ~ stock_or_zero d (ci_variant_id ci) < ci_quantity ci).
    { intros Hshort.
      assert (Hmem : ci ∈ filter (fun it =>
                stock_or_zero d (ci_variant_id it) < ci_quantity it) items)
        by (apply list_elem_of_filter; split; assumption).
      unfold stockErrors in Herrors. apply fmap_nil_inv in Herrors.
      rewrite Herrors in Hmem. inversion Hmem. }
    unfold guard_passes, ledger_before. cbn [variant_id quantity stock_item_of].
    rewrite debit_lookup.
    rewrite total_for_absent.
    2:{ rewrite <- fmap_take, <- !list_fmap_compose.
        change (fst ∘ requested ∘ stock_item_of) with ci_variant_id.
        rewrite fmap_take.
        apply NoDup_not_in_prefix; [exact Hnodup|].
        rewrite list_lookup_fmap, Hci. reflexivity. }
    unfold stock_or_zero in Hok.
    destruct (inventory d !! ci_variant_id ci) as [stock|]; cbn in *.
    - apply Z.leb_le. lia.
    - lia. }
  split; [exact Hguards|].
  rewrite (reserveStock_succeeds fresh cartId _ expiresAt d Hguards). reflexivity.
Qed.


Lemma order_cart_keeps_id (cartId : uuid) (c : cart) :
  c_id (order_cart cartId c) = c_id c.
Proof. unfold order_cart. destruct (decide (c_id c = cartId)); reflexivity. Qed.



Lemma find_cart_by_id_of_elem (c : cart) (d : DB) :
  c ∈ carts d -> exists c0, find_cart_by_id (c_id c) d = Some c0.
Proof.
  intros Hc. unfold find_cart_by_id.
  destruct (filter (fun c0 => c_id c0 = c_id c) (carts d)) as [|c0 cs] eqn:Hf.
  - assert (Hin : c ∈ filter (fun c0 => c_id c0 = c_id c) (carts d))
      by (apply list_elem_of_filter; split; [reflexivity|exact Hc]).
    rewrite Hf in Hin. inversion Hin.
  - exists c0. reflexivity.
Qed.

Lemma reservation_rows_other_cart (fresh : nat -> uuid) (n : nat) (cartId : uuid)
    (items : list StockItem) (expiresAt : Z) :
  filter (fun r => r_cart_id r <> cartId)
    (reservation_rows fresh n cartId items expiresAt) = [].
Proof.
  revert n; induction items as [|it its IH]; intros n; [done|].
  cbn [reservation_rows]. rewrite filter_cons. cbn [r_cart_id].
  destruct (decide (cartId <> cartId)); [done|]. apply IH.
Qed.

(** X18.  Checkout followed by the Completion of its session.  After a
    successful checkout, a Completion carrying the cart id for the
    session (no payment row stored yet for the session or its payment
    intent) returns; the Order is [paid]; the order items are the cart's
    items under the new order id; the cart stays [ordered]; the cart
    holds no reservation row; and the stock stays debited by what the
    checkout reserved: nothing is given back. *)
Theorem checkout_then_completion (is_uuid : string -> bool)
    (stripe : CreateParams -> option Session) (clk : Clock) (fresh : nat -> uuid)
    (new_order_id : uuid) (header : option string) (body : CheckoutBody)
    (enc : nat -> string -> string -> string) (encryptionKey : string)
    (w : World) (sessionId : string) (cart : cart) (session : Session)
    (checkout_url : string) :
  checkout_ready clk header w sessionId cart ->
  stripe (checkout_params sessionId cart body (db w)) = Some session ->
  truthy_string (s_url session) = Some checkout_url ->
  Forall (fun o => o_cart_id o <> c_id cart /\
                   o_stripe_checkout_session_id o <> Some (s_id session))
    (orders (db w)) ->
  truthy_string (s_metadata_cart_id session) = Some (c_id cart) ->
  (forall orderId payment_intent,
      truthy_string (s_payment_intent session) = Some payment_intent ->
      payment_collides (payment_of orderId session payment_intent) (db w) = false) ->
  exists response w1 w2,
    checkout_handler stripe clk fresh new_order_id header body w
      = Returned response w1 /\
    handleCheckoutCompleted is_uuid enc session encryptionKey w1 = Returned tt w2 /\
    o_status <$> find_order_by_session (s_id session) (db w2) = Some paid /\
    (forall v,
        inventory (db w2) !! v
        = (fun stock =>
             stock - total_for v
                       (requested <$>
                          (stock_item_of <$> items_of_cart (c_id cart) (db w))))
            <$> inventory (db w) !! v) /\
    reservations (db w2)
      = filter (fun r => r_cart_id r <> c_id cart) (reservations (db w)) /\
    order_items (db w2)
      = order_items (db w)
        ++ (order_item_of new_order_id <$> items_of_cart (c_id cart) (db w)) /\
    c_status <$> find_cart_by_id (c_id cart) (db w2) = Some (Some ordered).
Proof.
  intros Hready Hstripe Hurl Hfresh Hmeta Hfree.
  pose proof (checkout_success_world stripe clk fresh new_order_id header body w
                sessionId cart session checkout_url Hready Hstripe Hurl Hfresh)
    as Hrun.
  set (w1 := {| db := checked_out clk fresh new_order_id cart session (db w);
                event := event w;
                remote_sessions :=
                  remote_sessions w ++ [checkout_params sessionId cart body (db w)] |})
    in *.
  set (ord := pending_order new_order_id cart session).
  assert (Horder1 : find_order_by_session (s_id session) (db w1) = Some ord).
  { unfold find_order_by_session, w1, checked_out.
    cbn [db orders set_orders set_carts set_reservations set_inventory
         reserved_store].
    apply find_order_appended; [|reflexivity].
    eapply Forall_impl; [exact Hfresh|]. cbn. intros o [_ Ho]. exact Ho. }
  destruct Hready as [_ [Hcart _]].
  destruct (find_cart_by_id_of_elem cart (db w)
              (find_cart_by_session_elem _ _ _ Hcart)) as [c0 Hc0].
  assert (Hfound1 : find_cart_by_id (c_id cart) (db w1)
                    = Some (order_cart (c_id cart)
                              (refresh_cart clk (c_id cart) c0))).
  { change (find_cart_by_id (c_id cart)
              (set_carts (fmap (order_cart (c_id cart)))
                 (set_carts (fmap (refresh_cart clk (c_id cart))) (db w)))
            = Some (order_cart (c_id cart) (refresh_cart clk (c_id cart) c0))).
    rewrite find_cart_fmap by apply order_cart_keeps_id.
    rewrite find_cart_fmap by apply refresh_cart_keeps_id.
    rewrite Hc0. reflexivity. }
  destruct (handleCheckoutCompleted_returns is_uuid enc encryptionKey session w1)
    as [w2 Hrun2].
  { intros text Htext. rewrite Hmeta in Htext. injection Htext as <-.
    apply (uuid_text_of_found_cart is_uuid _ (db w1) _ Hfound1). }
  { intros orderId payment_intent Hpi.
    change (payment_collides (payment_of orderId session payment_intent) (db w)
            = false).
    apply Hfree, Hpi. }
  destruct (completed_world is_uuid enc encryptionKey session (c_id cart) ord _ w1 w2
              Hmeta Horder1 Hfound1 Hrun2)
    as [Hinv [Hres [Hcarts [Hitems [Horders [Hoi _]]]]]].
  eexists _, w1, w2. split; [exact Hrun|]. split; [exact Hrun2|].
  split_and!.
  - rewrite (find_order_ext _ _
               (set_orders (fmap (pay_order enc encryptionKey session (o_id ord)))
                  (db w1))) by (rewrite Horders; reflexivity).
    rewrite find_order_fmap by (intros; apply pay_order_keeps_session).
    rewrite Horder1. cbn. unfold pay_order, ord, pending_order. cbn [o_id].
    destruct (decide (new_order_id = new_order_id)); [reflexivity|done].
  - intros v. rewrite Hinv.
    change (inventory (db w1))
      with (debit (requested <$>
                     (stock_item_of <$> items_of_cart (c_id cart) (db w)))
              (inventory (db w))).
    apply debit_lookup.
  - rewrite Hres.
    change (reservations (db w1))
      with (reservations (db w)
            ++ reservation_rows fresh 0 (c_id cart)
                 (stock_item_of <$> items_of_cart (c_id cart) (db w))
                 (clk_reserve clk + thirty_minutes)).
    rewrite filter_app, reservation_rows_other_cart, app_nil_r. reflexivity.
  - rewrite Hoi. reflexivity.
  - unfold find_cart_by_id in *. rewrite Hcarts, Hfound1. cbn.
    unfold order_cart. rewrite refresh_cart_keeps_id.
    rewrite (find_cart_by_id_id (c_id cart) (db w) c0 Hc0).
    destruct (decide (c_id cart = c_id cart)); [reflexivity|done].
Qed.

Lemma reserveStock_thrown (fresh : nat -> uuid) (cartId : uuid)
    (items : list StockItem) (expiresAt : Z) (d d' : DB) (e : exn) :
  reserveStock fresh cartId items expiresAt d = Thrown e d' ->
  e = TransactionRollbackError /\ d' = d.
Proof.
  intros Hrun.
  pose proof (reserve_loop_spec fresh cartId expiresAt items 0 d) as Hloop.
  unfold reserveStock, transaction in Hrun.
  destruct (first_shortfall (inventory d) items 0).
  - destruct Hloop as [d0 Hloop]. rewrite Hloop in Hrun.
    injection Hrun as <- <-. split; reflexivity.
  - rewrite Hloop in Hrun. discriminate.
Qed.

Lemma insert_order_thrown (o : order) (d d' : DB) (e : exn) :
  insert_order o d = Thrown e d' -> exists index, e = UniqueViolation index.
Proof.
  unfold insert_order, bind, get.
  destruct (bool_decide (Exists (fun o' => o_cart_id o' = o_cart_id o) (orders d)));
    [intros [= <- _]; eexists; reflexivity|].
  destruct (bool_decide (Exists (fun o' =>
              is_Some (o_stripe_checkout_session_id o) /\
              o_stripe_checkout_session_id o' = o_stripe_checkout_session_id o)
              (orders d))); [intros [= <- _]; eexists; reflexivity|].
  discriminate.
Qed.

Lemma checkout_thrown_cases
    (stripe : CreateParams -> option Session) (clk : Clock) (fresh : nat -> uuid)
    (new_order_id : uuid) (header : option string) (body : CheckoutBody)
    (w : World) :
  match checkout_handler stripe clk fresh new_order_id header body w with
  | Returned _ _ => True
  | Thrown e w' =>
      (exists message, e = AppError 500 message) \/
      (exists index, e = UniqueViolation index) \/
      (ledger_kept w w' /\
       (carts (db w') = carts (db w) \/
        exists sessionId cart,
          truthy_string header = Some sessionId /\
          find_cart_by_session sessionId (db w) = Some cart /\
          carts (db w') = refresh_cart clk (c_id cart) <$> carts (db w)))
  end.
Proof.
  assert (Hsame : forall ev, ledger_kept w {| db := db w; event := ev;
                                              remote_sessions := remote_sessions w |})
    by (intros; repeat split).
  unfold checkout_handler.
  destruct (truthy_string header) as [sessionId|] eqn:Hheader;
    [|right; right; split; [repeat split|left; reflexivity]].
  read_state w.
  destruct (find_cart_by_session sessionId (db w)) as [cart|] eqn:Hcart;
    [|right; right; split; [apply Hsame|left; reflexivity]].
  cbv zeta.
  destruct (Nat.eqb (length (items_of_cart (c_id cart) (db w))) 0);
    [right; right; split; [apply Hsame|left; reflexivity]|].
  destruct (Z.ltb (c_expires_at cart) (clk_check clk));
    [right; right; split; [apply Hsame|left; reflexivity]|].
  erewrite bind_returned; [|apply liftDB_returned, update_cart_spec].
  destruct (negb (bool_decide (c_status cart = Some active)));
    [right; right; split;
       [repeat split
       |right; exists sessionId, cart;
        split_and!; [reflexivity|exact Hcart|reflexivity]]|].
  erewrite bind_returned; [|reflexivity].
  match goal with
  | |- context [Nat.ltb 0 (length ?errors)] => destruct (Nat.ltb 0 (length errors))
  end;
    [right; right; split;
       [repeat split
       |right; exists sessionId, cart;
        split_and!; [reflexivity|exact Hcart|reflexivity]]|].
  match goal with
  | |- context [bind (liftDB (reserveStock ?f ?c ?its ?ex)) _ ?w0] =>
      destruct (reserveStock f c its ex (db w0)) as [result d1|e d1] eqn:Hreserve
  end.
  2:{ erewrite bind_thrown; [|apply liftDB_thrown, Hreserve].
      apply reserveStock_thrown in Hreserve as [-> ->].
      right; right; split;
        [repeat split
        |right; exists sessionId, cart;
         split_and!; [reflexivity|exact Hcart|reflexivity]]. }
  erewrite bind_returned; [|apply liftDB_returned, Hreserve].
  apply reserveStock_returned in Hreserve as [-> _].
  cbv beta iota.
  match goal with
  | |- context [stripe_checkout_sessions_create stripe ?params] =>
      destruct (stripe params) as [session|] eqn:Hstripe
  end.
  2:{ erewrite bind_thrown.
      2:{ unfold try_catch, stripe_checkout_sessions_create. rewrite Hstripe.
          unfold throw at 1.
          erewrite bind_returned;
            [|apply liftDB_returned, restoreStockFromReservations_spec].
          reflexivity. }
      left. eexists; reflexivity. }
  erewrite bind_returned.
  2:{ unfold try_catch, stripe_checkout_sessions_create. rewrite Hstripe.
      erewrite bind_returned; [|reflexivity]. reflexivity. }
  destruct (truthy_string (s_url session)) as [checkout_url|].
  2:{ erewrite bind_returned;
        [|apply liftDB_returned, restoreStockFromReservations_spec].
      left. eexists; reflexivity. }
  erewrite bind_returned; [|apply liftDB_returned, update_cart_spec].
  match goal with
  | |- context [match ?updated with [] => _ | _ :: _ => _ end] =>
      destruct updated as [|c0 cs]
  end.
  { erewrite bind_returned;
      [|apply liftDB_returned, restoreStockFromReservations_spec].
    left. eexists; reflexivity. }
  unfold bind at 1, liftDB at 1.
  match goal with
  | |- context [insert_order ?o ?d0] =>
      destruct (insert_order o d0) as [inserted d2|e d2] eqn:Hinsert
  end.
  - apply insert_order_returned in Hinsert as [-> ->]. exact I.
  - right; left. eapply insert_order_thrown, Hinsert.
Qed.

(** X19.  A checkout that is refused never touches the ledger.  When
    the checkout handler throws a client error (any [AppError] whose
    status is not 500) or the rollback of the reservation transaction,
    the inventory, the reservations, the cart items, the orders, the
    order items, the payments and the sessions created at the payment
    provider are what they were before the request; the carts are
    untouched, or the cart found for the request's session id has had
    its expiry refreshed and nothing else has changed. *)
Theorem refused_checkout_keeps_the_ledger
    (stripe : CreateParams -> option Session) (clk : Clock) (fresh : nat -> uuid)
    (new_order_id : uuid) (header : option string) (body : CheckoutBody)
    (w w' : World) (e : exn) :
  checkout_handler stripe clk fresh new_order_id header body w = Thrown e w' ->
  (e = TransactionRollbackError \/
   exists status message, e = AppError status message /\ status <> 500) ->
  ledger_kept w w' /\
  (carts (db w') = carts (db w) \/
   exists sessionId cart,
     truthy_string header = Some sessionId /\
     find_cart_by_session sessionId (db w) = Some cart /\
     carts (db w') = refresh_cart clk (c_id cart) <$> carts (db w)).
Proof.
  intros Hrun Hrefused.
  pose proof (checkout_thrown_cases stripe clk fresh new_order_id header body w)
    as Hcases.
  rewrite Hrun in Hcases.
  destruct Hcases as [[message ->]|[[index ->]|Hkept]]; [| |exact Hkept].
  - destruct Hrefused as [Hr|(status & m & Hr & Hs)]; [discriminate|].
    injection Hr as <- _. contradiction.
  - destruct Hrefused as [Hr|(status & m & Hr & _)]; discriminate.
Qed.

(** ** Instances on the sample data *)

Lemma reserve_moves_stock_into_reserved_witness :
  exists after,
    getAvailableStock "var-A"
      (final_state (reserveStock ex_fresh "cart-1"
                      (stock_item_of <$> [ex_item 2]) 9000 ex_active))
      = Some after /\
    stock_quantity after = 3 /\ reserved_quantity after = 2 /\
    available after = 1.
Proof.
  destruct (reserve_moves_stock_into_reserved ex_fresh "cart-1"
              (stock_item_of <$> [ex_item 2]) 9000 ex_active
              (final_state (reserveStock ex_fresh "cart-1"
                              (stock_item_of <$> [ex_item 2]) 9000 ex_active))
              "var-A"
              {| stock_quantity := 5; reserved_quantity := 0; available := 5 |})
    as (after & Hread & Hstock & Hreserved & _ & Havailable);
    [vm_compute; reflexivity..|].
  exists after. rewrite Hstock, Hreserved, Havailable.
  split; [exact Hread|]. split_and!; reflexivity.
Defined.


Lemma clear_commits_the_decrement_witness :
  inventory (final_state (clearReservations "cart-1" ex_pending))
    = inventory ex_pending /\
  cart_reservations "cart-2" (final_state (clearReservations "cart-1" ex_pending))
    = cart_reservations "cart-2" ex_pending.
Proof.
  destruct (clear_commits_the_decrement "cart-1" ex_pending)
    as (Hinventory & _ & Hothers & _).
  split; [exact Hinventory|]. apply Hothers. discriminate.
Defined.


Lemma timingSafeEqual_accepts_equal_digests_witness :
  timingSafeEqual ex_digest "admin-key" "admin-key" = true /\
  timingSafeEqual ex_digest "admin-key" "admin" = false.
Proof.
  destruct (timingSafeEqual_accepts_equal_digests ex_digest "admin-key" "admin")
    as (_ & Hself & Hlength); [vm_compute; reflexivity|].
  split; [exact Hself|]. apply Hlength. vm_compute. discriminate.
Defined.

Lemma adminAuth_guards_the_route_witness :
  adminAuth ex_digest (Some "admin-key") (Some "admin-key")
    (delete_reservation_handler "res-1") (world_of ex_pending)
  = delete_reservation_handler "res-1" (world_of ex_pending) /\
  exists message,
    adminAuth ex_digest None (Some "admin-key")
      (delete_reservation_handler "res-1") (world_of ex_pending)
    = Thrown (ForbiddenError message) (world_of ex_pending).
Proof.
  split.
  - destruct (adminAuth_guards_the_route ex_digest (Some "admin-key")
                (Some "admin-key") (delete_reservation_handler "res-1")
                (world_of ex_pending)) as (Haccepted & _).
    apply (Haccepted "admin-key"); reflexivity.
  - destruct (adminAuth_guards_the_route ex_digest None
                (Some "admin-key") (delete_reservation_handler "res-1")
                (world_of ex_pending)) as (_ & _ & Hmissing).
    apply Hmissing. left. reflexivity.
Defined.

Lemma refused_admin_request_is_inert_witness :
  final_state
    (admin_update_inventory ex_digest (Some "guess") (Some "admin-key") "var-A"
       {| body_stock_quantity := Some 0; body_adjust := None |}
       (world_of ex_pending))
  = world_of ex_pending.
Proof.
  destruct (refused_admin_request_is_inert ex_digest (Some "guess")
              (Some "admin-key") (world_of ex_pending)) as (Hupdate & _).
  apply Hupdate. vm_compute. reflexivity.
Defined.

Lemma ex_cipher_opens (n : nat) (v encryptionKey : string) :
  v <> "" -> ex_seal n v encryptionKey <> "" /\
             ex_unseal (ex_seal n v encryptionKey) encryptionKey = Some v.
Proof. intros _. split; [discriminate|reflexivity]. Qed.

Lemma decryptPII_undoes_encryptPII_witness :
  decryptPII ex_unseal "key" (encryptPII ex_seal "key" ex_customer) = ex_customer /\
  decryptPII ex_unseal "key" ex_customer = ex_customer.
Proof.
  destruct (decryptPII_undoes_encryptPII ex_seal ex_unseal "key" ex_customer)
    as (Hround & Hlegacy).
  split.
  - apply Hround. intros n v. apply ex_cipher_opens.
  - apply Hlegacy. vm_compute. repeat constructor.
Defined.

Lemma settled_order_reads_back_witness :
  exists response,
    get_single_order_handler ex_unseal "key" "order-1"
      (final_state (handleCheckoutCompleted ex_is_uuid ex_seal ex_paid_session "key"
                      (world_of ex_pending)))
    = Returned response
        (final_state (handleCheckoutCompleted ex_is_uuid ex_seal ex_paid_session "key"
                        (world_of ex_pending))) /\
    o_status (ow_order response) = paid /\
    o_pii (ow_order response) = present ex_customer /\
    ow_items response = [order_item_of "order-1" (ex_item 2)].
Proof.
  destruct (settled_order_reads_back ex_is_uuid ex_seal ex_unseal "key" ex_paid_session
              "cart-1" ex_order (ex_cart ordered) (world_of ex_pending)
              (final_state (handleCheckoutCompleted ex_is_uuid ex_seal ex_paid_session "key"
                              (world_of ex_pending))))
    as (response & Hread & _ & Hstatus & Hpii & _ & _ & Hitems);
    [vm_compute; reflexivity..|intros n v; apply ex_cipher_opens|].
  exists response. split; [exact Hread|]. split; [exact Hstatus|].
  split; [exact Hpii|]. rewrite Hitems. vm_compute. reflexivity.
Defined.

Lemma webhook_store_changes_need_a_handled_event_witness :
  db (final_state
        (stripe_webhook_handler ex_is_uuid
           (ex_verify "payment_intent.created" (ex_session (Some "cart-1")))
           ex_enc ex_env "body" (Some "t=1,v1=sig") (world_of ex_pending)))
  = ex_pending.
Proof.
  destruct (webhook_store_changes_need_a_handled_event ex_is_uuid
              (ex_verify "payment_intent.created" (ex_session (Some "cart-1")))
              ex_enc ex_env "body" (Some "t=1,v1=sig") (world_of ex_pending))
    as (_ & _ & _ & Hother & _).
  destruct (Hother "t=1,v1=sig" "whsec_1"
              (ex_event "payment_intent.created" (ex_session (Some "cart-1"))))
    as (_ & _ & Hdb); [reflexivity..|discriminate|discriminate|].
  exact Hdb.
Defined.

Lemma expiration_after_completion_witness :
  exists w2,
    handleCheckoutExpired ex_is_uuid (ex_session (Some "cart-1")) ex_settled = Returned tt w2 /\
    o_status <$> find_order_by_session "cs_1" (db w2) = Some failed /\
    inventory (db w2) = inventory ex_pending.
Proof.
  destruct (expiration_after_completion ex_is_uuid ex_enc "key" (ex_session (Some "cart-1"))
              "cart-1" ex_order (ex_cart ordered) (world_of ex_pending) ex_settled)
    as (w2 & Hrun & _ & Hfailed & Hinventory & _); [vm_compute; reflexivity..|].
  exists w2. split; [exact Hrun|]. split; [exact Hfailed|exact Hinventory].
Defined.


Lemma ex_active_ready :
  checkout_ready ex_clock (Some "sess-1") (world_of ex_active) "sess-1"
    (ex_cart active).
Proof.
  unfold checkout_ready. split_and!; try (vm_compute; reflexivity).
  - vm_compute. discriminate.
  - vm_compute. discriminate.
  - intros [|[|j]] it; vm_compute; intros [= <-] || intros [=]; reflexivity.
Qed.

Lemma checkout_succeeds_witness :
  exists w',
    checkout_handler ex_stripe ex_clock ex_fresh "order-1" (Some "sess-1") ex_body
      (world_of ex_active)
    = Returned {| res_body := json_checkout "https://pay.example/cs_1" "cs_1";
                  res_status := 200 |} w' /\
    inventory (db w') !! "var-A" = Some 3 /\
    orders (db w') = [ex_order].
Proof.
  destruct (checkout_succeeds ex_stripe ex_clock ex_fresh "order-1" (Some "sess-1")
              ex_body (world_of ex_active) "sess-1" (ex_cart active)
              (ex_session (Some "cart-1")) "https://pay.example/cs_1"
              ex_active_ready eq_refl eq_refl (Forall_nil_2 _))
    as (w' & Hrun & _ & _ & Hstock & _ & _ & Horders & _).
  exists w'. split; [exact Hrun|].
  split; [rewrite Hstock; vm_compute; reflexivity|exact Horders].
Defined.

Lemma readonly_check_decides_reservation_witness :
  returned (reserveStock ex_fresh "cart-1" (stock_item_of <$> [ex_item 2]) 9000
              ex_active)
  = Some success_true.
Proof.
  apply (readonly_check_decides_reservation ex_fresh "cart-1" [ex_item 2] 9000
           ex_active).
  - vm_compute. repeat constructor. intros Hin. inversion Hin.
  - repeat constructor.
  - vm_compute. reflexivity.
Defined.


Lemma checkout_then_completion_witness :
  exists response w1 w2,
    checkout_handler ex_stripe ex_clock ex_fresh "order-1" (Some "sess-1") ex_body
      (world_of ex_active) = Returned response w1 /\
    handleCheckoutCompleted ex_is_uuid ex_enc (ex_session (Some "cart-1")) "key" w1
      = Returned tt w2 /\
    inventory (db w2) !! "var-A" = Some 3 /\
    order_items (db w2) = [order_item_of "order-1" (ex_item 2)].
Proof.
  destruct (checkout_then_completion ex_is_uuid ex_stripe ex_clock ex_fresh "order-1"
              (Some "sess-1") ex_body ex_enc "key" (world_of ex_active) "sess-1"
              (ex_cart active) (ex_session (Some "cart-1"))
              "https://pay.example/cs_1"
              ex_active_ready eq_refl eq_refl (Forall_nil_2 _) eq_refl)
    as (response & w1 & w2 & Hrun & Hcompleted & _ & Hstock & _ & Hitems & _);
    [intros orderId payment_intent _; vm_compute; reflexivity|].
  exists response, w1, w2. split; [exact Hrun|]. split; [exact Hcompleted|].
  split; [rewrite Hstock; vm_compute; reflexivity|exact Hitems].
Defined.

Lemma refused_checkout_keeps_the_ledger_witness :
  ledger_kept (world_of ex_twice)
    (final_state
       (checkout_handler ex_stripe ex_clock ex_fresh "order-1" (Some "sess-1")
          ex_body (world_of ex_twice))).
Proof.
  apply (refused_checkout_keeps_the_ledger ex_stripe ex_clock ex_fresh "order-1"
           (Some "sess-1") ex_body (world_of ex_twice) _ TransactionRollbackError).
  - vm_compute. reflexivity.
  - left. reflexivity.
Defined.
